(** * aip: automatic investment plan -- a shallow embedding of the Go sources

    The development follows the packages of the repository:
    - [Float64], [Strconv], [Strings], [URL], [SHA256], [HMAC], [Base64]
      model the parts of the Go standard library the program calls
      (IEEE 754 binary64 arithmetic, [strconv.FormatFloat], [url.QueryEscape],
      [crypto/hmac], ...);
    - [Errors] models [github.com/pkg/errors] values;
    - [Period] embeds [plan/period.go];
    - [Huobi] embeds [huobi/huobi.go];
    - [DB] embeds the [db] package;
    - [Plan] embeds [plan/plan.go].

    Definitions come first, the theorems about them follow. *)

From Stdlib Require Import ZArith String Ascii List Bool Lia.
From Stdlib Require Import Floats.SpecFloat.
From stdpp Require Import base option list strings pretty gmap sorting.
From Equations Require Import Equations.

Open Scope Z_scope.

(** ** IEEE 754 binary64, the Go type [float64] *)

Module Float64.

Definition prec : Z := 53.
Definition emax : Z := 1024.

(** A [float64] is a [spec_float]: signed zeros, infinities, one NaN,
    and finite numbers [(-1)^s * m * 2^e]. *)
Definition float64 : Type := spec_float.

Definition add : float64 -> float64 -> float64 := SFadd prec emax.
Definition sub : float64 -> float64 -> float64 := SFsub prec emax.
Definition mul : float64 -> float64 -> float64 := SFmul prec emax.
Definition div : float64 -> float64 -> float64 := SFdiv prec emax.
Definition neg : float64 -> float64 := SFopp.

(** Go's [==], [<] and [<=] on [float64]: false as soon as a NaN is involved. *)
Definition eqb : float64 -> float64 -> bool := SFeqb.
Definition ltb : float64 -> float64 -> bool := SFltb.
Definition leb : float64 -> float64 -> bool := SFleb.

Definition IsNaN (x : float64) : bool :=
  match x with S754_nan => true | _ => false end.

Definition IsInf (x : float64) : bool :=
  match x with S754_infinity _ => true | _ => false end.

(** Neither an infinity nor a NaN. *)
Definition is_finite (x : float64) : bool :=
  match x with
  | S754_zero _ | S754_finite _ _ _ => true
  | S754_infinity _ | S754_nan => false
  end.

Definition is_zero (x : float64) : bool :=
  match x with S754_zero _ => true | _ => false end.

Definition pos_zero : float64 := S754_zero false.
Definition pos_inf : float64 := S754_infinity false.

(** The float64 nearest to the integer [n] (ties to even). *)
Definition of_Z (n : Z) : float64 := binary_normalize prec emax n 0 false.

(** The float64 nearest to the rational [n / d] (ties to even): what the
    Go compiler computes for a decimal constant and what [ParseFloat]
    returns for a decimal string. *)
Definition of_ratio (n : Z) (d : positive) : float64 :=
  let round (s : bool) (p : positive) :=
    let '(mz, ez, lz) := SFdiv_core_binary prec emax (Zpos p) 0 (Zpos d) 0 in
    binary_round_aux prec emax s mz ez lz in
  match n with
  | Z0 => S754_zero false
  | Zpos p => round false p
  | Zneg p => round true p
  end.

(** The decimal constant [n * 10^(-digits)], e.g. [1.2 = decimal 12 1]. *)
Definition decimal (n : Z) (digits : nat) : float64 :=
  of_ratio n (Z.to_pos (10 ^ Z.of_nat digits)).

(** [math.Floor]: the greatest integer value less than or equal to [x];
    [Floor(±0) = ±0], [Floor(±Inf) = ±Inf], [Floor(NaN) = NaN]. *)
Definition Floor (x : float64) : float64 :=
  match x with
  | S754_finite s m e =>
      if 0 <=? e then x
      else binary_normalize prec emax
             (Z.shiftr (cond_Zopp s (Zpos m)) (- e)) 0 s
  | _ => x
  end.

(** The tables of [math.Pow10]: [pow10tab[i] = 1e<i>],
    [pow10postab32[i] = 1e<32i>] and [pow10negtab32[i] = 1e-<32i>],
    each the float64 nearest to the power. *)
Definition pow10tab (i : Z) : float64 := of_Z (10 ^ i).
Definition pow10postab32 (i : Z) : float64 := of_Z (10 ^ (32 * i)).
Definition pow10negtab32 (i : Z) : float64 :=
  of_ratio 1 (Z.to_pos (10 ^ (32 * i))).

(** [math.Pow10(n)]: [10**n], 0 below [1e-323] and [+Inf] above [1e308]. *)
Definition Pow10 (n : Z) : float64 :=
  if (0 <=? n) && (n <=? 308) then
    mul (pow10postab32 (n / 32)) (pow10tab (n mod 32))
  else if (-323 <=? n) && (n <=? 0) then
    div (pow10negtab32 ((- n) / 32)) (pow10tab ((- n) mod 32))
  else if 0 <? n then pos_inf
  else pos_zero.

End Float64.

(** ** [strconv]: number formatting *)

Module Strconv.
Import Float64.

(** [strconv.FormatUint(n, 10)]. *)
Definition FormatUint (n : Z) : string := pretty (Z.to_N n).

(** Comparison of [a * 2^ea] with [b * 10^kb], both sides scaled to integers. *)
Definition cmp_2_10 (a ea b kb : Z) : comparison :=
  Z.compare (a * 2 ^ Z.max ea 0 * 10 ^ Z.max (- kb) 0)
            (b * 10 ^ Z.max kb 0 * 2 ^ Z.max (- ea) 0).

(** [floor (a * 2^ea / 10^k)]. *)
Definition quot_2_10 (a ea k : Z) : Z :=
  (a * 2 ^ Z.max ea 0 * 10 ^ Z.max (- k) 0)
    / (2 ^ Z.max (- ea) 0 * 10 ^ Z.max k 0).

(** The position of the decimal point of [a * 2^ea > 0]: the least [d]
    with [a * 2^ea < 10^d], found upwards from an estimate of
    [log10] that is below it. *)
Fixpoint point_from (fuel : nat) (a ea d : Z) : Z :=
  match fuel with
  | O => d
  | S fuel' =>
      match cmp_2_10 a ea 1 d with
      | Lt => d
      | _ => point_from fuel' a ea (d + 1)
      end
  end.

Definition decimal_point (a ea : Z) : Z :=
  point_from 8 a ea ((Z.log2 a + ea) * 30103 / 100000 - 1).

(** The shortest decimal that reads back as the positive float [m * 2^e]
    ([roundShortest] of the Go library): with [n] significant digits,
    truncate or round up while staying between the midpoints to the
    neighbouring floats, which are included when [m] is even; the
    nearer one when both are possible, the even one on a tie.
    The float, its lower and its upper midpoint are [4m], [lower4] and
    [upper4] times [2^(e-2)]; the result is [c * 10^k]. *)
Section Shortest.
Variables (m : positive) (e : Z).

Let x4 : Z := 4 * Zpos m.
Let e4 : Z := e - 2.
Let lower4 : Z :=
  if (Zpos m =? 2 ^ 52) && (-1074 <? e) then x4 - 1 else x4 - 2.
Let upper4 : Z := x4 + 2.
Let inclusive : bool := Z.even (Zpos m).

Definition with_digits (n : Z) : option (Z * Z) :=
  let k := decimal_point x4 e4 - n in
  let c := quot_2_10 x4 e4 k in
  let okdown :=
    match cmp_2_10 lower4 e4 c k with
    | Lt => true | Eq => inclusive | Gt => false
    end in
  let okup :=
    match cmp_2_10 upper4 e4 (c + 1) k with
    | Gt => true | Eq => inclusive | Lt => false
    end in
  let nearest :=
    match cmp_2_10 (2 * x4) e4 (2 * c + 1) k with
    | Lt => c
    | Gt => c + 1
    | Eq => if Z.even c then c else c + 1
    end in
  match okdown, okup with
  | true, true => Some (nearest, k)
  | true, false => Some (c, k)
  | false, true => Some (c + 1, k)
  | false, false => None
  end.

(** The exact decimal expansion, when no shorter decimal was found. *)
Definition exact_decimal : Z * Z :=
  if 0 <=? e then (Zpos m * 2 ^ e, 0) else (Zpos m * 5 ^ (- e), e).

Definition shortest : Z * Z :=
  let tries := omap with_digits (seqZ 1 17) in
  match tries with
  | d :: _ => d
  | [] => exact_decimal
  end.
End Shortest.

(** Digits after the decimal point: [f] written with [width] digits,
    without the zeros at its end. *)
Fixpoint trim_zeros (width : nat) (f : Z) : nat * Z :=
  match width with
  | O => (O, f)
  | S w => if f mod 10 =? 0 then trim_zeros w (f / 10) else (width, f)
  end.

Fixpoint zeros (n : nat) : string :=
  match n with
  | O => EmptyString
  | S n' => String "0" (zeros n')
  end.

Definition fraction (width : nat) (f : Z) : string :=
  let '(w, f') := trim_zeros width f in
  let ds := pretty (Z.to_N f') in
  zeros (w - String.length ds) +:+ ds.

(** The format ['f'] of the decimal [c * 10^k], no exponent, as many
    digits after the point as the decimal has. *)
Definition fmtF (d : Z * Z) : string :=
  let '(c, k) := d in
  if 0 <=? k then pretty (Z.to_N (c * 10 ^ k))
  else
    let p := 10 ^ (- k) in
    if c mod p =? 0 then pretty (Z.to_N (c / p))
    else pretty (Z.to_N (c / p)) +:+ "." +:+ fraction (Z.to_nat (- k)) (c mod p).

(** [strconv.FormatFloat(x, 'f', -1, 64)]. *)
Definition FormatFloat (x : float64) : string :=
  match x with
  | S754_nan => "NaN"
  | S754_infinity false => "+Inf"
  | S754_infinity true => "-Inf"
  | S754_zero false => "0"
  | S754_zero true => "-0"
  | S754_finite s m e =>
      (if s then "-" else EmptyString) +:+ fmtF (shortest m e)
  end.

End Strconv.

(** ** [github.com/pkg/errors] *)

Module Errors.

(** An error value: a plain message ([errors.New], [fmt.Errorf]), a
    transport error of [net/http] (a [*url.Error], which knows whether
    it is a timeout), a run-time panic that ends the call, or an error
    wrapped with a message ([errors.Wrap]). *)
Inductive error : Type :=
| New (msg : string)
| NetError (timeout : bool) (msg : string)
| Panic (msg : string)
| Wrap (err : error) (msg : string).

(** [errors.Cause]: the error under all the wrappers. *)
Fixpoint Cause (e : error) : error :=
  match e with
  | Wrap e' _ => Cause e'
  | _ => e
  end.

(** [err.Error()]: wrappers prefix their message. *)
Fixpoint Error (e : error) : string :=
  match e with
  | New msg => msg
  | NetError _ msg => msg
  | Panic msg => msg
  | Wrap e' msg => msg +:+ ": " +:+ Error e'
  end.

(** The pair [(value, error)] a Go function returns. *)
Inductive result (A : Type) : Type :=
| Ok (a : A)
| Err (e : error).
Global Arguments Ok {A} a.
Global Arguments Err {A} e.

Definition is_ok {A} (r : result A) : bool :=
  match r with Ok _ => true | Err _ => false end.

(** [if err != nil { return errors.Wrap(err, name) }]; a panic is not
    a returned error and goes through as it is. *)
Definition wrapped {A} (name : string) (r : result A) : result A :=
  match r with
  | Ok a => Ok a
  | Err (Panic msg) => Err (Panic msg)
  | Err e => Err (Wrap e name)
  end.

End Errors.

(** ** [strings] *)

Module Strings.

(** The line feed of the Go literal ["\n"]. *)
Definition LF : string := String "010"%char EmptyString.

(** [strings.HasPrefix]. *)
Fixpoint HasPrefix (s prefix : string) : bool :=
  match prefix, s with
  | EmptyString, _ => true
  | String p prefix', String c s' =>
      if Ascii.eqb p c then HasPrefix s' prefix' else false
  | String _ _, EmptyString => false
  end.

(** [strings.Contains]. *)
Fixpoint Contains (s substr : string) : bool :=
  HasPrefix s substr ||
  match s with
  | EmptyString => false
  | String _ s' => Contains s' substr
  end.

(** [strings.Join]. *)
Fixpoint Join (elems : list string) (sep : string) : string :=
  match elems with
  | [] => EmptyString
  | [e] => e
  | e :: rest => e +:+ sep +:+ Join rest sep
  end.

Definition upper (c : ascii) : ascii :=
  let n := nat_of_ascii c in
  if (97 <=? n)%nat && (n <=? 122)%nat then ascii_of_nat (n - 32) else c.

(** [strings.ToUpper] on the ASCII letters. *)
Fixpoint ToUpper (s : string) : string :=
  match s with
  | EmptyString => EmptyString
  | String c s' => String (upper c) (ToUpper s')
  end.

(** The bytes of a string, [[]byte(s)]. *)
Definition bytes (s : string) : list Z :=
  (fun c => Z.of_nat (nat_of_ascii c)) <$> list_ascii_of_string s.

Definition of_bytes (bs : list Z) : string :=
  string_of_list_ascii ((fun b => ascii_of_nat (Z.to_nat b)) <$> bs).

(** The byte 0. *)
Definition NUL : string := String "000"%char EmptyString.

End Strings.

(** ** [net/url] *)

Module URL.

Definition unreserved (c : ascii) : bool :=
  let n := nat_of_ascii c in
  ((48 <=? n) && (n <=? 57) || (65 <=? n) && (n <=? 90)
   || (97 <=? n) && (n <=? 122))%nat
  || Ascii.eqb c "-" || Ascii.eqb c "_" || Ascii.eqb c "." || Ascii.eqb c "~".

Definition hex_digit (n : nat) : ascii :=
  ascii_of_nat (if (n <? 10)%nat then 48 + n else 55 + n).

(** [url.QueryEscape]: letters, digits and [-_.~] stay, a space becomes
    [+], every other byte becomes [%XX] in upper-case hexadecimal. *)
Fixpoint QueryEscape (s : string) : string :=
  match s with
  | EmptyString => EmptyString
  | String c s' =>
      if unreserved c then String c (QueryEscape s')
      else if Ascii.eqb c " " then String "+" (QueryEscape s')
      else
        let n := nat_of_ascii c in
        String "%" (String (hex_digit (n / 16)) (String (hex_digit (n mod 16))
          (QueryEscape s')))
  end.

End URL.

(** ** [crypto/sha256], FIPS 180-4 *)

Module SHA256.

(** Words are 32-bit: every sum is taken modulo [2^32]. *)
Definition wrap32 (x : Z) : Z := x mod 2 ^ 32.
Definition add32 (x y : Z) : Z := wrap32 (x + y).
Definition not32 (x : Z) : Z := Z.lxor x (2 ^ 32 - 1).
Definition rotr (n x : Z) : Z :=
  Z.lor (Z.shiftr x n) (wrap32 (Z.shiftl x (32 - n))).

Definition Ch (x y z : Z) : Z := Z.lxor (Z.land x y) (Z.land (not32 x) z).
Definition Maj (x y z : Z) : Z :=
  Z.lxor (Z.lxor (Z.land x y) (Z.land x z)) (Z.land y z).
Definition Sigma0 (x : Z) : Z := Z.lxor (Z.lxor (rotr 2 x) (rotr 13 x)) (rotr 22 x).
Definition Sigma1 (x : Z) : Z := Z.lxor (Z.lxor (rotr 6 x) (rotr 11 x)) (rotr 25 x).
Definition sigma0 (x : Z) : Z := Z.lxor (Z.lxor (rotr 7 x) (rotr 18 x)) (Z.shiftr x 3).
Definition sigma1 (x : Z) : Z := Z.lxor (Z.lxor (rotr 17 x) (rotr 19 x)) (Z.shiftr x 10).

(** The constants of the standard are the first 32 bits of the fractional
    parts of the square roots (for the initial hash value) and of the cube
    roots (for the round constants [K]) of the first primes. *)
Definition is_prime (n : Z) : bool :=
  forallb (fun d => negb (n mod d =? 0)) (seqZ 2 (n - 2)).

Definition primes : list Z := List.filter is_prime (seqZ 2 310).

(** The integer root of order [k] of [n], bit by bit from the top. *)
Fixpoint root_bits (k : Z) (bits : nat) (n r : Z) : Z :=
  match bits with
  | O => r
  | S b =>
      let r' := r + 2 ^ Z.of_nat b in
      if r' ^ k <=? n then root_bits k b n r' else root_bits k b n r
  end.

Definition fraction32 (k p : Z) : Z :=
  wrap32 (root_bits k 40 (p * 2 ^ (32 * k)) 0).

Definition K : list Z := Eval vm_compute in fraction32 3 <$> primes.

Definition init : list Z := Eval vm_compute in fraction32 2 <$> take 8 primes.

(** Big-endian bytes of a number, [n] of them. *)
Fixpoint be_bytes (n : nat) (x : Z) : list Z :=
  match n with
  | O => []
  | S n' => (Z.shiftr x (8 * Z.of_nat n')) mod 256 :: be_bytes n' x
  end.

Definition be_word (bs : list Z) : Z :=
  fold_left (fun acc b => acc * 256 + b) bs 0.

(** The message, the byte [0x80], zeros up to 56 modulo 64, and the
    length in bits on 8 bytes. *)
Definition pad (msg : list Z) : list Z :=
  let len := Z.of_nat (length msg) in
  msg ++ [0x80] ++ replicate (Z.to_nat ((55 - len) mod 64)) 0
      ++ be_bytes 8 (8 * len).

Fixpoint chunks {A} (fuel size : nat) (l : list A) : list (list A) :=
  match fuel, l with
  | O, _ | _, [] => []
  | S fuel', _ => take size l :: chunks fuel' size (drop size l)
  end.

Definition words (block : list Z) : list Z :=
  be_word <$> chunks 16 4 block.

(** The message schedule, latest word first: [W_t] from [W_(t-2)],
    [W_(t-7)], [W_(t-15)] and [W_(t-16)]. *)
Fixpoint schedule (n : nat) (rev_w : list Z) : list Z :=
  match n with
  | O => rev_w
  | S n' =>
      let w i := default 0 (rev_w !! i) in
      schedule n'
        (add32 (add32 (sigma1 (w 1%nat)) (w 6%nat))
               (add32 (sigma0 (w 14%nat)) (w 15%nat)) :: rev_w)
  end.

Definition round (s : list Z) (kw : Z * Z) : list Z :=
  match s with
  | [a; b; c; d; e; f; g; h] =>
      let t1 := add32 (add32 (add32 h (Sigma1 e)) (add32 (Ch e f g) kw.1)) kw.2 in
      let t2 := add32 (Sigma0 a) (Maj a b c) in
      [add32 t1 t2; a; b; c; add32 d t1; e; f; g]
  | _ => s
  end.

Definition compress (h : list Z) (block : list Z) : list Z :=
  let w := rev (schedule 48 (rev (words block))) in
  zip_with add32 h (fold_left round (zip K w) h).

(** [sha256.Sum256]: the 32 bytes of the digest. *)
Definition Sum256 (msg : list Z) : list Z :=
  let p := pad msg in
  let h := fold_left compress (chunks (length p) 64 p) init in
  h ≫= be_bytes 4.

End SHA256.

(** ** [crypto/hmac] with SHA-256, RFC 2104 *)

Module HMAC.

Definition BlockSize : nat := 64.

(** [hmac.New]: a key longer than a block is hashed first; the key is
    then filled up with zero bytes to the size of a block. *)
Definition block_key (key : list Z) : list Z :=
  let k := if (BlockSize <? length key)%nat then SHA256.Sum256 key else key in
  k ++ replicate (BlockSize - length k) 0.

Definition Sum (key msg : list Z) : list Z :=
  let k := block_key key in
  let ipad := (fun b => Z.lxor b 0x36) <$> k in
  let opad := (fun b => Z.lxor b 0x5c) <$> k in
  SHA256.Sum256 (opad ++ SHA256.Sum256 (ipad ++ msg)).

End HMAC.

(** ** [encoding/base64], the standard alphabet with padding *)

Module Base64.

Definition alphabet : string :=
  "ABCDEFGHIJKLMNOPQRSTUVWXYZabcdefghijklmnopqrstuvwxyz0123456789+/".

Definition enc (i : Z) : ascii :=
  default "="%char (list_ascii_of_string alphabet !! Z.to_nat i).

Fixpoint encode (bs : list Z) : string :=
  match bs with
  | [] => EmptyString
  | [a] =>
      String (enc (a / 4)) (String (enc (a mod 4 * 16)) "==")
  | [a; b] =>
      String (enc (a / 4)) (String (enc (a mod 4 * 16 + b / 16))
        (String (enc (b mod 16 * 4)) "="))
  | a :: b :: c :: rest =>
      String (enc (a / 4)) (String (enc (a mod 4 * 16 + b / 16))
        (String (enc (b mod 16 * 4 + c / 64)) (String (enc (c mod 64))
          (encode rest))))
  end.

(** [base64.StdEncoding.EncodeToString]. *)
Definition EncodeToString (bs : list Z) : string := encode bs.

End Base64.

(** ** The world around the program: clock, network, storage

    Every effect of the program is recorded as an event; the number of
    events so far is the logical time at which the next one happens, and
    the answers of the outside world are functions of that time. *)

Module Sys.
Import Errors.

(** A [*http.Request]: the JSON body is kept as the map it encodes. *)
Record Request : Type := {
  Method : string;
  URL : string;
  ContentType : string;
  Body : option (gmap string string)
}.

Inductive Event : Type :=
| Clock                       (* time.Now() *)
| HTTP (r : Request)          (* one client.Do(req) *)
| Sleep (seconds : Z)         (* time.Sleep *)
| SQL (statement : string).   (* one statement sent to the database *)

Record World (S : Type) : Type := {
  events : list Event;
  store : S
}.
Global Arguments events {S} w.
Global Arguments store {S} w.
Global Arguments Build_World {S} events store.

(** A Go function with effects: it returns a value or an error and leaves
    a world behind in both cases. *)
Definition M (S A : Type) : Type := World S -> result A * World S.

Definition ret {S A} (a : A) : M S A := fun w => (Ok a, w).
Definition fail {S A} (e : error) : M S A := fun w => (Err e, w).
Definition bind {S A B} (m : M S A) (k : A -> M S B) : M S B :=
  fun w =>
    match m w with
    | (Ok a, w') => k a w'
    | (Err e, w') => (Err e, w')
    end.
Definition lift {S A} (r : result A) : M S A := fun w => (r, w).

(** [if err != nil { return errors.Wrap(err, name) }] around a body. *)
Definition wrapping {S A} (name : string) (m : M S A) : M S A :=
  fun w => let '(r, w') := m w in (wrapped name r, w').

(** Record an event; the result is the logical time at which it happens. *)
Definition emit {S} (e : Event) : M S nat :=
  fun w => (Ok (length (events w)),
            {| events := events w ++ [e]; store := store w |}).

Definition get {S} : M S S := fun w => (Ok (store w), w).
Definition put {S} (s : S) : M S unit :=
  fun w => (Ok tt, {| events := events w; store := s |}).

(** Run a computation on a part of the store. *)
Definition zoom {S T A} (proj : S -> T) (inj : T -> S -> S) (m : M T A) : M S A :=
  fun w =>
    let '(r, w') := m {| events := events w; store := proj (store w) |} in
    (r, {| events := events w'; store := inj (store w') (store w) |}).

(** A computation that never writes to the store. *)
Definition preserves {S A} (m : M S A) : Prop :=
  forall w, store (m w).2 = store w.

End Sys.

Notation "'let*' x ':=' m 'in' k" := (Sys.bind m (fun x => k))
  (at level 10, x name, m at level 100, k at level 200).
Notation "'let*' ' p ':=' m 'in' k" := (Sys.bind m (fun x => match x with p => k end))
  (at level 10, p pattern, m at level 100, k at level 200).
Notation "m1 ';;' m2" := (Sys.bind m1 (fun _ => m2))
  (at level 100, m2 at level 200, right associativity).

(** ** plan/period.go *)

Module Period.
Import Errors.

(** The three [uint8] fields of a time of day. *)
Record datetime : Type := {
  hour : Z;
  minute : Z;
  second : Z
}.

(** The interface [Period] with its three implementations. *)
Inductive Period : Type :=
| Daily (d : datetime)
| Weekly (d : datetime) (weekday : Z)
| Monthly (d : datetime) (day : Z).

Definition mustBetween (value from to : Z) : option error :=
  if (value <? from) || (value >? to) then
    Some (New ("a valid value must between " +:+ pretty from +:+ " and "
               +:+ pretty to +:+ " (inclusive) but got " +:+ pretty value))
  else None.

Definition validateTime (hour minute second : Z) : option error :=
  match mustBetween hour 0 23 with
  | Some err => Some (Wrap err "invalid hour")
  | None =>
      match mustBetween minute 0 59 with
      | Some err => Some (Wrap err "invalid minute")
      | None =>
          match mustBetween second 0 59 with
          | Some err => Some (Wrap err "invalid second")
          | None => None
          end
      end
  end.

Definition NewDaily (hour minute second : Z) : result Period :=
  match validateTime hour minute second with
  | Some err => Err (Wrap err "plan.NewDaily")
  | None => Ok (Daily {| hour := hour; minute := minute; second := second |})
  end.

Definition NewWeekly (weekday hour minute second : Z) : result Period :=
  match validateTime hour minute second with
  | Some err => Err (Wrap err "plan.NewWeekly")
  | None =>
      Ok (Weekly {| hour := hour; minute := minute; second := second |} weekday)
  end.

Definition NewMonthly (day hour minute second : Z) : result Period :=
  match validateTime hour minute second with
  | Some err => Err (Wrap err "plan.NewMonthly")
  | None =>
      Ok (Monthly {| hour := hour; minute := minute; second := second |} day)
  end.

(** [Schedule]: the cron expression. *)
Definition Schedule (p : Period) : string :=
  match p with
  | Daily d =>
      pretty (second d) +:+ " " +:+ pretty (minute d) +:+ " "
        +:+ pretty (hour d) +:+ " * * *"
  | Weekly d weekday =>
      pretty (second d) +:+ " " +:+ pretty (minute d) +:+ " "
        +:+ pretty (hour d) +:+ " * * " +:+ pretty weekday
  | Monthly d day =>
      pretty (second d) +:+ " " +:+ pretty (minute d) +:+ " "
        +:+ pretty (hour d) +:+ " " +:+ pretty day +:+ " * *"
  end.

End Period.

(** ** huobi/huobi.go *)

Module Huobi.
Import Errors Strings Float64 Sys.

Definition errSymbolPriceFailed : error := New "get symbol price failed".
Definition errSymbolNotFound : error := New "symbol not found".
Definition errAccountNotFound : error := New "account not found".
Definition errUnkownTradeType : error := New "unknown trade type".

(** [type TradeType string] and its four constants. *)
Definition TradeType : Type := string.
Definition BuyMarket : TradeType := "buy-market".
Definition SellMarket : TradeType := "sell-market".
Definition BuyLimit : TradeType := "buy-limit".
Definition SellLimit : TradeType := "sell-limit".

Definition sell_kind (kind : string) : Prop :=
  kind = SellMarket \/ kind = SellLimit.

Definition buy_kind (kind : string) : Prop :=
  kind = BuyMarket \/ kind = BuyLimit.

Module Balance.
Record t : Type := {
  Currency : string;
  Type_ : string;
  Balance : float64
}.
End Balance.

Module Account.
Record t : Type := {
  ID : Z;               (* uint64 *)
  Type_ : string;
  SubType : string;
  State : string;
  List : list Balance.t
}.
End Account.

Module Symbol.
Record t : Type := {
  Symbol : string;
  BaseCurrency : string;
  QuoteCurrency : string;
  PricePrecision : Z;   (* int *)
  AmountPrecision : Z;  (* int *)
  SymbolPartition : string
}.
End Symbol.

Module OpenOrder.
Record t : Type := {
  ID : Z;               (* uint64 *)
  AccountID : Z;        (* uint64 *)
  Source : string;
  Type_ : string;
  State : string;
  Symbol : string;
  Amount : float64;
  Price : float64;
  FieldAmount : float64;
  FieldCashAmount : float64;
  FieldFees : float64;
  CreatedAt : Z;        (* uint64 *)
  FinishedAt : Z;       (* uint64 *)
  CanceledAt : Z        (* uint64 *)
}.
End OpenOrder.

Record Client : Type := {
  host : string;
  key : string;
  secret : string;
  symbols : list Symbol.t;
  accounts : list Account.t
}.

(** What the exchange answers. The body of a response is a JSON document
    with a status, an error code and message, and a payload under
    [data] or [tick]; the payload is kept in the shape that the weakly
    typed decoding gives it. *)
Inductive Payload : Type :=
| NoData
| SymbolList (l : list Symbol.t)
| AccountList (l : list Account.t)
| OrderID (id : Z)
| OrderData (o : OpenOrder.t)
| Ticks (prices : list float64).

Record Document : Type := {
  Status : string;
  Code : string;
  Message : string;
  Data : Payload
}.

(** One [client.Do(req)] and, when it gives a response, the reading of
    its body: a transport error, or a response whose body cannot be read
    to its end ([ioutil.ReadAll] fails), or a response whose body is read
    and parsed into a document, or cannot be parsed. The errors of
    [client.Do] are [*url.Error] values, which implement [net.Error]: a
    failure carries the answer of [Timeout()] and the text of [Error()].
    It also tells whether the transport had read the body of the request
    when it failed: it has not when no connection could be made, it has
    when the request was written and no answer came. *)
Inductive RoundTrip : Type :=
| Failed (timeout : bool) (msg : string) (read : bool)
| Responded (body : result Document)
| Cut (msg : string).

(** The outside of the client: the clock, the URL parser of [net/url]
    (host name and escaped path of an address) and the network.

    [Do] is [client.Do] on a request as [req] has built it. The body that
    [req] gives to a request is a [bytes.Buffer], which can be read once,
    and [req] passes the same [*http.Request] to every attempt: after an
    attempt that has read the body, [client.Do] finds nothing to send where
    the header announces the length of the body, and fails without an
    answer of the exchange (with HTTP/1.1 before the request leaves, as
    "http: ContentLength=N with Body length 0"). [Stale] is this failure:
    the answer of [Timeout()] and the text of [Error()]. *)
Record Net : Type := {
  unix : nat -> Z;
  utc : nat -> string;
  url_parse : string -> result (string * string);
  Do : nat -> Request -> RoundTrip;
  Stale : nat -> Request -> bool * string
}.

(** *** Pure parts *)

(** [Symbol]: the first symbol of that name in the cached list. *)
Fixpoint find_symbol (l : list Symbol.t) (name : string) : option Symbol.t :=
  match l with
  | [] => None
  | s :: rest =>
      if String.eqb (Symbol.Symbol s) name then Some s
      else find_symbol rest name
  end.

Definition Symbol_ (c : Client) (name : string) : result Symbol.t :=
  match find_symbol (symbols c) name with
  | Some s => Ok s
  | None => Err (Wrap errSymbolNotFound "huobi.(*Client).Symbol")
  end.

(** The loop of [SpotAccountID]: [id] starts at 0 and takes the ID of
    the first account of type ["spot"], where the loop breaks. *)
Fixpoint spot_scan (l : list Account.t) : Z :=
  match l with
  | [] => 0
  | a :: rest =>
      if String.eqb (Account.Type_ a) "spot" then Account.ID a
      else spot_scan rest
  end.

(** The first account of type ["spot"], if there is one. *)
Definition first_spot (l : list Account.t) : option Account.t :=
  find (fun a => String.eqb (Account.Type_ a) "spot") l.

Definition SpotAccountID (c : Client) : result Z :=
  let id := spot_scan (accounts c) in
  if id =? 0 then Err (Wrap errAccountNotFound "huobi.(*Client).SpotAccountID")
  else Ok id.

(** [sort.Strings]: increasing in the order of Go strings, byte by byte. *)
Definition sort_strings (keys : list string) : list string :=
  merge_sort String.le keys.

(** [querystring]: the keys of the map are sorted, each pair is written
    [escape(key)=escape(value)], and the pairs are joined with [&]. *)
Definition pair_of (m : gmap string string) (k : string) : string :=
  URL.QueryEscape k +:+ "=" +:+ URL.QueryEscape (default EmptyString (m !! k)).

Definition querystring (m : gmap string string) : string :=
  let keys := sort_strings ((map_to_list m).*1) in
  let q := pair_of m <$> keys in
  Join q "&".

(** [floor]: [strconv.FormatFloat(math.Floor(f*i)/i, 'f', -1, 64)] with
    [i = math.Pow10(prec)]. *)
Definition floor (f : float64) (prec : Z) : string :=
  let i := Pow10 prec in
  Strconv.FormatFloat (div (Floor (mul f i)) i).

(** [sign]: Base64 of the HMAC-SHA256 of the content under the secret. *)
Definition sign (c : Client) (content : string) : result string :=
  Ok (Base64.EncodeToString (HMAC.Sum (bytes (secret c)) (bytes content))).

(** The text that [req] signs. *)
Definition sign_content (method host path query : string) : string :=
  method +:+ LF +:+ host +:+ LF +:+ path +:+ LF +:+ query.

(** The parameters that [req] signs: those of the authentication and,
    for a GET, those of the call, which win over the former. *)
Definition auth_params (c : Client) (stamp : string) : gmap string string :=
  {[ "AccessKeyId" := key c;
     "SignatureMethod" := "HmacSHA256";
     "SignatureVersion" := "2";
     "Timestamp" := stamp ]}.

Definition is_get (method : string) : bool :=
  String.eqb (ToUpper method) "GET".

Definition signed_params (c : Client) (method : string)
    (params : gmap string string) (stamp : string) : gmap string string :=
  if is_get method then params ∪ auth_params c stamp else auth_params c stamp.

(** The request that [req] sends, once the signature is known. *)
Definition signed_request (method address query signature : string)
    (params : gmap string string) : Request :=
  {| Method := method;
     URL := address +:+ "?" +:+ query +:+ "&Signature=" +:+ URL.QueryEscape signature;
     ContentType :=
       if is_get method then "application/x-www-form-urlencoded"
       else "application/json";
     Body := if is_get method then None else Some params |}.

(** [handle] on a body that was read: the document must parse and its
    status must be ["ok"]. *)
Definition handle (body : result Document) : option error :=
  match body with
  | Err err => Some (Wrap err "huobi.handle")
  | Ok e =>
      if negb (String.eqb (Status e) "ok") then
        Some (Wrap (New ("Code: " +:+ Code e +:+ ", " +:+ Message e)) "huobi.handle")
      else None
  end.

(** The parameters of an order in [Trade]. *)
Definition trade_params (s : Symbol.t) (id : Z) (cmd : TradeType)
    (amount price : float64) : gmap string string :=
  let params : gmap string string :=
    {[ "account-id" := Strconv.FormatUint id;
       "source" := "api";
       "symbol" := Symbol.Symbol s;
       "amount" := floor amount (Symbol.AmountPrecision s);
       "type" := cmd ]} in
  if String.eqb cmd BuyLimit || String.eqb cmd SellLimit then
    <["price" := floor price (Symbol.PricePrecision s)]> params
  else params.

(** [decode] into the structures the callers expect; a missing payload
    leaves the zero value. *)
Definition decode_error : error :=
  Wrap (New "mapstructure: cannot decode") "huobi.decode".

Definition decode_symbols (m : Document) : result (list Symbol.t) :=
  match Data m with
  | SymbolList l => Ok l
  | NoData => Ok []
  | _ => Err decode_error
  end.

Definition decode_accounts (m : Document) : result (list Account.t) :=
  match Data m with
  | AccountList l => Ok l
  | NoData => Ok []
  | _ => Err decode_error
  end.

Definition decode_id (m : Document) : result Z :=
  match Data m with
  | OrderID id => Ok id
  | NoData => Ok 0
  | _ => Err decode_error
  end.

(** A [*OpenOrder]: [None] is the nil pointer. *)
Definition decode_order (m : Document) : result (option OpenOrder.t) :=
  match Data m with
  | OrderData o => Ok (Some o)
  | NoData => Ok None
  | _ => Err decode_error
  end.

Definition decode_ticks (m : Document) : result (list float64) :=
  match Data m with
  | Ticks l => Ok l
  | NoData => Ok []
  | _ => Err decode_error
  end.

(** The transport errors that [req] tries again: a timeout, or a
    message that contains ["connection reset by peer"]. *)
Definition transient (timeout : bool) (msg : string) : bool :=
  timeout || Contains msg "connection reset by peer".

Definition retryable (o : RoundTrip) : bool :=
  match o with
  | Failed timeout msg _ => transient timeout msg
  | Responded _ | Cut _ => false
  end.

(** Whether a request has a body: [req] gives one to every request whose
    method is not GET. *)
Definition has_body (r : Request) : bool :=
  match Body r with
  | Some _ => true
  | None => false
  end.

(** [client.Do(req)] at the logical time [now]; [spent] tells whether an
    earlier call has read the body of the request. *)
Definition client_Do (net : Net) (now : nat) (r : Request) (spent : bool)
    : RoundTrip :=
  if spent && has_body r then
    Failed (Stale net now r).1 (Stale net now r).2 true
  else Do net now r.

(** The state of the body after a call. *)
Definition spent_after (spent : bool) (o : RoundTrip) : bool :=
  match o with
  | Failed _ _ read => spent || read
  | Responded _ | Cut _ => true
  end.

(** The state of the body before the call number [k] (from 0) of a
    sequence of calls on the same request that starts at the logical time
    [now], one call per unit of time. *)
Fixpoint spent_at (net : Net) (r : Request) (spent : bool) (now k : nat) : bool :=
  match k with
  | O => spent
  | S k' =>
      spent_at net r (spent_after spent (client_Do net now r spent)) (S now) k'
  end.

(** *** Calls to the exchange *)

Section Calls.
Context {S : Type}.
Variable net : Net.

(** The loop at label [t] of [req]: a timeout or a reset connection is
    tried again, with the same [*http.Request], while the incremented
    [retry] is below 3. [spent] is the state of the body of the request.
    The response that ends the loop is read: the result is its body, or the
    error of [ioutil.ReadAll]. *)
Equations? roundtrip (r : Request) (retry : Z) (spent : bool) (w : World S)
    : result (result Document) * World S
    by wf (Z.to_nat (3 - retry)) lt :=
  roundtrip r retry spent w
    with client_Do net (length (events w)) r spent => {
    | Responded body =>
        (Ok body, {| events := events w ++ [HTTP r]; store := store w |});
    | Cut msg =>
        (Err (New msg), {| events := events w ++ [HTTP r]; store := store w |});
    | Failed timeout msg read with transient timeout msg => {
      | false =>
          (Err (NetError timeout msg),
           {| events := events w ++ [HTTP r]; store := store w |});
      | true with Z_lt_dec (retry + 1) 3 => {
        | left _ =>
            roundtrip r (retry + 1) (spent || read)
              {| events := events w ++ [HTTP r]; store := store w |};
        | right _ =>
            (Err (NetError timeout msg),
             {| events := events w ++ [HTTP r]; store := store w |}) } } }.
Proof. lia. Qed.

(** The answer to the attempt number [k] (from 0) of a loop that starts
    in the world [w] on a request whose body is in the state [spent]. *)
Definition attempt_from (r : Request) (spent : bool) (w : World S) (k : nat)
    : RoundTrip :=
  client_Do net (length (events w) + k) r
    (spent_at net r spent (length (events w)) k).

(** The same for the loop of [req], which starts with the body unread. *)
Definition attempt (r : Request) (w : World S) (k : nat) : RoundTrip :=
  attempt_from r false w k.

(** What a run of the loop with [n] attempts looks like: the trace grows
    by the [n] attempts and nothing else, every attempt but the last
    failed with an error that is tried again, and the last attempt
    decides the result; a failure is returned either because it is not
    tried again or because the counter reached 3. *)
Definition run_of (r : Request) (retry : Z) (spent : bool) (w : World S)
    (n : nat) (out : result (result Document) * World S) : Prop :=
  events out.2 = events w ++ replicate n (HTTP r) /\
  store out.2 = store w /\
  (forall k, (k < n - 1)%nat -> retryable (attempt_from r spent w k) = true) /\
  match attempt_from r spent w (n - 1) with
  | Responded body => out.1 = Ok body
  | Cut msg => out.1 = Err (New msg)
  | Failed timeout msg _ =>
      out.1 = Err (NetError timeout msg) /\
      (transient timeout msg = false \/ 3 <= retry + Z.of_nat n)
  end.

(** [req]: sign, send, read and check the answer. *)
Definition req (c : Client) (method address : string)
    (params : gmap string string) : M S Document :=
  wrapping "huobi.(*Client).req" (
    let address := host c +:+ address in
    let* '(hostname, path) := lift (url_parse net address) in
    let* now := emit Clock in
    let compute := signed_params c method params (utc net now) in
    let query := querystring compute in
    let* signature := lift (sign c (sign_content method hostname path query)) in
    let r := signed_request method address query signature params in
    let* body := roundtrip r 0 false in
    match handle body, body with
    | Some err, _ => fail err
    | None, Ok m => ret m
    | None, Err err => fail err
    end).

Definition Symbols (c : Client) : M S (list Symbol.t) :=
  if negb (length (symbols c) =? 0)%nat then ret (symbols c)
  else
    wrapping "huobi.(*Client).Symbols" (
      let* m := req c "GET" "/v1/common/symbols" ∅ in
      lift (decode_symbols m)).

Definition Accounts (c : Client) : M S (list Account.t) :=
  if negb (length (accounts c) =? 0)%nat then ret (accounts c)
  else
    wrapping "huobi.(*Client).Accounts" (
      let* m := req c "GET" "/v1/account/accounts" ∅ in
      lift (decode_accounts m)).

Definition NewClient (host key secret : string) : M S Client :=
  wrapping "huobi.NewClient" (
    let c := {| host := host; key := key; secret := secret;
                symbols := []; accounts := [] |} in
    let* symbols := Symbols c in
    let c := {| host := host; key := key; secret := secret;
                symbols := symbols; accounts := [] |} in
    let* accounts := Accounts c in
    ret {| host := host; key := key; secret := secret;
           symbols := symbols; accounts := accounts |}).

Definition SymbolPrice (c : Client) (name : string) : M S float64 :=
  wrapping "huobi.(*Client).SymbolPrice" (
    let* m := req c "GET" "/market/trade" {[ "symbol" := name ]} in
    let* data := lift (decode_ticks m) in
    match data with
    | [] => fail errSymbolPriceFailed
    | price :: _ => ret price
    end).

Definition OpenOrder_ (c : Client) (ID : Z) : M S (option OpenOrder.t) :=
  wrapping "huobi.(*Client).OpenOrder" (
    let* m := req c "GET" ("/v1/order/orders/" +:+ Strconv.FormatUint ID) ∅ in
    lift (decode_order m)).

Definition Trade (c : Client) (symbol : string) (cmd : TradeType)
    (amount price : float64) : M S (option OpenOrder.t) :=
  wrapping "huobi.(*Client).Trade" (
    let* s := lift (Symbol_ c symbol) in
    let* id := lift (SpotAccountID c) in
    let params := trade_params s id cmd amount price in
    let* m := req c "POST" "/v1/order/orders/place" params in
    let* data := lift (decode_id m) in
    emit (Sleep 5) ;;
    OpenOrder_ c data).

End Calls.

End Huobi.

(** ** The package [db] *)

Module DB.
Import Errors Float64 Sys.

(** [Order], a row of the table [orders]. *)
Module Order.
Record t : Type := {
  ID : Z;               (* uint64 *)
  Symbol : string;
  Type_ : string;
  Price : float64;
  BaseAmount : float64;
  QuoteAmount : float64;
  Created : Z           (* uint64 *)
}.
End Order.

(** [Statistics], a row of the table [statistics]. *)
Module Statistics.
Record t : Type := {
  ID : Z;               (* uint64 *)
  Symbol : string;
  Position : float64;
  Investment : float64;
  Price : float64;
  Equity : float64;
  Created : Z           (* uint64 *)
}.
End Statistics.

(** The two tables behind the global [db]. *)
Record Database : Type := {
  orders : list Order.t;
  statistics : list Statistics.t
}.

(** The outside of the package: whether the statement sent at a logical
    time fails in the driver, and what the aggregate query returns. *)
Record Driver : Type := {
  fault : nat -> option error;
  summary : nat -> result (float64 * float64)
}.

(** The columns declared [REAL NOT NULL] take every float64 but NaN:
    sqlite3 binds a NaN as NULL. The constraints are checked column by
    column, in the order of the table, before the primary key; the result
    is the first column that is refused. *)
Fixpoint first_null (columns : list (string * float64)) : option string :=
  match columns with
  | [] => None
  | (name, x) :: rest => if IsNaN x then Some name else first_null rest
  end.
Global Arguments first_null : simpl never.

(** The columns of [sqlOrder] and of [sqlStatistics] that are declared
    [REAL NOT NULL], with the values bound to them. *)
Definition order_reals (order : Order.t) : list (string * float64) :=
  [("price", Order.Price order); ("base_amount", Order.BaseAmount order);
   ("quote_amount", Order.QuoteAmount order)].

Definition statistics_reals (row : Statistics.t) : list (string * float64) :=
  [("position", Statistics.Position row);
   ("investment", Statistics.Investment row);
   ("price", Statistics.Price row); ("equity", Statistics.Equity row)].

Section Statements.
Variable driver : Driver.

(** [AddOrder]: the insert fails in the driver, or on a column that is
    [NOT NULL], or on the primary key [id], or adds the row. *)
Definition AddOrder (order : Order.t) : M Database unit :=
  wrapping "db.AddOrder" (
    let* now := emit (SQL "INSERT INTO orders") in
    match fault driver now with
    | Some err => fail err
    | None =>
        match first_null (order_reals order) with
        | Some column =>
            fail (New ("NOT NULL constraint failed: orders." +:+ column))
        | None =>
            let* d := get in
            if existsb (fun o => Order.ID o =? Order.ID order) (orders d) then
              fail (New "UNIQUE constraint failed: orders.id")
            else
              put {| orders := orders d ++ [order]; statistics := statistics d |}
        end
    end).

(** [AddStatistics]: the insert fails in the driver, or on a column that
    is [NOT NULL], or adds the row. *)
Definition AddStatistics (row : Statistics.t) : M Database unit :=
  wrapping "db.AddStatistics" (
    let* now := emit (SQL "INSERT INTO statistics") in
    match fault driver now with
    | Some err => fail err
    | None =>
        match first_null (statistics_reals row) with
        | Some column =>
            fail (New ("NOT NULL constraint failed: statistics." +:+ column))
        | None =>
            let* d := get in
            put {| orders := orders d; statistics := statistics d ++ [row] |}
        end
    end).

(** [OrderSummary]: the sums of [base_amount] and [quote_amount] that
    the database computes over [orders]. *)
Definition OrderSummary : M Database (float64 * float64) :=
  wrapping "db.OrderSummary" (
    let* now := emit (SQL "SELECT SUM(base_amount), SUM(quote_amount) FROM orders") in
    lift (summary driver now)).

End Statements.

End DB.

(** ** plan/plan.go *)

Module Plan.
Import Errors Float64 Sys.

Record state : Type := {
  position : float64;
  investment : float64;
  price : float64;
  equity : float64;
  updated : Z             (* uint64 *)
}.

Record plan : Type := {
  st : state;
  client : Huobi.Client;
  period : Period.Period;
  symbol : string;
  amount : float64
}.

(** What the methods work on: the plan behind the pointer [p] and the
    database behind the global [db]. *)
Record Store : Type := {
  self : plan;
  database : DB.Database
}.

Record Env : Type := {
  net : Huobi.Net;
  driver : DB.Driver
}.

(** [uint64(time.Now().Unix())]. *)
Definition uint64 (n : Z) : Z := n mod 2 ^ 64.

Definition with_state (p : plan) (s : state) : plan :=
  {| st := s; client := client p; period := period p;
     symbol := symbol p; amount := amount p |}.

Definition set_state (s : state) : M Store unit :=
  let* m := get in
  put {| self := with_state (self m) s; database := database m |}.

Definition the_plan : M Store plan :=
  let* m := get in ret (self m).

(** A call into the package [db]. *)
Definition db {A} (m : M DB.Database A) : M Store A :=
  zoom database (fun d m => {| self := self m; database := d |}) m.

(** The row that [addOrder] writes for an order. *)
Definition order_row (order : Huobi.OpenOrder.t) : DB.Order.t :=
  {| DB.Order.ID := Huobi.OpenOrder.ID order;
     DB.Order.Symbol := Huobi.OpenOrder.Symbol order;
     DB.Order.Type_ := Huobi.OpenOrder.Type_ order;
     DB.Order.Price :=
       div (Huobi.OpenOrder.FieldCashAmount order) (Huobi.OpenOrder.FieldAmount order);
     DB.Order.BaseAmount := Huobi.OpenOrder.FieldAmount order;
     DB.Order.QuoteAmount := Huobi.OpenOrder.FieldCashAmount order;
     DB.Order.Created := Huobi.OpenOrder.CreatedAt order / 1000 |}.

(** The order with [FieldAmount] and [FieldCashAmount] negated. *)
Definition negated (order : Huobi.OpenOrder.t) : Huobi.OpenOrder.t :=
  {| Huobi.OpenOrder.ID := Huobi.OpenOrder.ID order;
     Huobi.OpenOrder.AccountID := Huobi.OpenOrder.AccountID order;
     Huobi.OpenOrder.Source := Huobi.OpenOrder.Source order;
     Huobi.OpenOrder.Type_ := Huobi.OpenOrder.Type_ order;
     Huobi.OpenOrder.State := Huobi.OpenOrder.State order;
     Huobi.OpenOrder.Symbol := Huobi.OpenOrder.Symbol order;
     Huobi.OpenOrder.Amount := Huobi.OpenOrder.Amount order;
     Huobi.OpenOrder.Price := Huobi.OpenOrder.Price order;
     Huobi.OpenOrder.FieldAmount := neg (Huobi.OpenOrder.FieldAmount order);
     Huobi.OpenOrder.FieldCashAmount := neg (Huobi.OpenOrder.FieldCashAmount order);
     Huobi.OpenOrder.FieldFees := Huobi.OpenOrder.FieldFees order;
     Huobi.OpenOrder.CreatedAt := Huobi.OpenOrder.CreatedAt order;
     Huobi.OpenOrder.FinishedAt := Huobi.OpenOrder.FinishedAt order;
     Huobi.OpenOrder.CanceledAt := Huobi.OpenOrder.CanceledAt order |}.

(** The [switch] of [Invest] on the kind of the order. *)
Definition normalized (order : Huobi.OpenOrder.t) : Huobi.OpenOrder.t :=
  let kind : Huobi.TradeType := Huobi.OpenOrder.Type_ order in
  if String.eqb kind Huobi.SellMarket || String.eqb kind Huobi.SellLimit
  then negated order
  else order.

(** The plan that [New] allocates: the given fields and a zero state. *)
Definition fresh (symbol : string) (amount : float64) (period : Period.Period)
    (client : Huobi.Client) : plan :=
  {| st := {| position := pos_zero; investment := pos_zero;
              price := pos_zero; equity := pos_zero; updated := 0 |};
     client := client; period := period;
     symbol := symbol; amount := amount |}.

Section Methods.
Variable env : Env.

Definition now : M Store Z :=
  let* t := emit Clock in ret (uint64 (Huobi.unix (net env) t)).

Definition addOrder (order : Huobi.OpenOrder.t) : M Store unit :=
  db (DB.AddOrder (driver env) (order_row order)).

Definition addStatistics : M Store unit :=
  let* p := the_plan in
  db (DB.AddStatistics (driver env)
        {| DB.Statistics.ID := 0;
           DB.Statistics.Symbol := symbol p;
           DB.Statistics.Position := position (st p);
           DB.Statistics.Investment := investment (st p);
           DB.Statistics.Price := price (st p);
           DB.Statistics.Equity := equity (st p);
           DB.Statistics.Created := updated (st p) |}).

Definition stateFlush : M Store unit :=
  wrapping "plan.(*plan).stateFlush" (
    let* p := the_plan in
    let* price := Huobi.SymbolPrice (net env) (client p) (symbol p) in
    let* t := now in
    set_state {| position := position (st p);
                 investment := investment (st p);
                 price := price;
                 equity := mul price (position (st p));
                 updated := t |}).

Definition stateInit : M Store unit :=
  wrapping "plan.(*plan).stateInit" (
    let* '(position, investment) := db (DB.OrderSummary (driver env)) in
    let* p := the_plan in
    let* t := now in
    set_state {| position := position;
                 investment := investment;
                 price := price (st p);
                 equity := equity (st p);
                 updated := t |} ;;
    stateFlush).

Definition stateUpdate (order : Huobi.OpenOrder.t) : M Store unit :=
  wrapping "plan.(*plan).stateUpdate" (
    let* p := the_plan in
    let* t := now in
    set_state {| position := add (position (st p)) (Huobi.OpenOrder.FieldAmount order);
                 investment :=
                   add (investment (st p)) (Huobi.OpenOrder.FieldCashAmount order);
                 price := price (st p);
                 equity := equity (st p);
                 updated := t |} ;;
    stateFlush).

(** [New]: a plan with a zero state is allocated and initialised; it is
    returned only when the initialisation succeeds. *)
Definition New (symbol : string) (amount : float64) (period : Period.Period)
    (client : Huobi.Client) : M Store plan :=
  wrapping "plan.New" (
    let p := fresh symbol amount period client in
    let* m := get in
    put {| self := p; database := database m |} ;;
    stateInit ;;
    the_plan).

(** The world in which the first flush of a new plan starts, when the
    aggregate read in the world [w] is [(pos, inv)]: the query and the
    clock have been used, and the pair is in the state. *)
Definition seeded (symbol : string) (amount : float64) (period : Period.Period)
    (client : Huobi.Client) (pos inv : float64) (w : World Store) : World Store :=
  {| events := events w
       ++ [SQL "SELECT SUM(base_amount), SUM(quote_amount) FROM orders"; Clock];
     store :=
       {| self :=
            with_state (fresh symbol amount period client)
              {| position := pos; investment := inv;
                 price := pos_zero; equity := pos_zero;
                 updated :=
                   uint64 (Huobi.unix (net env) (Datatypes.S (length (events w)))) |};
          database := database (store w) |} |}.

Definition Period_ : M Store Period.Period :=
  let* p := the_plan in ret (period p).

(** [Invest]; a nil order stops the call at [order.Type]. *)
Definition Invest : M Store unit :=
  wrapping "plan.(*plan).Invest" (
    let* p := the_plan in
    let* order :=
      Huobi.Trade (net env) (client p) (symbol p) Huobi.BuyLimit (amount p)
                  (of_Z (-1)) in
    match order with
    | None =>
        fail (Panic "runtime error: invalid memory address or nil pointer dereference")
    | Some order =>
        let order := normalized order in
        addOrder order ;;
        stateUpdate order
    end).

Definition Monitor : M Store unit :=
  wrapping "plan.(*plan).Monitor" (
    stateFlush ;;
    addStatistics).

End Methods.

End Plan.

(** ** A small exchange and database to run the program on *)

Module Scenario.
Import Errors Strings Float64 Sys.

Definition btcusdt : Huobi.Symbol.t :=
  {| Huobi.Symbol.Symbol := "btcusdt";
     Huobi.Symbol.BaseCurrency := "btc";
     Huobi.Symbol.QuoteCurrency := "usdt";
     Huobi.Symbol.PricePrecision := 2;
     Huobi.Symbol.AmountPrecision := 4;
     Huobi.Symbol.SymbolPartition := "main" |}.

Definition account (id : Z) (kind : string) : Huobi.Account.t :=
  {| Huobi.Account.ID := id;
     Huobi.Account.Type_ := kind;
     Huobi.Account.SubType := EmptyString;
     Huobi.Account.State := "working";
     Huobi.Account.List := [] |}.

Definition client : Huobi.Client :=
  {| Huobi.host := "https://api.huobi.pro";
     Huobi.key := "apikey";
     Huobi.secret := "apisecret";
     Huobi.symbols := [btcusdt];
     Huobi.accounts := [account 7 "otc"; account 100 "spot"] |}.

(** A fill of the order 42. *)
Definition fill (kind : string) (base quote : float64) : Huobi.OpenOrder.t :=
  {| Huobi.OpenOrder.ID := 42;
     Huobi.OpenOrder.AccountID := 100;
     Huobi.OpenOrder.Source := "api";
     Huobi.OpenOrder.Type_ := kind;
     Huobi.OpenOrder.State := "filled";
     Huobi.OpenOrder.Symbol := "btcusdt";
     Huobi.OpenOrder.Amount := of_Z 100;
     Huobi.OpenOrder.Price := of_Z 200;
     Huobi.OpenOrder.FieldAmount := base;
     Huobi.OpenOrder.FieldCashAmount := quote;
     Huobi.OpenOrder.FieldFees := pos_zero;
     Huobi.OpenOrder.CreatedAt := 1536376845000;
     Huobi.OpenOrder.FinishedAt := 1536376846000;
     Huobi.OpenOrder.CanceledAt := 0 |}.

Definition ok (data : Huobi.Payload) : Huobi.RoundTrip :=
  Huobi.Responded (Ok {| Huobi.Status := "ok"; Huobi.Code := EmptyString;
                         Huobi.Message := EmptyString; Huobi.Data := data |}).

(** A text between double quotes, as [%q] prints a text that has no
    character to escape. *)
Definition quoted (s : string) : string :=
  String "034"%char (s +:+ String "034"%char EmptyString).

(** What the transport of HTTP/1.1 says of a request whose body was read
    by an earlier attempt, as the [*url.Error] of Go 1.14 and later prints
    it; the body of the orders below has 101 bytes. *)
Definition short_body (now : nat) (r : Request) : bool * string :=
  (false,
   "Post " +:+ quoted (URL r) +:+ ": http: ContentLength=101 with Body length 0").

(** An exchange that accepts every order as number 42, reports the
    given fill for it and quotes the given price. *)
Definition exchange (o : Huobi.OpenOrder.t) (quote : float64) : Huobi.Net :=
  {| Huobi.unix := fun t => 1536376845 + Z.of_nat t;
     Huobi.utc := fun _ => "2018-09-08T03:20:45";
     Huobi.url_parse := fun address =>
       Ok ("api.huobi.pro", String.substring 21 (String.length address - 21) address);
     Huobi.Do := fun _ r =>
       if Contains (URL r) "/v1/order/orders/place" then ok (Huobi.OrderID 42)
       else if Contains (URL r) "/v1/order/orders/" then ok (Huobi.OrderData o)
       else if Contains (URL r) "/market/trade" then ok (Huobi.Ticks [quote])
       else ok Huobi.NoData;
     Huobi.Stale := short_body |}.

(** A network on which the first [n] attempts time out. *)
Definition flaky (n : nat) : Huobi.Net :=
  {| Huobi.unix := fun t => 1536376845 + Z.of_nat t;
     Huobi.utc := fun _ => "2018-09-08T03:20:45";
     Huobi.url_parse := fun address => Ok ("api.huobi.pro", "/market/trade");
     Huobi.Do := fun t _ =>
       if (t <? n)%nat then Huobi.Failed true "context deadline exceeded" true
       else ok (Huobi.Ticks [of_Z 6400]);
     Huobi.Stale := short_body |}.

Definition healthy : DB.Driver :=
  {| DB.fault := fun _ => None;
     DB.summary := fun _ => Ok (decimal 12 1, of_Z 8000) |}.

Definition broken : DB.Driver :=
  {| DB.fault := fun _ => Some (New "database is locked");
     DB.summary := fun _ => Err (New "database is locked") |}.

Definition daily : Period.Period :=
  Period.Daily {| Period.hour := 0; Period.minute := 0; Period.second := 0 |}.

(** A plan that holds 2 btc bought for 300 usdt, on an empty database. *)
Definition holding : Plan.Store :=
  {| Plan.self :=
       {| Plan.st := {| Plan.position := of_Z 2; Plan.investment := of_Z 300;
                        Plan.price := of_Z 150; Plan.equity := of_Z 300;
                        Plan.updated := 1536376000 |};
          Plan.client := client; Plan.period := daily;
          Plan.symbol := "btcusdt"; Plan.amount := of_Z 100 |};
     Plan.database := {| DB.orders := []; DB.statistics := [] |} |}.

Definition start : World Plan.Store :=
  {| events := []; store := holding |}.

(** The plan at work: the exchange reports the fill [o] and quotes
    [quote]; the database behaves as [driver] says. *)
Definition desk (o : Huobi.OpenOrder.t) (quote : float64) (driver : DB.Driver)
    : Plan.Env :=
  {| Plan.net := exchange o quote; Plan.driver := driver |}.

Definition bought : Huobi.OpenOrder.t := fill "buy-limit" (decimal 5 1) (of_Z 100).
Definition sold : Huobi.OpenOrder.t := fill "sell-limit" (decimal 5 1) (of_Z 100).
Definition unfilled : Huobi.OpenOrder.t := fill "buy-limit" pos_zero pos_zero.

End Scenario.

(** ** What goes over the wire *)

Module Wire.
Import Errors Strings Sys.

(** The request that [req] sends when it starts in the world [w] and the
    address parses to the host name and path given: the time stamp is
    read first, at the logical time of [w]. *)
Definition request {S : Type} (net : Huobi.Net) (c : Huobi.Client)
    (method address hostname path : string) (params : gmap string string)
    (w : World S) : Request :=
  let stamp := Huobi.utc net (length (events w)) in
  let query := Huobi.querystring (Huobi.signed_params c method params stamp) in
  let signature :=
    Base64.EncodeToString
      (HMAC.Sum (bytes (Huobi.secret c))
         (bytes (Huobi.sign_content method hostname path query))) in
  Huobi.signed_request method (Huobi.host c +:+ address) query signature params.

(** The world after the clock was read and [client.Do] was called [n]
    times on the request [r]. *)
Definition after {S : Type} (r : Request) (n : nat) (w : World S) : World S :=
  {| events := events w ++ Clock :: replicate n (HTTP r); store := store w |}.

(** A document with the status ["ok"]. *)
Definition accepted (m : Huobi.Document) : Prop := Huobi.Status m = "ok".

(** A computation that only adds events to the trace. *)
Definition grows {S A : Type} (m : M S A) : Prop :=
  forall w, exists rest, events (m w).2 = events w ++ rest.

End Wire.

(** ** More exchanges and databases to run the program on *)

Module Cases.
Import Errors Strings Float64 Sys.

Definition rejected (code message : string) : Huobi.RoundTrip :=
  Huobi.Responded (Ok {| Huobi.Status := "error"; Huobi.Code := code;
                         Huobi.Message := message; Huobi.Data := Huobi.NoData |}).

(** An exchange that refuses every call for lack of funds. *)
Definition refusing : Huobi.Net :=
  {| Huobi.unix := Huobi.unix (Scenario.exchange Scenario.bought (of_Z 6400));
     Huobi.utc := Huobi.utc (Scenario.exchange Scenario.bought (of_Z 6400));
     Huobi.url_parse :=
       Huobi.url_parse (Scenario.exchange Scenario.bought (of_Z 6400));
     Huobi.Do := fun _ _ =>
       rejected "order-accountbalance-error" "insufficient balance";
     Huobi.Stale := Scenario.short_body |}.

(** The small exchange with the market data unreachable. *)
Definition no_quote (o : Huobi.OpenOrder.t) : Huobi.Net :=
  let net := Scenario.exchange o (of_Z 6400) in
  {| Huobi.unix := Huobi.unix net; Huobi.utc := Huobi.utc net;
     Huobi.url_parse := Huobi.url_parse net;
     Huobi.Do := fun t r =>
       if Contains (URL r) "/market/trade"
       then Huobi.Failed false "no route to host" false
       else Huobi.Do net t r;
     Huobi.Stale := Huobi.Stale net |}.

(** The small exchange with a market that has no trade to report. *)
Definition no_tick : Huobi.Net :=
  let net := Scenario.exchange Scenario.bought (of_Z 6400) in
  {| Huobi.unix := Huobi.unix net; Huobi.utc := Huobi.utc net;
     Huobi.url_parse := Huobi.url_parse net;
     Huobi.Do := fun _ _ => Scenario.ok (Huobi.Ticks []);
     Huobi.Stale := Huobi.Stale net |}.

(** The small exchange behind a connection that fails once, at the
    logical time [t]: no answer comes in time, after the request was
    written ([read = true]), or no connection is made in time. *)
Definition hiccup (t : nat) (read : bool) : Huobi.Net :=
  let net := Scenario.exchange Scenario.bought (of_Z 6400) in
  {| Huobi.unix := Huobi.unix net; Huobi.utc := Huobi.utc net;
     Huobi.url_parse := Huobi.url_parse net;
     Huobi.Do := fun t' r =>
       if (t' =? t)%nat then
         Huobi.Failed true
           (if read then "context deadline exceeded (Client.Timeout exceeded while awaiting headers)"
            else "dial tcp: i/o timeout") read
       else Huobi.Do net t' r;
     Huobi.Stale := Huobi.Stale net |}.

(** The plan of [Scenario.holding] on a database that already has the
    order 42. *)
Definition recorded : World Plan.Store :=
  {| events := [];
     store :=
       {| Plan.self := Plan.self Scenario.holding;
          Plan.database :=
            {| DB.orders := [Plan.order_row Scenario.bought];
               DB.statistics := [] |} |} |}.

End Cases.

(** ** aip.go *)

Module Main.
Import Errors.

(** The [switch] of [execute] on the name of the period: the three names
    give a period at midnight (on Monday, on the first of the month); with
    any other name no case applies and [p] stays nil, here [None]. *)
Definition choose_period (period : string) : result (option Period.Period) :=
  wrapped "main.execute"
    (if String.eqb period "daily" then
       match Period.NewDaily 0 0 0 with Ok p => Ok (Some p) | Err e => Err e end
     else if String.eqb period "weekly" then
       match Period.NewWeekly 1 0 0 0 with Ok p => Ok (Some p) | Err e => Err e end
     else if String.eqb period "monthly" then
       match Period.NewMonthly 1 0 0 0 with Ok p => Ok (Some p) | Err e => Err e end
     else Ok None).

End Main.

(** ** Counting digests *)

Module Digests.

Definition byte (b : Z) : Prop := 0 <= b < 256.

(** All the lists of [n] bytes. *)
Fixpoint words_of (n : nat) : list (list Z) :=
  match n with
  | O => [[]]
  | S n' => b ← seqZ 0 256; (cons b) <$> words_of n'
  end.

(** A string for every number. *)
Fixpoint filler (n : nat) : string :=
  match n with
  | O => EmptyString
  | S n' => String "a" (filler n')
  end.

End Digests.

(** * Theorems *)

Import Errors Strings Float64 Sys.

(** ** Arithmetic of [float64] *)

Section FloatFacts.

(** Adding the opposite is subtracting. *)
Lemma add_neg (x y : float64) : add x (neg y) = sub x y.
Proof.
  destruct x as [sx|sx| |sx mx ex], y as [sy|sy| |sy my ey];
    try reflexivity; destruct sx, sy; reflexivity.
Qed.

(** A quotient does not see a change of sign of both operands. *)
Lemma div_neg_neg (x y : float64) : div (neg x) (neg y) = div x y.
Proof.
  destruct x as [sx|sx| |sx mx ex], y as [sy|sy| |sy my ey];
    try reflexivity;
    unfold div, neg; cbn [SFopp SFdiv];
    destruct sx, sy; reflexivity.
Qed.

(** Dividing by a zero never gives a finite number. *)
Lemma div_zero_not_finite (x y : float64) :
  is_zero y = true -> is_finite (div x y) = false.
Proof.
  destruct y; try discriminate. intros _. destruct x; reflexivity.
Qed.

Lemma is_zero_neg (x : float64) : is_zero (neg x) = is_zero x.
Proof. destruct x; reflexivity. Qed.

(** Go's [==] holds between a number and itself, except for NaN. *)
Lemma eqb_refl (x : float64) : IsNaN x = false -> eqb x x = true.
Proof.
  destruct x as [s|s| |s m e]; try discriminate; intros _;
    unfold eqb, SFeqb; cbn [SFcompare].
  - reflexivity.
  - destruct s; reflexivity.
  - rewrite Z.compare_refl.
    assert (Pos.compare_cont Eq m m = Eq) as -> by apply Pos.compare_cont_refl.
    destruct s; reflexivity.
Qed.

(** And it fails between NaN and itself. *)
Lemma eqb_same (x : float64) : eqb x x = negb (IsNaN x).
Proof.
  destruct (IsNaN x) eqn:Hnan.
  - destruct x; try discriminate. reflexivity.
  - apply eqb_refl. exact Hnan.
Qed.

End FloatFacts.

(** ** Effects: what a call leaves untouched *)

Create HintDb frame.

Section Frames.
Context {S : Type}.

Lemma preserves_ret {A} (a : A) : preserves (S := S) (ret a).
Proof. intros w; reflexivity. Qed.

Lemma preserves_fail {A} (e : error) : preserves (@fail S A e).
Proof. intros w; reflexivity. Qed.

Lemma preserves_lift {A} (r : result A) : preserves (S := S) (lift r).
Proof. intros w; reflexivity. Qed.

Lemma preserves_emit (e : Event) : preserves (S := S) (emit e).
Proof. intros w; reflexivity. Qed.

Lemma preserves_bind {A B} (m : M S A) (k : A -> M S B) :
  preserves m -> (forall a, preserves (k a)) -> preserves (bind m k).
Proof.
  intros Hm Hk w. unfold bind. specialize (Hm w).
  destruct (m w) as [[a|e] w1]; cbn in *; [|assumption].
  rewrite Hk. assumption.
Qed.

Lemma preserves_wrapping {A} (name : string) (m : M S A) :
  preserves m -> preserves (wrapping name m).
Proof.
  intros Hm w. unfold wrapping. specialize (Hm w).
  destruct (m w) as [r w1]; assumption.
Qed.

Lemma preserves_roundtrip (net : Huobi.Net) (r : Request) (retry : Z)
    (spent : bool) :
  preserves (S := S) (Huobi.roundtrip net r retry spent).
Proof.
  intros w. funelim (Huobi.roundtrip net r retry spent w);
    try reflexivity.
  exact H.
Qed.

End Frames.

#[global] Hint Resolve preserves_ret preserves_fail preserves_lift
  preserves_emit preserves_wrapping preserves_roundtrip : frame.

(** [frame] goes through a body bind by bind. *)
Ltac frame :=
  repeat match goal with
    | |- preserves (wrapping _ _) => apply preserves_wrapping
    | |- preserves (bind _ _) => apply preserves_bind; [| intros ?]
    | |- preserves (match ?x with _ => _ end) => destruct x
    | |- preserves (if ?b then _ else _) => destruct b
    | |- preserves _ => solve [auto with frame]
    end.

Section HuobiFrames.
Context {S : Type}.
Variables (net : Huobi.Net) (c : Huobi.Client).

Lemma preserves_req (method address : string) (params : gmap string string) :
  preserves (S := S) (Huobi.req net c method address params).
Proof. unfold Huobi.req. frame. Qed.

Lemma preserves_SymbolPrice (name : string) :
  preserves (S := S) (Huobi.SymbolPrice net c name).
Proof. unfold Huobi.SymbolPrice. pose proof preserves_req. frame. Qed.

Lemma preserves_OpenOrder (ID : Z) :
  preserves (S := S) (Huobi.OpenOrder_ net c ID).
Proof. unfold Huobi.OpenOrder_. pose proof preserves_req. frame. Qed.

Lemma preserves_Trade (symbol : string) (cmd : Huobi.TradeType)
    (amount price : float64) :
  preserves (S := S) (Huobi.Trade net c symbol cmd amount price).
Proof.
  unfold Huobi.Trade. pose proof preserves_req. pose proof preserves_OpenOrder.
  frame.
Qed.

End HuobiFrames.

(** ** The retry loop of [req] *)

Section Retry.
Context {S : Type}.
Variable net : Huobi.Net.

(** The attempts of a loop after the first one are those of the loop that
    starts one event later, with the body as the first attempt left it. *)
Lemma attempt_from_next (r : Request) (spent : bool) (w : World S) (k : nat)
    (timeout : bool) (msg : string) (read : bool) :
  Huobi.client_Do net (length (events w)) r spent = Huobi.Failed timeout msg read ->
  Huobi.attempt_from net r spent w (Datatypes.S k)
  = Huobi.attempt_from net r (spent || read)
      {| events := events w ++ [HTTP r]; store := store w |} k.
Proof.
  intros Hdo. unfold Huobi.attempt_from. cbn [events Huobi.spent_at].
  rewrite Hdo. cbn [Huobi.spent_after].
  rewrite length_app. cbn [length].
  replace (length (events w) + 1)%nat with (Datatypes.S (length (events w))) by lia.
  replace (length (events w) + Datatypes.S k)%nat
    with (Datatypes.S (length (events w)) + k)%nat by lia.
  reflexivity.
Qed.

Lemma attempt_from_first (r : Request) (spent : bool) (w : World S) :
  Huobi.attempt_from net r spent w 0
  = Huobi.client_Do net (length (events w)) r spent.
Proof. unfold Huobi.attempt_from. cbn. rewrite Nat.add_0_r. reflexivity. Qed.

Lemma roundtrip_run (r : Request) (retry : Z) (spent : bool) (w : World S) :
  exists n, (1 <= n)%nat /\ Z.of_nat n <= Z.max 1 (3 - retry) /\
            Huobi.run_of net r retry spent w n (Huobi.roundtrip net r retry spent w).
Proof.
  funelim (Huobi.roundtrip net r retry spent w).
  - (* a response *)
    exists 1%nat. split; [lia|]. split; [lia|].
    unfold Huobi.run_of; cbn. split; [reflexivity|]. split; [reflexivity|].
    split; [intros k Hk; lia|].
    rewrite attempt_from_first, Heq. reflexivity.
  - (* a response whose body cannot be read *)
    exists 1%nat. split; [lia|]. split; [lia|].
    unfold Huobi.run_of; cbn. split; [reflexivity|]. split; [reflexivity|].
    split; [intros k Hk; lia|].
    rewrite attempt_from_first, Heq. reflexivity.
  - (* a failure that is not tried again *)
    exists 1%nat. split; [lia|]. split; [lia|].
    unfold Huobi.run_of; cbn. split; [reflexivity|]. split; [reflexivity|].
    split; [intros k Hk; lia|].
    rewrite attempt_from_first, Heq0. split; [reflexivity | left; exact Heq].
  - (* a failure that is tried again *)
    destruct H as (n & Hn1 & Hn3 & Hev & Hst & Hre & Hlast).
    exists (Datatypes.S n). split; [lia|]. split; [lia|].
    unfold Huobi.run_of in *; cbn [events store fst snd] in *.
    split; [rewrite Hev, <- app_assoc; reflexivity|].
    split; [exact Hst|]. split.
    + intros [|k] Hk.
      * rewrite attempt_from_first, Heq1. exact Heq0.
      * rewrite (attempt_from_next _ _ _ _ _ _ _ Heq1). apply Hre. lia.
    + replace (Datatypes.S n - 1)%nat with (Datatypes.S (n - 1)) by lia.
      rewrite (attempt_from_next _ _ _ _ _ _ _ Heq1).
      destruct (Huobi.attempt_from net r (spent || read) _ (n - 1));
        [|exact Hlast|exact Hlast].
      destruct Hlast as [-> Hor]; split; [reflexivity|].
      destruct Hor; [left; assumption | right; lia].
  - (* the third failure *)
    exists 1%nat. split; [lia|]. split; [lia|].
    unfold Huobi.run_of; cbn. split; [reflexivity|]. split; [reflexivity|].
    split; [intros k Hk; lia|].
    rewrite attempt_from_first, Heq1. split; [reflexivity | right; lia].
Qed.

(** A request without a body is sent afresh at every attempt. *)
Lemma attempt_without_body (r : Request) (spent : bool) (w : World S) (k : nat) :
  Body r = None ->
  Huobi.attempt_from net r spent w k = Huobi.Do net (length (events w) + k) r.
Proof.
  intros Hbody. unfold Huobi.attempt_from, Huobi.client_Do, Huobi.has_body.
  rewrite Hbody, andb_false_r. reflexivity.
Qed.


(** A call on a request whose body is unread is answered by the network,
    and so is every call that is answered at all. *)
Lemma client_Do_unread (now : nat) (r : Request) :
  Huobi.client_Do net now r false = Huobi.Do net now r.
Proof. reflexivity. Qed.

Lemma client_Do_responded (now : nat) (r : Request) (spent : bool)
    (body : result Huobi.Document) :
  Huobi.client_Do net now r spent = Huobi.Responded body ->
  Huobi.Do net now r = Huobi.Responded body.
Proof.
  unfold Huobi.client_Do. destruct (spent && Huobi.has_body r); [discriminate|auto].
Qed.

(** The errors that are tried again, spelled out. *)
Lemma transient_spec (timeout : bool) (msg : string) :
  Huobi.transient timeout msg = true <->
  timeout = true \/ Contains msg "connection reset by peer" = true.
Proof. unfold Huobi.transient. apply orb_true_iff. Qed.

Lemma transient_false (timeout : bool) (msg : string) :
  Huobi.transient timeout msg = false <->
  timeout = false /\ Contains msg "connection reset by peer" = false.
Proof. unfold Huobi.transient. apply orb_false_iff. Qed.

End Retry.

(** C4. The transport loop of [req], which starts with [retry = 0] and with
    the body of the request unread, calls [client.Do] between one and three
    times, one call after the other with nothing in between. A call is
    followed by another one exactly when it failed with a timeout or with a
    message that contains "connection reset by peer" and was not the third
    call. The answer of the last call is returned when it is a response, on
    whichever attempt it comes, or the error of the read when the body of
    the response cannot be read; the error of the last call is returned
    when it is neither a timeout nor a reset connection, or when it was the
    third call. The
    first call is answered by the network, and so is every call for a
    request without a body. *)
Theorem C4_retry_bound {S : Type} (net : Huobi.Net) (r : Request) (w : World S) :
  exists n, (1 <= n <= 3)%nat /\
    let out := Huobi.roundtrip net r 0 false w in
    events out.2 = events w ++ replicate n (HTTP r) /\
    store out.2 = store w /\
    (forall k, (k < n - 1)%nat ->
       exists timeout msg read,
         Huobi.attempt net r w k = Huobi.Failed timeout msg read /\
         (timeout = true \/ Contains msg "connection reset by peer" = true)) /\
    match Huobi.attempt net r w (n - 1) with
    | Huobi.Responded body => out.1 = Ok body
    | Huobi.Cut msg => out.1 = Err (New msg)
    | Huobi.Failed timeout msg _ =>
        out.1 = Err (NetError timeout msg) /\
        ((timeout = false /\ Contains msg "connection reset by peer" = false)
         \/ n = 3%nat)
    end /\
    Huobi.attempt net r w 0 = Huobi.Do net (length (events w)) r /\
    (Body r = None ->
     forall k, Huobi.attempt net r w k = Huobi.Do net (length (events w) + k) r).
Proof.
  destruct (roundtrip_run net r 0 false w) as (n & Hn1 & Hn3 & Hev & Hst & Hre & Hlast).
  exists n. split; [lia|]. cbn zeta. split; [exact Hev|]. split; [exact Hst|].
  unfold Huobi.attempt. split; [|split; [|split]].
  - intros k Hk. specialize (Hre k Hk).
    destruct (Huobi.attempt_from net r false w k) as [timeout msg read|body|msg];
      [|discriminate|discriminate].
    exists timeout, msg, read. split; [reflexivity|].
    apply transient_spec. exact Hre.
  - destruct (Huobi.attempt_from net r false w (n - 1));
      [|exact Hlast|exact Hlast].
    destruct Hlast as [-> Hor]; split; [reflexivity|].
    destruct Hor as [Hor|Hor]; [left; apply transient_false; exact Hor | right; lia].
  - rewrite attempt_from_first. reflexivity.
  - intros Hbody k. apply attempt_without_body. exact Hbody.
Qed.

(** Two timeouts and then an answer: three attempts, the answer is returned. *)
Example retry_two_timeouts :
  let r := {| Method := "GET"; URL := "https://api.huobi.pro/market/trade";
              ContentType := EmptyString; Body := None |} in
  let out := Huobi.roundtrip (Scenario.flaky 2) r 0 false {| events := []; store := tt |} in
  is_ok out.1 = true /\ events out.2 = [HTTP r; HTTP r; HTTP r].
Proof. vm_compute. split; reflexivity. Qed.

(** Three timeouts: the third one is returned and there is no fourth attempt,
    although a fourth attempt would have been answered. *)
Example retry_three_timeouts :
  let r := {| Method := "GET"; URL := "https://api.huobi.pro/market/trade";
              ContentType := EmptyString; Body := None |} in
  let out := Huobi.roundtrip (Scenario.flaky 3) r 0 false {| events := []; store := tt |} in
  out.1 = Err (NetError true "context deadline exceeded") /\
  events out.2 = [HTTP r; HTTP r; HTTP r] /\
  is_ok (Huobi.roundtrip (Scenario.flaky 3) r 0 false out.2).1 = true.
Proof. vm_compute. repeat split; reflexivity. Qed.

(** A connection that is reset, without a timeout, is tried again as well;
    an error of another kind is returned at once. *)
Example retry_reset_connection :
  let r := {| Method := "GET"; URL := "https://api.huobi.pro/market/trade";
              ContentType := EmptyString; Body := None |} in
  let net (msg : string) :=
    {| Huobi.unix := Huobi.unix (Scenario.flaky 0);
       Huobi.utc := Huobi.utc (Scenario.flaky 0);
       Huobi.url_parse := Huobi.url_parse (Scenario.flaky 0);
       Huobi.Do := fun t r =>
         if (t <? 1)%nat then Huobi.Failed false msg true
         else Huobi.Do (Scenario.flaky 0) t r;
       Huobi.Stale := Scenario.short_body |} in
  let run (msg : string) :=
    Huobi.roundtrip (net msg) r 0 false {| events := []; store := tt |} in
  is_ok (run "read tcp 10.0.0.2:51234: read: connection reset by peer").1 = true /\
  events (run "read tcp 10.0.0.2:51234: read: connection reset by peer").2
    = [HTTP r; HTTP r] /\
  (run "dial tcp: lookup api.huobi.pro: no such host").1
    = Err (NetError false "dial tcp: lookup api.huobi.pro: no such host") /\
  events (run "dial tcp: lookup api.huobi.pro: no such host").2 = [HTTP r].
Proof. vm_compute. repeat split; reflexivity. Qed.

(** ** Periods *)

Section Periods.
Import Period.

Lemma mustBetween_ok (value from to : Z) :
  mustBetween value from to = None <-> from <= value <= to.
Proof.
  unfold mustBetween.
  destruct (value <? from) eqn:Hlo, (value >? to) eqn:Hhi; cbn;
    split; intros H; try discriminate; try reflexivity; lia.
Qed.

Lemma validateTime_ok (h m s : Z) :
  validateTime h m s = None <-> 0 <= h <= 23 /\ 0 <= m <= 59 /\ 0 <= s <= 59.
Proof.
  unfold validateTime.
  pose proof (mustBetween_ok h 0 23) as Hh.
  pose proof (mustBetween_ok m 0 59) as Hm.
  pose proof (mustBetween_ok s 0 59) as Hs.
  destruct (mustBetween h 0 23), (mustBetween m 0 59), (mustBetween s 0 59);
    split; intros H; try discriminate; try reflexivity;
    intuition discriminate.
Qed.

End Periods.

(** C8. [NewDaily], [NewWeekly] and [NewMonthly] succeed exactly when the
    hour is between 0 and 23 and the minute and the second are between 0
    and 59: they succeed for every such time and fail for every other one,
    whatever the weekday or the day of the month. *)
Theorem C8_period_construction (h m s : Z) :
  let valid := 0 <= h <= 23 /\ 0 <= m <= 59 /\ 0 <= s <= 59 in
  (is_ok (Period.NewDaily h m s) = true <-> valid) /\
  (forall weekday, is_ok (Period.NewWeekly weekday h m s) = true <-> valid) /\
  (forall day, is_ok (Period.NewMonthly day h m s) = true <-> valid).
Proof.
  cbn zeta. pose proof (validateTime_ok h m s) as Hv.
  unfold Period.NewDaily, Period.NewWeekly, Period.NewMonthly.
  destruct (Period.validateTime h m s); cbn;
    repeat split; intros; try discriminate; try tauto;
    exfalso; intuition discriminate.
Qed.

(** The schedules of the tests of the repository. *)
Example schedules :
  (fun r => match r with Ok p => Period.Schedule p | Err _ => EmptyString end)
    <$> [Period.NewDaily 7 56 34; Period.NewWeekly 6 7 56 34;
         Period.NewMonthly 1 7 56 34]
  = ["34 56 7 * * *"; "34 56 7 * * 6"; "34 56 7 1 * *"].
Proof. vm_compute. reflexivity. Qed.

(** ** The spot account *)

Section SpotAccount.
Import Huobi.

Lemma spot_scan_find (l : list Account.t) :
  spot_scan l =
    match first_spot l with
    | Some a => Account.ID a
    | None => 0
    end.
Proof.
  induction l as [|a l IH]; [reflexivity|]. cbn.
  destruct (String.eqb (Account.Type_ a) "spot"); [reflexivity | exact IH].
Qed.

Lemma first_spot_None (l : list Account.t) :
  first_spot l = None <-> forall a, In a l -> Account.Type_ a <> "spot".
Proof.
  unfold first_spot. split.
  - intros H a Ha Hspot.
    pose proof (find_none _ _ H a Ha) as Hf. cbn in Hf.
    rewrite Hspot in Hf. discriminate.
  - intros H. destruct (find _ l) as [a|] eqn:Hf; [|reflexivity].
    apply find_some in Hf as [Hin Heq].
    apply String.eqb_eq in Heq. destruct (H a Hin Heq).
Qed.

End SpotAccount.

(** C7, as the code has it. [SpotAccountID] scans the cached accounts for
    the first one of type ["spot"] and uses the ID 0 for "none found": it
    returns an ID exactly when the first account of type ["spot"] has an
    ID other than 0, and this ID is the result; it fails with "account not
    found" exactly when no account of type ["spot"] exists or the first
    one has the ID 0. *)
Theorem C7_spot_account_id (c : Huobi.Client) :
  (forall id, Huobi.SpotAccountID c = Ok id <->
     exists a, Huobi.first_spot (Huobi.accounts c) = Some a /\
               Huobi.Account.ID a = id /\ id <> 0) /\
  (Huobi.SpotAccountID c
     = Err (Wrap Huobi.errAccountNotFound "huobi.(*Client).SpotAccountID") <->
     (forall a, In a (Huobi.accounts c) -> Huobi.Account.Type_ a <> "spot") \/
     exists a, Huobi.first_spot (Huobi.accounts c) = Some a /\
               Huobi.Account.ID a = 0).
Proof.
  unfold Huobi.SpotAccountID. rewrite spot_scan_find.
  rewrite <- first_spot_None.
  destruct (Huobi.first_spot (Huobi.accounts c)) as [a|] eqn:Hf.
  - destruct (Z.eqb_spec (Huobi.Account.ID a) 0) as [H0|H0]; split.
    + intros id; split; [discriminate|].
      intros (a' & [= <-] & <- & Hne). contradiction.
    + split; [|reflexivity]. intros _. right. exists a; auto.
    + intros id; split.
      * intros [= <-]. exists a; auto.
      * intros (a' & [= <-] & <- & _). reflexivity.
    + split; [discriminate|].
      intros [Hnone | (a' & [= <-] & Hz)]; [discriminate | contradiction].
  - cbn. split.
    + intros id; split; [discriminate|]. intros (a & Ha & _). discriminate.
    + split; [|reflexivity]. intros _. left. reflexivity.
Qed.

(** C7, as the specification has it, fails: the only account is of type
    ["spot"] and has the ID 0, and [SpotAccountID] answers "account not
    found". *)
Lemma C7_spot_id_zero :
  let c := {| Huobi.host := EmptyString; Huobi.key := EmptyString; Huobi.secret := EmptyString;
              Huobi.symbols := [];
              Huobi.accounts := [Scenario.account 0 "spot"] |} in
  (exists a, In a (Huobi.accounts c) /\ Huobi.Account.Type_ a = "spot") /\
  Huobi.SpotAccountID c
    = Err (Wrap Huobi.errAccountNotFound "huobi.(*Client).SpotAccountID").
Proof.
  cbn zeta. split; [|reflexivity].
  exists (Scenario.account 0 "spot"). split; [left|]; reflexivity.
Qed.

(** With an ID other than 0 the first account of type ["spot"] is found. *)
Example spot_account_found : Huobi.SpotAccountID Scenario.client = Ok 100.
Proof. reflexivity. Qed.

(** ** The plan *)

Ltac run :=
  unfold wrapping, bind, ret, fail, lift, emit, get, put, zoom; cbn.

Section PlanFacts.
Import Plan.
Variable env : Env.

(** [stateFlush] step by step: the price is fetched, then the state is
    written. *)
Lemma stateFlush_eq (w : World Store) :
  let p := self (store w) in
  stateFlush env w =
    match Huobi.SymbolPrice (net env) (client p) (symbol p) w with
    | (Ok quote, w1) =>
        (Ok tt,
         {| events := events w1 ++ [Clock];
            store :=
              {| self :=
                   with_state p
                     {| position := position (st p);
                        investment := investment (st p);
                        price := quote;
                        equity := mul quote (position (st p));
                        updated := uint64 (Huobi.unix (net env) (length (events w1))) |};
                 database := database (store w) |} |})
    | (Err e, w1) => (wrapped "plan.(*plan).stateFlush" (Err e), w1)
    end.
Proof.
  cbn zeta. unfold stateFlush, the_plan, now, set_state. run.
  pose proof (preserves_SymbolPrice (net env) (client (self (store w)))
                (symbol (self (store w))) w) as Hst.
  destruct (Huobi.SymbolPrice _ _ _ w) as [[quote|e] w1]; cbn in *.
  - rewrite Hst. reflexivity.
  - reflexivity.
Qed.

(** A successful [stateFlush] leaves [equity = price * position], and
    never touches the position, the investment or the database. *)
Lemma stateFlush_ok (w w' : World Store) :
  stateFlush env w = (Ok tt, w') ->
  let s := st (self (store w')) in
  equity s = mul (price s) (position s) /\
  position s = position (st (self (store w))) /\
  investment s = investment (st (self (store w))) /\
  database (store w') = database (store w).
Proof.
  rewrite stateFlush_eq. cbn zeta.
  destruct (Huobi.SymbolPrice _ _ _ w) as [[quote|e] w1].
  - intros [= <-]. cbn. auto.
  - destruct e; discriminate.
Qed.

Lemma stateFlush_keeps (w : World Store) :
  let w' := (stateFlush env w).2 in
  position (st (self (store w'))) = position (st (self (store w))) /\
  investment (st (self (store w'))) = investment (st (self (store w))) /\
  database (store w') = database (store w).
Proof.
  rewrite stateFlush_eq. cbn zeta.
  pose proof (preserves_SymbolPrice (net env) (client (self (store w)))
                (symbol (self (store w))) w) as Hst.
  destruct (Huobi.SymbolPrice _ _ _ w) as [[quote|e] w1]; cbn in *.
  - auto.
  - rewrite Hst. auto.
Qed.

(** [addOrder]: the plan is not touched; the row is added when the call
    succeeds and the database is as before when it fails. *)
Lemma addOrder_spec (o : Huobi.OpenOrder.t) (w : World Store) :
  let out := addOrder env o w in
  self (store out.2) = self (store w) /\
  match out.1 with
  | Ok _ =>
      DB.orders (database (store out.2))
        = DB.orders (database (store w)) ++ [order_row o] /\
      DB.statistics (database (store out.2)) = DB.statistics (database (store w))
  | Err _ => database (store out.2) = database (store w)
  end.
Proof.
  cbn zeta. unfold addOrder, db, DB.AddOrder. run.
  destruct (DB.fault (driver env) (length (events w))) as [e|]; cbn.
  - destruct e; cbn; auto.
  - destruct (DB.first_null _); cbn; [auto|].
    destruct (existsb _ _); cbn; auto.
Qed.

(** A row that is stored has no NaN, and a row with a NaN is refused by
    the first column that holds one. *)
Lemma addOrder_ok (o : Huobi.OpenOrder.t) (w : World Store) :
  (addOrder env o w).1 = Ok tt ->
  DB.first_null (DB.order_reals (order_row o)) = None.
Proof.
  unfold addOrder, db, DB.AddOrder. run.
  destruct (DB.fault (driver env) (length (events w))) as [e|]; cbn;
    [destruct e; discriminate|].
  destruct (DB.first_null _); cbn; [discriminate | reflexivity].
Qed.

Lemma addOrder_null (o : Huobi.OpenOrder.t) (w : World Store) (column : string) :
  DB.fault (driver env) (length (events w)) = None ->
  DB.first_null (DB.order_reals (order_row o)) = Some column ->
  addOrder env o w
  = (Err (Wrap (Errors.New ("NOT NULL constraint failed: orders." +:+ column))
            "db.AddOrder"),
     {| events := events w ++ [SQL "INSERT INTO orders"]; store := store w |}).
Proof.
  intros Hfault Hnull. unfold addOrder, db, DB.AddOrder. run.
  rewrite Hfault, Hnull. cbn. destruct (store w). reflexivity.
Qed.

Lemma addStatistics_self (w : World Store) :
  self (store (addStatistics env w).2) = self (store w).
Proof.
  unfold addStatistics, the_plan, db, DB.AddStatistics. run.
  destruct (DB.fault (driver env) (length (events w))) as [e|]; cbn;
    [destruct e; reflexivity|].
  destruct (DB.first_null _); reflexivity.
Qed.

(** The row of a successful [addStatistics] has no NaN: the equity of the
    plan is a number. *)
Lemma addStatistics_ok (w : World Store) :
  (addStatistics env w).1 = Ok tt ->
  IsNaN (equity (st (self (store w)))) = false.
Proof.
  unfold addStatistics, the_plan, db, DB.AddStatistics. run.
  destruct (DB.fault (driver env) (length (events w))) as [e|]; cbn;
    [destruct e; discriminate|].
  unfold DB.first_null, DB.statistics_reals. cbn.
  destruct (IsNaN (position _)); [discriminate|].
  destruct (IsNaN (investment _)); [discriminate|].
  destruct (IsNaN (price _)); [discriminate|].
  destruct (IsNaN (equity _)); [discriminate | reflexivity].
Qed.

(** [stateUpdate] adds the amounts of the order to the position and to
    the investment, whether the flush that follows succeeds or not; when
    it succeeds, [equity = price * position]. *)
Lemma stateUpdate_spec (o : Huobi.OpenOrder.t) (w : World Store) :
  let out := stateUpdate env o w in
  let s := st (self (store out.2)) in
  position s = add (position (st (self (store w)))) (Huobi.OpenOrder.FieldAmount o) /\
  investment s
    = add (investment (st (self (store w)))) (Huobi.OpenOrder.FieldCashAmount o) /\
  database (store out.2) = database (store w) /\
  (out.1 = Ok tt -> equity s = mul (price s) (position s)).
Proof.
  cbn zeta. unfold stateUpdate, the_plan, now, set_state. run.
  match goal with |- context [stateFlush env ?w0] => set (w1 := w0) end.
  pose proof (stateFlush_keeps w1) as (Hp & Hi & Hd).
  pose proof (stateFlush_ok w1) as Hok.
  destruct (stateFlush env w1) as [[[]|e] w2]; cbn in *.
  - split; [exact Hp|]. split; [exact Hi|]. split; [exact Hd|].
    intros _. exact (proj1 (Hok w2 eq_refl)).
  - split; [exact Hp|]. split; [exact Hi|]. split; [exact Hd|].
    destruct e; discriminate.
Qed.

(** [Invest] step by step. *)
Lemma Invest_eq (w : World Store) :
  let p := self (store w) in
  Invest env w =
    match Huobi.Trade (net env) (client p) (symbol p) Huobi.BuyLimit (amount p)
            (of_Z (-1)) w with
    | (Ok (Some o), w1) =>
        match addOrder env (normalized o) w1 with
        | (Ok _, w2) =>
            let out := stateUpdate env (normalized o) w2 in
            (wrapped "plan.(*plan).Invest" out.1, out.2)
        | (Err e, w2) => (wrapped "plan.(*plan).Invest" (Err e), w2)
        end
    | (Ok None, w1) =>
        (Err (Panic "runtime error: invalid memory address or nil pointer dereference"),
         w1)
    | (Err e, w1) => (wrapped "plan.(*plan).Invest" (Err e), w1)
    end.
Proof.
  cbn zeta. unfold Invest, the_plan. run.
  destruct (Huobi.Trade _ _ _ _ _ _ w) as [[[o|]|e] w1]; cbn; try reflexivity.
  destruct (addOrder env (normalized o) w1) as [[[]|e] w2]; cbn; try reflexivity.
  destruct (stateUpdate env (normalized o) w2) as [r w3]; reflexivity.
Qed.

Lemma Monitor_eq (w : World Store) :
  Monitor env w =
    match stateFlush env w with
    | (Ok _, w1) =>
        let out := addStatistics env w1 in
        (wrapped "plan.(*plan).Monitor" out.1, out.2)
    | (Err e, w1) => (wrapped "plan.(*plan).Monitor" (Err e), w1)
    end.
Proof.
  unfold Monitor. unfold wrapping at 1. unfold bind.
  destruct (stateFlush env w) as [[[]|e] w1]; [|reflexivity].
  cbn zeta. destruct (addStatistics env w1) as [r w2]. reflexivity.
Qed.

Lemma wrapped_ok {A} (name : string) (r : result A) (a : A) :
  wrapped name r = Ok a -> r = Ok a.
Proof. destruct r as [a'|[]]; cbn; congruence. Qed.

End PlanFacts.

(** C1, as the code has it. After a successful [Invest] and after a
    successful [Monitor], the equity held in the state is the float64 that
    [price * position] computes from the price and the position held in
    the state. Go's [==] holds between the two exactly when this product is
    not NaN. After a successful [Monitor] it always holds, as the table of
    statistics does not take a NaN; after a successful [Invest] it need
    not. *)
Theorem C1_equity_invariant (env : Plan.Env) (w w' : World Plan.Store) :
  Plan.Invest env w = (Ok tt, w') \/ Plan.Monitor env w = (Ok tt, w') ->
  let s := Plan.st (Plan.self (store w')) in
  let product := mul (Plan.price s) (Plan.position s) in
  Plan.equity s = product /\
  (eqb (Plan.equity s) product = true <-> IsNaN product = false) /\
  (Plan.Monitor env w = (Ok tt, w') -> eqb (Plan.equity s) product = true).
Proof.
  intros H. cbn zeta.
  assert (Plan.equity (Plan.st (Plan.self (store w')))
          = mul (Plan.price (Plan.st (Plan.self (store w'))))
                (Plan.position (Plan.st (Plan.self (store w'))))) as Heq.
  { destruct H as [H|H].
    - rewrite Invest_eq in H. cbn zeta in H.
      destruct (Huobi.Trade _ _ _ _ _ _ w) as [[[o|]|e] w1];
        [| discriminate | destruct e; discriminate].
      destruct (Plan.addOrder env (Plan.normalized o) w1) as [[[]|e] w2];
        [| destruct e; discriminate].
      pose proof (stateUpdate_spec env (Plan.normalized o) w2) as (_ & _ & _ & Hinv).
      injection H as Hr Hw. subst w'. apply Hinv.
      apply wrapped_ok in Hr. exact Hr.
    - rewrite Monitor_eq in H.
      pose proof (stateFlush_ok env w) as Hok.
      destruct (Plan.stateFlush env w) as [[[]|e] w1];
        [| destruct e; discriminate].
      destruct (Hok w1 eq_refl) as (He & _). cbn zeta in H.
      injection H as _ Hw. subst w'.
      rewrite addStatistics_self. exact He. }
  split; [exact Heq|]. rewrite <- Heq, eqb_same. split.
  - destruct (IsNaN _); [split; discriminate | split; reflexivity].
  - clear H. intros H. rewrite Monitor_eq in H.
    destruct (Plan.stateFlush env w) as [[[]|e] w1];
      [| destruct e; discriminate].
    cbn zeta in H. injection H as Hr Hw. subst w'.
    apply wrapped_ok in Hr. rewrite addStatistics_self.
    rewrite (addStatistics_ok env w1 Hr). reflexivity.
Qed.

(** C1 on the small exchange: an investment at the price 6400. *)
Lemma C1_equity_invariant_witness :
  let env := Scenario.desk Scenario.bought (of_Z 6400) Scenario.healthy in
  let s := Plan.st (Plan.self (store (Plan.Invest env Scenario.start).2)) in
  Plan.equity s = mul (Plan.price s) (Plan.position s) /\
  eqb (Plan.equity s) (mul (Plan.price s) (Plan.position s)) = true /\
  Plan.equity s = of_Z 16000.
Proof.
  destruct (C1_equity_invariant
              (Scenario.desk Scenario.bought (of_Z 6400) Scenario.healthy)
              Scenario.start
              (Plan.Invest (Scenario.desk Scenario.bought (of_Z 6400) Scenario.healthy)
                 Scenario.start).2) as (Heq & Heqb & _).
  - left. vm_compute. reflexivity.
  - cbn zeta. split; [exact Heq|]. split; [|vm_compute; reflexivity].
    apply Heqb. vm_compute. reflexivity.
Defined.

(** C1, as the specification has it, fails: the exchange reports the price
    NaN (the text "NaN" of a tick is decoded to it), the investment
    succeeds, and the equity, a NaN, is not [==] to the product of the
    price and the position. *)
Lemma C1_nan_quote :
  let env := Scenario.desk Scenario.bought S754_nan Scenario.healthy in
  let out := Plan.Invest env Scenario.start in
  let s := Plan.st (Plan.self (store out.2)) in
  out.1 = Ok tt /\
  eqb (Plan.equity s) (mul (Plan.price s) (Plan.position s)) = false.
Proof. vm_compute. split; reflexivity. Qed.

(** A monitoring tick at this price fails, on the first NaN of the row. *)
Example monitor_refuses_nan :
  let env := Scenario.desk Scenario.bought S754_nan Scenario.healthy in
  (Plan.Monitor env Scenario.start).1
  = Err (Wrap (Wrap (New "NOT NULL constraint failed: statistics.price")
                 "db.AddStatistics") "plan.(*plan).Monitor").
Proof. vm_compute. reflexivity. Qed.

(** The same after a monitoring tick. *)
Example monitor_keeps_invariant :
  let env := Scenario.desk Scenario.bought (of_Z 6400) Scenario.healthy in
  let out := Plan.Monitor env Scenario.start in
  out.1 = Ok tt /\
  Plan.equity (Plan.st (Plan.self (store out.2))) = of_Z 12800.
Proof. vm_compute. split; reflexivity. Qed.

(** A failed [Invest] can leave the state without the invariant: the order
    is stored and added to the position, and the price lookup of the flush
    fails, so the equity still belongs to the old position. *)
Example failed_invest_breaks_invariant :
  let net := Scenario.exchange Scenario.bought (of_Z 6400) in
  let env :=
    {| Plan.net :=
         {| Huobi.unix := Huobi.unix net; Huobi.utc := Huobi.utc net;
            Huobi.url_parse := Huobi.url_parse net;
            Huobi.Do := fun t r =>
              if Contains (URL r) "/market/trade"
              then Huobi.Failed false "no route to host" false
              else Huobi.Do net t r;
            Huobi.Stale := Huobi.Stale net |};
       Plan.driver := Scenario.healthy |} in
  let out := Plan.Invest env Scenario.start in
  let s := Plan.st (Plan.self (store out.2)) in
  is_ok out.1 = false /\
  Plan.position s = decimal 25 1 /\
  Plan.equity s = of_Z 300 /\
  mul (Plan.price s) (Plan.position s) = of_Z 375.
Proof. vm_compute. repeat split; reflexivity. Qed.

(** Once the order is stored, [Invest] adds its amounts to the position
    and to the investment, whether the flush that follows succeeds or not,
    and the table of orders has one more row. *)
Lemma Invest_stored (env : Plan.Env) (w w1 : World Plan.Store)
    (o : Huobi.OpenOrder.t) :
  let p := Plan.self (store w) in
  let out := Plan.Invest env w in
  let s := Plan.st (Plan.self (store out.2)) in
  Huobi.Trade (Plan.net env) (Plan.client p) (Plan.symbol p) Huobi.BuyLimit
    (Plan.amount p) (of_Z (-1)) w = (Ok (Some o), w1) ->
  (Plan.addOrder env (Plan.normalized o) w1).1 = Ok tt ->
  DB.orders (Plan.database (store out.2))
    = DB.orders (Plan.database (store w)) ++ [Plan.order_row (Plan.normalized o)] /\
  Plan.position s
    = add (Plan.position (Plan.st p)) (Huobi.OpenOrder.FieldAmount (Plan.normalized o)) /\
  Plan.investment s
    = add (Plan.investment (Plan.st p))
          (Huobi.OpenOrder.FieldCashAmount (Plan.normalized o)).
Proof.
  cbn zeta. intros Htrade Hadd. rewrite Invest_eq. cbn zeta. rewrite Htrade.
  pose proof (preserves_Trade (Plan.net env) (Plan.client (Plan.self (store w)))
                (Plan.symbol (Plan.self (store w))) Huobi.BuyLimit
                (Plan.amount (Plan.self (store w))) (of_Z (-1)) w) as Hst.
  rewrite Htrade in Hst; cbn in Hst.
  pose proof (addOrder_spec env (Plan.normalized o) w1) as (Hself & Hdb).
  destruct (Plan.addOrder env (Plan.normalized o) w1) as [[[]|e] w2];
    cbn in Hself, Hdb, Hadd; [|discriminate].
  pose proof (stateUpdate_spec env (Plan.normalized o) w2) as (Hp & Hi & Hd & _).
  cbn [fst snd]. rewrite Hp, Hi, Hd, Hself, Hst. destruct Hdb as [-> _].
  rewrite Hst. auto.
Qed.

(** Whatever its result, [Invest] either leaves the plan as it was or has
    stored the order. *)
Lemma Invest_cases (env : Plan.Env) (w : World Plan.Store) :
  let p := Plan.self (store w) in
  (Plan.self (store (Plan.Invest env w).2) = p) \/
  exists o w1,
    Huobi.Trade (Plan.net env) (Plan.client p) (Plan.symbol p) Huobi.BuyLimit
      (Plan.amount p) (of_Z (-1)) w = (Ok (Some o), w1) /\
    (Plan.addOrder env (Plan.normalized o) w1).1 = Ok tt.
Proof.
  cbn zeta. rewrite Invest_eq. cbn zeta.
  pose proof (preserves_Trade (Plan.net env) (Plan.client (Plan.self (store w)))
                (Plan.symbol (Plan.self (store w))) Huobi.BuyLimit
                (Plan.amount (Plan.self (store w))) (of_Z (-1)) w) as Hst.
  destruct (Huobi.Trade _ _ _ _ _ _ w) as [[[o|]|e] w1]; cbn in Hst;
    [| left; cbn; congruence | left; cbn; congruence].
  pose proof (addOrder_spec env (Plan.normalized o) w1) as (Hself & _).
  destruct (Plan.addOrder env (Plan.normalized o) w1) as [[[]|e] w2] eqn:Hadd;
    cbn in Hself.
  - right. exists o, w1. rewrite Hadd. split; reflexivity.
  - left. cbn. congruence.
Qed.

(** A successful [Invest] has stored the order. *)
Lemma Invest_ok (env : Plan.Env) (w w' : World Plan.Store) :
  let p := Plan.self (store w) in
  Plan.Invest env w = (Ok tt, w') ->
  exists o w1,
    Huobi.Trade (Plan.net env) (Plan.client p) (Plan.symbol p) Huobi.BuyLimit
      (Plan.amount p) (of_Z (-1)) w = (Ok (Some o), w1) /\
    (Plan.addOrder env (Plan.normalized o) w1).1 = Ok tt.
Proof.
  cbn zeta. rewrite Invest_eq. cbn zeta.
  destruct (Huobi.Trade _ _ _ _ _ _ w) as [[[o|]|e] w1];
    [| discriminate | destruct e; discriminate].
  destruct (Plan.addOrder env (Plan.normalized o) w1) as [[[]|e] w2] eqn:Hadd;
    [| destruct e; discriminate].
  intros _. exists o, w1. rewrite Hadd. split; reflexivity.
Qed.

(** C2. In [Invest] the position and the investment change only after the
    order was stored: when storing the order fails, [Invest] returns that
    error, wrapped, and the plan -- position and investment included -- is
    as it was before the call; and whenever [Invest] leaves a different
    position or investment, the order is in the table of orders. *)
Theorem C2_persist_before_update (env : Plan.Env) (w : World Plan.Store) :
  let p := Plan.self (store w) in
  let out := Plan.Invest env w in
  let s := Plan.st (Plan.self (store out.2)) in
  (forall o w1 e w2,
     Huobi.Trade (Plan.net env) (Plan.client p) (Plan.symbol p) Huobi.BuyLimit
       (Plan.amount p) (of_Z (-1)) w = (Ok (Some o), w1) ->
     Plan.addOrder env (Plan.normalized o) w1 = (Err e, w2) ->
     out = (wrapped "plan.(*plan).Invest" (Err e), w2) /\
     Plan.position s = Plan.position (Plan.st p) /\
     Plan.investment s = Plan.investment (Plan.st p)) /\
  (Plan.position s <> Plan.position (Plan.st p) \/
   Plan.investment s <> Plan.investment (Plan.st p) ->
   exists o,
     DB.orders (Plan.database (store out.2))
       = DB.orders (Plan.database (store w)) ++ [Plan.order_row o]).
Proof.
  cbn zeta. split.
  - intros o w1 e w2 Htrade Hadd.
    rewrite Invest_eq. cbn zeta. rewrite Htrade, Hadd.
    split; [reflexivity|]. cbn [snd].
    pose proof (preserves_Trade (Plan.net env) (Plan.client (Plan.self (store w)))
                  (Plan.symbol (Plan.self (store w))) Huobi.BuyLimit
                  (Plan.amount (Plan.self (store w))) (of_Z (-1)) w) as Hst.
    rewrite Htrade in Hst; cbn in Hst.
    pose proof (addOrder_spec env (Plan.normalized o) w1) as (Hself & _).
    rewrite Hadd in Hself; cbn in Hself.
    rewrite Hself, Hst. split; reflexivity.
  - intros Hchanged.
    destruct (Invest_cases env w) as [Hsame | (o & w1 & Htrade & Hadd)].
    + rewrite Hsame in Hchanged. destruct Hchanged as [H|H]; destruct H; reflexivity.
    + exists (Plan.normalized o).
      exact (proj1 (Invest_stored env w w1 o Htrade Hadd)).
Qed.

(** C2 on the small exchange with a database that refuses every statement. *)
Lemma C2_persist_before_update_witness :
  let env := Scenario.desk Scenario.bought (of_Z 6400) Scenario.broken in
  let out := Plan.Invest env Scenario.start in
  let s := Plan.st (Plan.self (store out.2)) in
  out.1 = Err (Wrap (Wrap (New "database is locked") "db.AddOrder")
                 "plan.(*plan).Invest") /\
  Plan.position s = of_Z 2 /\ Plan.investment s = of_Z 300.
Proof.
  pose (env := Scenario.desk Scenario.bought (of_Z 6400) Scenario.broken).
  pose (p := Plan.self (store Scenario.start)).
  pose (t := Huobi.Trade (Plan.net env) (Plan.client p) (Plan.symbol p)
               Huobi.BuyLimit (Plan.amount p) (of_Z (-1)) Scenario.start).
  destruct (C2_persist_before_update env Scenario.start) as [Hfail _].
  destruct (Hfail Scenario.bought t.2
              (Wrap (New "database is locked") "db.AddOrder")
              (Plan.addOrder env (Plan.normalized Scenario.bought) t.2).2)
    as (Hout & Hp & Hi).
  - vm_compute. reflexivity.
  - vm_compute. reflexivity.
  - cbn zeta. fold env. rewrite Hout. split; [reflexivity|].
    split; [exact Hp | exact Hi].
Defined.

Section Normalized.
Import Plan Huobi.

Lemma normalized_sell (o : OpenOrder.t) :
  sell_kind (OpenOrder.Type_ o) -> normalized o = negated o.
Proof. unfold normalized. intros [-> | ->]; reflexivity. Qed.

Lemma normalized_buy (o : OpenOrder.t) :
  buy_kind (OpenOrder.Type_ o) -> normalized o = o.
Proof. unfold normalized. intros [-> | ->]; reflexivity. Qed.

(** The row of an order has the same price with and without the change
    of sign, and the price is not finite when nothing was filled. *)
Lemma order_row_price (o : OpenOrder.t) :
  DB.Order.Price (order_row (normalized o))
    = div (OpenOrder.FieldCashAmount o) (OpenOrder.FieldAmount o).
Proof.
  unfold normalized. destruct (_ || _); cbn; [apply div_neg_neg | reflexivity].
Qed.

End Normalized.

(** C3. When [Invest] succeeds on a fill of a sell kind, the position has
    decreased by the filled base amount and the investment by the filled
    quote amount, the amounts having been negated before they were added;
    on a fill of a buy kind the amounts were added as they are. *)
Theorem C3_sell_normalization (env : Plan.Env) (w w1 w' : World Plan.Store)
    (o : Huobi.OpenOrder.t) :
  let p := Plan.self (store w) in
  let s := Plan.st (Plan.self (store w')) in
  Huobi.Trade (Plan.net env) (Plan.client p) (Plan.symbol p) Huobi.BuyLimit
    (Plan.amount p) (of_Z (-1)) w = (Ok (Some o), w1) ->
  Plan.Invest env w = (Ok tt, w') ->
  (Huobi.sell_kind (Huobi.OpenOrder.Type_ o) ->
   Plan.normalized o = Plan.negated o /\
   Plan.position s = sub (Plan.position (Plan.st p)) (Huobi.OpenOrder.FieldAmount o) /\
   Plan.investment s
     = sub (Plan.investment (Plan.st p)) (Huobi.OpenOrder.FieldCashAmount o)) /\
  (Huobi.buy_kind (Huobi.OpenOrder.Type_ o) ->
   Plan.normalized o = o /\
   Plan.position s = add (Plan.position (Plan.st p)) (Huobi.OpenOrder.FieldAmount o) /\
   Plan.investment s
     = add (Plan.investment (Plan.st p)) (Huobi.OpenOrder.FieldCashAmount o)).
Proof.
  cbn zeta. intros Htrade Hinv.
  destruct (Invest_ok env w w' Hinv) as (o' & w1' & Htrade' & Hadd).
  rewrite Htrade in Htrade'. injection Htrade' as <- <-.
  destruct (Invest_stored env w w1 o Htrade Hadd) as (_ & Hp & Hi).
  rewrite Hinv in Hp, Hi. cbn [snd] in Hp, Hi.
  split; intros Hkind.
  - rewrite (normalized_sell o Hkind) in *. cbn in Hp, Hi.
    rewrite add_neg in Hp, Hi. auto.
  - rewrite (normalized_buy o Hkind) in *. auto.
Qed.

(** C3 on the small exchange: the plan holds 2 btc for 300 usdt, and the
    fill is a sell of 0.5 btc for 100 usdt. *)
Lemma C3_sell_normalization_witness :
  let env := Scenario.desk Scenario.sold (of_Z 6400) Scenario.healthy in
  let s := Plan.st (Plan.self (store (Plan.Invest env Scenario.start).2)) in
  Plan.position s = sub (of_Z 2) (decimal 5 1) /\
  Plan.investment s = sub (of_Z 300) (of_Z 100) /\
  Plan.position s = decimal 15 1 /\
  Plan.investment s = of_Z 200.
Proof.
  pose (env := Scenario.desk Scenario.sold (of_Z 6400) Scenario.healthy).
  pose (p := Plan.self (store Scenario.start)).
  pose (t := Huobi.Trade (Plan.net env) (Plan.client p) (Plan.symbol p)
               Huobi.BuyLimit (Plan.amount p) (of_Z (-1)) Scenario.start).
  destruct (C3_sell_normalization env Scenario.start t.2
              (Plan.Invest env Scenario.start).2 Scenario.sold) as [Hsell _].
  - vm_compute. reflexivity.
  - vm_compute. reflexivity.
  - destruct Hsell as (_ & Hp & Hi); [right; reflexivity|].
    cbn zeta. fold env. split; [exact Hp|]. split; [exact Hi|].
    split; vm_compute; reflexivity.
Defined.

(** With a fill of a buy kind the amounts are added. *)
Example buy_fill_is_added :
  let env := Scenario.desk Scenario.bought (of_Z 6400) Scenario.healthy in
  let s := Plan.st (Plan.self (store (Plan.Invest env Scenario.start).2)) in
  Plan.position s = decimal 25 1 /\ Plan.investment s = of_Z 400.
Proof. vm_compute. split; reflexivity. Qed.

(** C10. The row that [Invest] makes of a fill has as price the filled
    quote amount divided by the filled base amount, and nothing guards the
    division: when the filled base amount is zero, the price is an infinity
    or NaN. This row is the one that is stored: [Invest] adds it to the
    table when the insert succeeds and leaves the table as it was when not.
    An infinite price is stored; a price that is NaN, as the one of an
    order of which nothing is filled, makes the insert fail on the column
    [price], which is [NOT NULL], and [Invest] with it. *)
Theorem C10_price_of_stored_order (env : Plan.Env) (w w1 : World Plan.Store)
    (o : Huobi.OpenOrder.t) :
  let p := Plan.self (store w) in
  Huobi.Trade (Plan.net env) (Plan.client p) (Plan.symbol p) Huobi.BuyLimit
    (Plan.amount p) (of_Z (-1)) w = (Ok (Some o), w1) ->
  let row := Plan.order_row (Plan.normalized o) in
  let out := Plan.Invest env w in
  let added := (Plan.addOrder env (Plan.normalized o) w1).1 in
  DB.Order.Price row
    = div (Huobi.OpenOrder.FieldCashAmount o) (Huobi.OpenOrder.FieldAmount o) /\
  (is_zero (Huobi.OpenOrder.FieldAmount o) = true ->
   is_finite (DB.Order.Price row) = false) /\
  (added = Ok tt ->
   DB.orders (Plan.database (store out.2))
     = DB.orders (Plan.database (store w)) ++ [row]) /\
  (added <> Ok tt ->
   is_ok out.1 = false /\
   DB.orders (Plan.database (store out.2)) = DB.orders (Plan.database (store w))) /\
  (IsNaN (DB.Order.Price row) = true ->
   DB.fault (Plan.driver env) (length (events w1)) = None ->
   out = (Err (Wrap (Wrap (New "NOT NULL constraint failed: orders.price")
                       "db.AddOrder") "plan.(*plan).Invest"),
          {| events := events w1 ++ [SQL "INSERT INTO orders"];
             store := store w |})).
Proof.
  cbn zeta. intros Htrade.
  pose proof (preserves_Trade (Plan.net env) (Plan.client (Plan.self (store w)))
                (Plan.symbol (Plan.self (store w))) Huobi.BuyLimit
                (Plan.amount (Plan.self (store w))) (of_Z (-1)) w) as Hst.
  rewrite Htrade in Hst; cbn in Hst.
  split; [apply order_row_price|].
  split; [rewrite order_row_price; apply div_zero_not_finite|].
  split; [intros Hadd; exact (proj1 (Invest_stored env w w1 o Htrade Hadd))|].
  split.
  - intros Hadd. rewrite Invest_eq. cbn zeta. rewrite Htrade.
    pose proof (addOrder_spec env (Plan.normalized o) w1) as (_ & Hdb).
    destruct (Plan.addOrder env (Plan.normalized o) w1) as [[[]|e] w2];
      cbn [fst snd] in *; [contradiction|].
    rewrite Hdb, Hst. destruct e; split; reflexivity.
  - intros Hnan Hfault. rewrite Invest_eq. cbn zeta. rewrite Htrade.
    rewrite (addOrder_null env (Plan.normalized o) w1 "price" Hfault).
    + cbn [wrapped]. rewrite Hst. reflexivity.
    + unfold DB.first_null, DB.order_reals. cbn [fst snd].
      rewrite Hnan. reflexivity.
Qed.

(** C10 on the small exchange: the order is still unfilled when it is
    fetched; the price of its row is 0/0, a NaN, and the investment fails
    on it, with nothing stored. *)
Lemma C10_price_of_stored_order_witness :
  let env := Scenario.desk Scenario.unfilled (of_Z 6400) Scenario.healthy in
  let row := Plan.order_row (Plan.normalized Scenario.unfilled) in
  let out := Plan.Invest env Scenario.start in
  DB.Order.Price row = div pos_zero pos_zero /\
  is_finite (DB.Order.Price row) = false /\
  out.1 = Err (Wrap (Wrap (New "NOT NULL constraint failed: orders.price")
                       "db.AddOrder") "plan.(*plan).Invest") /\
  DB.orders (Plan.database (store out.2)) = [].
Proof.
  pose (env := Scenario.desk Scenario.unfilled (of_Z 6400) Scenario.healthy).
  pose (p := Plan.self (store Scenario.start)).
  pose (t := Huobi.Trade (Plan.net env) (Plan.client p) (Plan.symbol p)
               Huobi.BuyLimit (Plan.amount p) (of_Z (-1)) Scenario.start).
  destruct (C10_price_of_stored_order env Scenario.start t.2 Scenario.unfilled)
    as (Hprice & Hinf & _ & _ & Hnan).
  - vm_compute. reflexivity.
  - cbn zeta. fold env. split; [exact Hprice|].
    split; [apply Hinf; reflexivity|].
    rewrite Hnan; [split; reflexivity | reflexivity | reflexivity].
Defined.

(** An order that is reported with a filled quote amount and no filled
    base amount is stored, with an infinite price. *)
Example infinite_price_is_stored :
  let o := Scenario.fill "buy-limit" pos_zero (of_Z 100) in
  let env := Scenario.desk o (of_Z 6400) Scenario.healthy in
  let out := Plan.Invest env Scenario.start in
  out.1 = Ok tt /\
  DB.Order.Price <$> DB.orders (Plan.database (store out.2)) = [pos_inf].
Proof. vm_compute. split; reflexivity. Qed.

(** A filled base amount of zero with a quote amount that is not zero
    gives an infinite price. *)
Example price_of_empty_fill :
  DB.Order.Price (Plan.order_row (Scenario.fill "buy-limit" pos_zero (of_Z 100)))
  = pos_inf.
Proof. reflexivity. Qed.

(** ** Initialisation *)

Lemma New_eq (env : Plan.Env) (symbol : string) (amount : float64)
    (period : Period.Period) (client : Huobi.Client) (w : World Plan.Store) :
  Plan.New env symbol amount period client w =
    match DB.summary (Plan.driver env) (length (events w)) with
    | Ok (pos, inv) =>
        match Plan.stateFlush env
                (Plan.seeded env symbol amount period client pos inv w) with
        | (Ok _, w2) => (Ok (Plan.self (store w2)), w2)
        | (Err e, w2) =>
            (wrapped "plan.New" (wrapped "plan.(*plan).stateInit" (Err e)), w2)
        end
    | Err e =>
        (wrapped "plan.New"
           (wrapped "plan.(*plan).stateInit" (wrapped "db.OrderSummary" (Err e))),
         {| events := events w
              ++ [SQL "SELECT SUM(base_amount), SUM(quote_amount) FROM orders"];
            store := {| Plan.self := Plan.fresh symbol amount period client;
                        Plan.database := Plan.database (store w) |} |})
    end.
Proof.
  unfold Plan.New, Plan.stateInit, Plan.db, DB.OrderSummary, Plan.the_plan,
    Plan.now, Plan.set_state, Plan.seeded.
  unfold wrapping, bind, get, put, zoom, emit, lift, ret.
  cbn [events store fst snd Plan.self Plan.database].
  destruct (DB.summary (Plan.driver env) (length (events w))) as [[pos inv]|e].
  - cbn [wrapped events store fst snd Plan.self Plan.database Plan.st
         Plan.price Plan.equity Plan.fresh].
    rewrite length_app, Nat.add_1_r, <- app_assoc. cbn [app].
    destruct (Plan.stateFlush env _) as [[[]|e] w2]; [reflexivity|].
    destruct e; reflexivity.
  - destruct e; reflexivity.
Qed.

(** C6. [New] reads the aggregate of the stored orders and writes the pair
    into the position and the investment; the first flush then runs on
    this seeded state. When the aggregate cannot be read, or when the
    price lookup of the flush fails, [New] returns an error and no plan;
    otherwise it returns the plan, whose position and investment are the
    pair of the aggregate. *)
Theorem C6_init_seeds (env : Plan.Env) (symbol : string) (amount : float64)
    (period : Period.Period) (client : Huobi.Client) (w : World Plan.Store) :
  let new := Plan.New env symbol amount period client in
  match DB.summary (Plan.driver env) (length (events w)) with
  | Ok (pos, inv) =>
      exists w1,
        let p1 := Plan.self (store w1) in
        Plan.position (Plan.st p1) = pos /\
        Plan.investment (Plan.st p1) = inv /\
        Plan.client p1 = client /\ Plan.symbol p1 = symbol /\
        new w = wrapping "plan.New"
                  (wrapping "plan.(*plan).stateInit" (Plan.stateFlush env) ;;
                   Plan.the_plan) w1 /\
        match Huobi.SymbolPrice (Plan.net env) client symbol w1 with
        | (Ok quote, _) =>
            exists p w2,
              new w = (Ok p, w2) /\ Plan.self (store w2) = p /\
              Plan.position (Plan.st p) = pos /\
              Plan.investment (Plan.st p) = inv /\
              Plan.price (Plan.st p) = quote /\
              Plan.equity (Plan.st p) = mul quote pos
        | (Err _, _) => is_ok (new w).1 = false
        end
  | Err _ => is_ok (new w).1 = false
  end.
Proof.
  cbn zeta. rewrite New_eq.
  destruct (DB.summary (Plan.driver env) (length (events w))) as [[pos inv]|e].
  2: { destruct e; reflexivity. }
  exists (Plan.seeded env symbol amount period client pos inv w). cbn zeta.
  split; [reflexivity|]. split; [reflexivity|].
  split; [reflexivity|]. split; [reflexivity|].
  split.
  { unfold wrapping, bind, Plan.the_plan, get, ret.
    destruct (Plan.stateFlush env _) as [[[]|e] w2]; cbn; [reflexivity|].
    destruct e; reflexivity. }
  rewrite stateFlush_eq. cbn zeta.
  change (Plan.client (Plan.self (store (Plan.seeded env symbol amount period
            client pos inv w)))) with client.
  change (Plan.symbol (Plan.self (store (Plan.seeded env symbol amount period
            client pos inv w)))) with symbol.
  destruct (Huobi.SymbolPrice (Plan.net env) client symbol _) as [[quote|e] w2].
  - eexists _, _. split; [reflexivity|]. cbn. auto 10.
  - destruct e; reflexivity.
Qed.

(** The aggregate (1.2, 8000) is what a new plan starts from. *)
Example init_from_aggregate :
  let env := Scenario.desk Scenario.bought (of_Z 6400) Scenario.healthy in
  exists p w',
    Plan.New env "btcusdt" (of_Z 100) Scenario.daily Scenario.client Scenario.start
      = (Ok p, w') /\
    Plan.position (Plan.st p) = decimal 12 1 /\
    Plan.investment (Plan.st p) = of_Z 8000 /\
    Plan.equity (Plan.st p) = mul (of_Z 6400) (decimal 12 1).
Proof. eexists _, _. vm_compute. repeat split; reflexivity. Qed.

(** No plan without the aggregate, and no plan without a price. *)
Example init_fails :
  is_ok (Plan.New (Scenario.desk Scenario.bought (of_Z 6400) Scenario.broken)
           "btcusdt" (of_Z 100) Scenario.daily Scenario.client Scenario.start).1
    = false /\
  is_ok (Plan.New {| Plan.net := Scenario.flaky 9; Plan.driver := Scenario.healthy |}
           "btcusdt" (of_Z 100) Scenario.daily Scenario.client Scenario.start).1
    = false.
Proof. vm_compute. split; reflexivity. Qed.

(** ** Signing *)

(** The digests of the test vectors of FIPS 180-4 and RFC 4231, and the
    encodings of RFC 4648. *)
Example sha256_abc :
  SHA256.Sum256 (bytes "abc")
  = [0xba; 0x78; 0x16; 0xbf; 0x8f; 0x01; 0xcf; 0xea; 0x41; 0x41; 0x40; 0xde;
     0x5d; 0xae; 0x22; 0x23; 0xb0; 0x03; 0x61; 0xa3; 0x96; 0x17; 0x7a; 0x9c;
     0xb4; 0x10; 0xff; 0x61; 0xf2; 0x00; 0x15; 0xad].
Proof. vm_compute. reflexivity. Qed.

Example sha256_two_blocks :
  Base64.EncodeToString
    (SHA256.Sum256 (bytes "abcdbcdecdefdefgefghfghighijhijkijkljklmklmnlmnomnopnopq"))
  = "JI1qYdIGOLjlwCaTDD5gOaM85Flk/yFn9uzt1BnbBsE=".
Proof. vm_compute. reflexivity. Qed.

Example hmac_rfc4231_2 :
  Base64.EncodeToString
    (HMAC.Sum (bytes "Jefe") (bytes "what do ya want for nothing?"))
  = "W9zBRr9gdU5qBCQmCJV1x1oAPwidJzmDnexYuWTsOEM=".
Proof. vm_compute. reflexivity. Qed.

Example hmac_rfc4231_6 :
  Base64.EncodeToString
    (HMAC.Sum (replicate 131 0xaa)
       (bytes "Test Using Larger Than Block-Size Key - Hash Key First"))
  = "YOQxWR7gtn8Niiaqy/W3f44LxiE3KMUUBUYEDw7jf1Q=".
Proof. vm_compute. reflexivity. Qed.

Example base64_rfc4648 :
  Base64.EncodeToString <$> [bytes "foobar"; bytes "fooba"; bytes "foob"]
  = ["Zm9vYmFy"; "Zm9vYmE="; "Zm9vYg=="].
Proof. vm_compute. reflexivity. Qed.

Example query_escape :
  URL.QueryEscape "a b&c=d/e~f+g%" = "a+b%26c%3Dd%2Fe~f%2Bg%25".
Proof. vm_compute. reflexivity. Qed.

Section StringFacts.

Lemma list_of_append (a b : string) :
  list_ascii_of_string (a +:+ b)
  = list_ascii_of_string a ++ list_ascii_of_string b.
Proof.
  induction a as [|x a IH]; [reflexivity|].
  change (String x a +:+ b) with (String x (a +:+ b)).
  cbn [list_ascii_of_string app]. f_equal. exact IH.
Qed.

Lemma list_of_string_inj (a b : string) :
  list_ascii_of_string a = list_ascii_of_string b -> a = b.
Proof.
  intros H. rewrite <- (string_of_list_ascii_of_string a),
    <- (string_of_list_ascii_of_string b), H. reflexivity.
Qed.

(** A common end can be removed from an equation between strings. *)
Lemma append_inv_tail (a b c : string) : a +:+ c = b +:+ c -> a = b.
Proof.
  intros H. apply list_of_string_inj.
  apply (f_equal list_ascii_of_string) in H.
  rewrite !list_of_append in H. exact (app_inv_tail _ _ _ H).
Qed.

(** A common start can be removed as well. *)
Lemma append_inv_head (a b c : string) : a +:+ b = a +:+ c -> b = c.
Proof.
  induction a as [|x a IH]; [auto|].
  change (String x a +:+ ?y) with (String x (a +:+ y)).
  intros [= H]. auto.
Qed.

Lemma bytes_append (a b : string) : bytes (a +:+ b) = bytes a ++ bytes b.
Proof. unfold bytes. rewrite list_of_append, fmap_app. reflexivity. Qed.

Lemma length_bytes (a : string) : length (bytes a) = String.length a.
Proof.
  unfold bytes. rewrite length_fmap.
  induction a as [|x a IH]; cbn; [reflexivity | f_equal; exact IH].
Qed.

End StringFacts.

Section QueryString.
Import Huobi.

(** The keys of the query string: those of the map, each once, in
    increasing order. *)
Lemma sorted_keys (m : gmap string string) :
  let keys := sort_strings ((map_to_list m).*1) in
  Sorted String.le keys /\ NoDup keys /\
  (forall k, k ∈ keys <-> is_Some (m !! k)).
Proof.
  cbn zeta. unfold sort_strings. split; [|split].
  - apply Sorted_merge_sort. apply _.
  - rewrite merge_sort_Permutation. apply NoDup_fst_map_to_list.
  - intros k. rewrite merge_sort_Permutation.
    rewrite list_elem_of_fmap. split.
    + intros ([k' v] & -> & Hin). apply elem_of_map_to_list in Hin. eauto.
    + intros [v Hv]. exists (k, v). split; [reflexivity|].
      apply elem_of_map_to_list. exact Hv.
Qed.

(** Adding zero bytes at the end of a secret shorter than a block of
    HMAC gives the same key, hence the same signature. *)
Lemma block_key_zero (k : list Z) :
  (length k < HMAC.BlockSize)%nat -> HMAC.block_key (k ++ [0]) = HMAC.block_key k.
Proof.
  intros Hlen. unfold HMAC.block_key, HMAC.BlockSize in *.
  rewrite length_app; cbn [length].
  destruct (Nat.ltb_spec 64 (length k + 1)) as [H|H]; [lia|].
  destruct (Nat.ltb_spec 64 (length k)) as [H'|H']; [lia|].
  rewrite length_app; cbn [length]. rewrite <- app_assoc. f_equal.
  replace (64 - length k)%nat with (Datatypes.S (64 - (length k + 1))) by lia.
  reflexivity.
Qed.

Lemma sign_zero_padded (c1 c2 : Client) (content : string) :
  (String.length (secret c1) < 64)%nat ->
  secret c2 = secret c1 +:+ NUL ->
  sign c2 content = sign c1 content.
Proof.
  intros Hlen Hsec. unfold sign, HMAC.Sum. rewrite Hsec, bytes_append.
  change (bytes NUL) with [0]. rewrite block_key_zero; [reflexivity|].
  rewrite length_bytes. exact Hlen.
Qed.

End QueryString.

(** What [req] gives to [client.Do]: after the clock has been read, between
    one and three times the same request, whose address ends with the
    query string of the signed parameters and with the signature of
    method, host, path and query string. *)
Lemma req_sends {S : Type} (net : Huobi.Net) (c : Huobi.Client)
    (method address hostname path : string) (params : gmap string string)
    (w : World S) :
  Huobi.url_parse net (Huobi.host c +:+ address) = Ok (hostname, path) ->
  let stamp := Huobi.utc net (length (events w)) in
  let query := Huobi.querystring (Huobi.signed_params c method params stamp) in
  let signature :=
    Base64.EncodeToString
      (HMAC.Sum (bytes (Huobi.secret c))
                (bytes (method +:+ LF +:+ hostname +:+ LF +:+ path +:+ LF +:+ query))) in
  let r := Huobi.signed_request method (Huobi.host c +:+ address) query signature
             params in
  exists n, (1 <= n <= 3)%nat /\
    events (Huobi.req net c method address params w).2
      = events w ++ Clock :: replicate n (HTTP r).
Proof.
  intros Hparse. cbn zeta. unfold Huobi.req, Huobi.sign, Huobi.sign_content.
  unfold wrapping, bind, lift, emit, ret, fail. rewrite Hparse.
  cbn [events store fst snd].
  match goal with |- context [Huobi.roundtrip net ?r0 0 false ?w0] =>
    destruct (roundtrip_run net r0 0 false w0) as (n & Hn1 & Hn3 & Hev & _);
    destruct (Huobi.roundtrip net r0 0 false w0) as [[body|e] w1]
  end; cbn [fst snd events] in *; exists n; (split; [lia|]).
  - destruct (Huobi.handle body) as [err|]; [|destruct body]; cbn [snd];
      rewrite Hev, <- app_assoc; reflexivity.
  - rewrite Hev, <- app_assoc. reflexivity.
Qed.

Section Content.
Import Huobi.

(** The signed text determines each of its four parts when the other
    three are known. *)
Lemma sign_content_method (m1 m2 h p q : string) :
  sign_content m1 h p q = sign_content m2 h p q -> m1 = m2.
Proof. unfold sign_content. apply append_inv_tail. Qed.

Lemma sign_content_host (m h1 h2 p q : string) :
  sign_content m h1 p q = sign_content m h2 p q -> h1 = h2.
Proof.
  unfold sign_content. intros H.
  do 2 apply append_inv_head in H. exact (append_inv_tail _ _ _ H).
Qed.

Lemma sign_content_path (m h p1 p2 q : string) :
  sign_content m h p1 q = sign_content m h p2 q -> p1 = p2.
Proof.
  unfold sign_content. intros H.
  do 4 apply append_inv_head in H. exact (append_inv_tail _ _ _ H).
Qed.

Lemma sign_content_query (m h p q1 q2 : string) :
  sign_content m h p q1 = sign_content m h p q2 -> q1 = q2.
Proof.
  unfold sign_content. intros H.
  do 6 apply append_inv_head in H. exact H.
Qed.

End Content.

(** *** Digests, their number and their Base64 text *)

Section Base64Facts.

Lemma alphabet_NoDup : NoDup (list_ascii_of_string Base64.alphabet).
Proof.
  apply (bool_decide_unpack (NoDup (list_ascii_of_string Base64.alphabet))).
  vm_compute. exact I.
Qed.

Lemma enc_inj (i j : Z) :
  0 <= i < 64 -> 0 <= j < 64 -> Base64.enc i = Base64.enc j -> i = j.
Proof.
  intros Hi Hj. unfold Base64.enc.
  destruct (lookup_lt_is_Some_2 (list_ascii_of_string Base64.alphabet) (Z.to_nat i))
    as [x Hx]; [change (length _) with 64%nat; lia|].
  destruct (lookup_lt_is_Some_2 (list_ascii_of_string Base64.alphabet) (Z.to_nat j))
    as [y Hy]; [change (length _) with 64%nat; lia|].
  rewrite Hx, Hy. cbn. intros ->.
  pose proof (NoDup_lookup _ _ _ _ alphabet_NoDup Hx Hy). lia.
Qed.

Lemma encode_inj (l1 l2 : list Z) :
  Forall Digests.byte l1 -> Forall Digests.byte l2 -> length l1 = length l2 ->
  Base64.encode l1 = Base64.encode l2 -> l1 = l2.
Proof.
  remember (length l1) as n eqn:Hn. revert l1 l2 Hn.
  induction n as [n IH] using lt_wf_ind. intros l1 l2 Hn H1 H2 Hlen.
  destruct l1 as [|a [|b [|c l1]]], l2 as [|a' [|b' [|c' l2]]];
    cbn [length] in *; try lia; try reflexivity;
    repeat match goal with
      | H : Forall Digests.byte (_ :: _) |- _ =>
          apply Forall_cons in H; destruct H as [? H]
      end; unfold Digests.byte in *; cbn [Base64.encode].
  - intros [= Ha Hb].
    apply enc_inj in Ha; [|Z.div_mod_to_equations; lia..].
    apply enc_inj in Hb; [|Z.div_mod_to_equations; lia..].
    f_equal. Z.div_mod_to_equations. lia.
  - intros [= Ha Hb Hc].
    apply enc_inj in Ha; [|Z.div_mod_to_equations; lia..].
    apply enc_inj in Hb; [|Z.div_mod_to_equations; lia..].
    apply enc_inj in Hc; [|Z.div_mod_to_equations; lia..].
    assert (a = a' /\ b = b') as [-> ->] by (Z.div_mod_to_equations; lia).
    reflexivity.
  - intros [= Ha Hb Hc Hd Hrest].
    apply enc_inj in Ha; [|Z.div_mod_to_equations; lia..].
    apply enc_inj in Hb; [|Z.div_mod_to_equations; lia..].
    apply enc_inj in Hc; [|Z.div_mod_to_equations; lia..].
    apply enc_inj in Hd; [|Z.div_mod_to_equations; lia..].
    assert (a = a' /\ b = b' /\ c = c') as (-> & -> & ->)
      by (Z.div_mod_to_equations; lia).
    do 3 f_equal.
    apply (IH (length l1)); [lia | reflexivity | assumption | assumption | lia | ].
    exact Hrest.
Qed.

End Base64Facts.

Section DigestFacts.

Lemma be_bytes_length (n : nat) (x : Z) : length (SHA256.be_bytes n x) = n.
Proof. induction n as [|n IH]; cbn; [reflexivity | f_equal; exact IH]. Qed.

Lemma be_bytes_range (n : nat) (x : Z) : Forall Digests.byte (SHA256.be_bytes n x).
Proof.
  induction n as [|n IH]; cbn [SHA256.be_bytes]; constructor; [|exact IH].
  unfold Digests.byte. apply Z.mod_pos_bound. lia.
Qed.

Lemma round_length (s : list Z) (kw : Z * Z) :
  length (SHA256.round s kw) = length s.
Proof.
  unfold SHA256.round.
  do 9 (destruct s as [|? s]; [reflexivity|]). reflexivity.
Qed.

Lemma rounds_length (l : list (Z * Z)) (s : list Z) :
  length (fold_left SHA256.round l s) = length s.
Proof.
  revert s. induction l as [|kw l IH]; intros s; [reflexivity|].
  cbn [fold_left]. rewrite IH. apply round_length.
Qed.

Lemma compress_length (h block : list Z) :
  length (SHA256.compress h block) = length h.
Proof.
  unfold SHA256.compress. rewrite length_zip_with, rounds_length. lia.
Qed.

Lemma blocks_length (blocks : list (list Z)) (h : list Z) :
  length (fold_left SHA256.compress blocks h) = length h.
Proof.
  revert h. induction blocks as [|b blocks IH]; intros h; [reflexivity|].
  cbn [fold_left]. rewrite IH. apply compress_length.
Qed.

Lemma words_bytes (h : list Z) :
  length (h ≫= SHA256.be_bytes 4) = (4 * length h)%nat /\
  Forall Digests.byte (h ≫= SHA256.be_bytes 4).
Proof.
  induction h as [|x h [IHl IHr]]; [split; [reflexivity | constructor]|].
  change ((x :: h) ≫= SHA256.be_bytes 4)
    with (SHA256.be_bytes 4 x ++ (h ≫= SHA256.be_bytes 4)).
  split.
  - rewrite length_app, be_bytes_length, IHl. cbn [length]. lia.
  - apply Forall_app. split; [apply be_bytes_range | exact IHr].
Qed.

(** A digest has 32 bytes. *)
Lemma Sum256_bytes (msg : list Z) :
  length (SHA256.Sum256 msg) = 32%nat /\ Forall Digests.byte (SHA256.Sum256 msg).
Proof.
  unfold SHA256.Sum256. cbv zeta.
  match goal with |- context [fold_left SHA256.compress ?b ?i] =>
    pose proof (blocks_length b i) as Hlen;
    destruct (words_bytes (fold_left SHA256.compress b i)) as [Hl Hr]
  end.
  split; [|exact Hr]. rewrite Hl, Hlen. reflexivity.
Qed.

Lemma elem_of_words_of (l : list Z) : Forall Digests.byte l -> l ∈ Digests.words_of (length l).
Proof.
  induction 1 as [|b l Hb _ IH]; cbn [length Digests.words_of].
  - apply list_elem_of_singleton. reflexivity.
  - apply list_elem_of_bind. exists b. split.
    + apply list_elem_of_fmap. exists l. auto.
    + apply elem_of_seqZ. unfold Digests.byte in Hb. lia.
Qed.

End DigestFacts.

Section Pigeons.
Context {A B : Type} `{EqDecision B}.

Lemma dup_or_NoDup (f : A -> B) (l : list A) :
  NoDup l ->
  NoDup (f <$> l) \/ exists x y, x ∈ l /\ y ∈ l /\ x <> y /\ f x = f y.
Proof.
  induction 1 as [|a l Ha Hl IH]; [left; constructor|].
  destruct IH as [IH | (x & y & Hx & Hy & Hne & Heq)].
  - destruct (decide (f a ∈ f <$> l)) as [Hin|Hin].
    + right. apply list_elem_of_fmap in Hin as (y & Heq & Hy).
      exists a, y. split; [left|]. split; [right; exact Hy|].
      split; [|exact Heq]. intros ->. contradiction.
    + left. cbn. constructor; assumption.
  - right. exists x, y. split; [right; exact Hx|]. split; [right; exact Hy|]. auto.
Qed.

(** More pigeons than holes: two of them share one. *)
Lemma collision (f : A -> B) (l : list A) (k : list B) :
  NoDup l -> (forall x, x ∈ l -> f x ∈ k) -> (length k < length l)%nat ->
  exists x y, x <> y /\ f x = f y.
Proof.
  intros Hl Hin Hlen.
  destruct (dup_or_NoDup f l Hl) as [Hnd | (x & y & _ & _ & Hne & Heq)]; [|eauto].
  exfalso.
  assert (f <$> l ⊆+ k) as Hsub.
  { apply NoDup_submseteq; [exact Hnd|].
    intros b Hb. apply list_elem_of_fmap in Hb as (x & -> & Hx). auto. }
  apply submseteq_length in Hsub. rewrite length_fmap in Hsub. lia.
Qed.

End Pigeons.

Section Collisions.

Lemma filler_length (n : nat) : String.length (Digests.filler n) = n.
Proof. induction n as [|n IH]; cbn; [reflexivity | f_equal; exact IH]. Qed.

#[local] Instance filler_inj : Inj (=) (=) Digests.filler.
Proof.
  intros n1 n2 H. apply (f_equal String.length) in H.
  rewrite !filler_length in H. exact H.
Qed.

(** The signatures of the texts [g x] are fewer than the strings [x]:
    two strings get the same signature. *)
Lemma sign_collides (c : Huobi.Client) (g : string -> string) :
  exists x y, x <> y /\ Huobi.sign c (g x) = Huobi.sign c (g y).
Proof.
  pose (f := fun x => HMAC.Sum (bytes (Huobi.secret c)) (bytes (g x))).
  destruct (collision f (Digests.filler <$> seq 0 (Datatypes.S (length (Digests.words_of 32))))
              (Digests.words_of 32)) as (x & y & Hne & Heq).
  - apply (NoDup_fmap_2 _). apply NoDup_seq.
  - intros x _. subst f. cbv beta. unfold HMAC.Sum. cbv zeta.
    match goal with |- SHA256.Sum256 ?m ∈ _ =>
      destruct (Sum256_bytes m) as [Hlen Hrange]
    end.
    rewrite <- Hlen. apply elem_of_words_of. exact Hrange.
  - rewrite length_fmap, length_seq. lia.
  - exists x, y. split; [exact Hne|]. unfold Huobi.sign. subst f. cbv beta in Heq.
    rewrite Heq. reflexivity.
Qed.

(** Two texts get the same signature exactly when their digests under
    the secret are the same. *)
Lemma sign_eq_digest (c : Huobi.Client) (a b : string) :
  Huobi.sign c a = Huobi.sign c b <->
  HMAC.Sum (bytes (Huobi.secret c)) (bytes a)
  = HMAC.Sum (bytes (Huobi.secret c)) (bytes b).
Proof.
  unfold Huobi.sign, Base64.EncodeToString. split.
  - intros [= H]. revert H. unfold HMAC.Sum. cbv zeta.
    match goal with |- Base64.encode (SHA256.Sum256 ?m1) = Base64.encode (SHA256.Sum256 ?m2) -> _ =>
      destruct (Sum256_bytes m1) as [Hl1 Hr1];
      destruct (Sum256_bytes m2) as [Hl2 Hr2]
    end.
    apply encode_inj; [assumption | assumption | congruence].
  - intros ->. reflexivity.
Qed.

Lemma bytes_inj (a b : string) : bytes a = bytes b -> a = b.
Proof.
  revert b. induction a as [|x a IH]; intros [|y b]; cbn; try discriminate;
    [reflexivity|].
  unfold bytes. cbn. intros [= Hxy Hab].
  f_equal; [|apply IH; exact Hab].
  apply Nat2Z.inj in Hxy.
  rewrite <- (ascii_nat_embedding x), <- (ascii_nat_embedding y), Hxy. reflexivity.
Qed.

End Collisions.

(** C9, as the code has it. The query string lists the keys of the signed
    parameters in increasing order, each once, as [escape(key)=escape(value)]
    joined with [&]; the signature is the Base64 text of the HMAC-SHA256,
    under the secret of the client, of method, host, path and query string
    separated by line feeds, and it is this signature that [req] sends; it
    depends on the client through the secret only, so that signing twice
    gives the same signature. Changing one of method, host, path and query
    string changes the signed text, and two different texts have the same
    signature exactly when HMAC-SHA256 gives them the same digest under the
    secret. No change of one input is sure to change the signature: a
    secret shorter than 64 bytes signs as the same secret followed by a
    zero byte, and for each of method, host, path and query string there
    are two values that differ and give the same signature, the others
    being the same, as a signature is the text of 32 bytes. *)
Theorem C9_signature (c : Huobi.Client) (m : gmap string string) :
  (exists keys,
     Sorted String.le keys /\ NoDup keys /\
     (forall k, k ∈ keys <-> is_Some (m !! k)) /\
     Huobi.querystring m
       = Join ((fun k => URL.QueryEscape k +:+ "=" +:+
                         URL.QueryEscape (default EmptyString (m !! k))) <$> keys) "&") /\
  (forall method host path query,
     Huobi.sign c (Huobi.sign_content method host path query)
       = Ok (Base64.EncodeToString
               (HMAC.Sum (bytes (Huobi.secret c))
                  (bytes (method +:+ LF +:+ host +:+ LF +:+ path +:+ LF +:+ query))))) /\
  (forall S net method address host path params (w : World S),
     Huobi.url_parse net (Huobi.host c +:+ address) = Ok (host, path) ->
     let query :=
       Huobi.querystring
         (Huobi.signed_params c method params (Huobi.utc net (length (events w)))) in
     exists signature n,
       Huobi.sign c (Huobi.sign_content method host path query) = Ok signature /\
       (1 <= n <= 3)%nat /\
       events (Huobi.req net c method address params w).2
         = events w ++ Clock ::
             replicate n (HTTP (Huobi.signed_request method (Huobi.host c +:+ address)
                                  query signature params))) /\
  (forall c' content,
     Huobi.secret c' = Huobi.secret c -> Huobi.sign c' content = Huobi.sign c content) /\
  (forall method host path query method' host' path' query',
     (method <> method' ->
      Huobi.sign_content method host path query
        <> Huobi.sign_content method' host path query) /\
     (host <> host' ->
      Huobi.sign_content method host path query
        <> Huobi.sign_content method host' path query) /\
     (path <> path' ->
      Huobi.sign_content method host path query
        <> Huobi.sign_content method host path' query) /\
     (query <> query' ->
      Huobi.sign_content method host path query
        <> Huobi.sign_content method host path query')) /\
  (forall text text',
     text <> text' ->
     bytes text <> bytes text' /\
     (Huobi.sign c text = Huobi.sign c text' <->
      HMAC.Sum (bytes (Huobi.secret c)) (bytes text)
      = HMAC.Sum (bytes (Huobi.secret c)) (bytes text'))) /\
  (forall c' content,
     (String.length (Huobi.secret c) < 64)%nat ->
     Huobi.secret c' = Huobi.secret c +:+ NUL ->
     Huobi.sign c' content = Huobi.sign c content) /\
  (forall method host path query,
     (exists x y, x <> y /\
        Huobi.sign c (Huobi.sign_content x host path query)
        = Huobi.sign c (Huobi.sign_content y host path query)) /\
     (exists x y, x <> y /\
        Huobi.sign c (Huobi.sign_content method x path query)
        = Huobi.sign c (Huobi.sign_content method y path query)) /\
     (exists x y, x <> y /\
        Huobi.sign c (Huobi.sign_content method host x query)
        = Huobi.sign c (Huobi.sign_content method host y query)) /\
     (exists x y, x <> y /\
        Huobi.sign c (Huobi.sign_content method host path x)
        = Huobi.sign c (Huobi.sign_content method host path y))).
Proof.
  split; [|split; [|split; [|split; [|split; [|split; [|split]]]]]].
  - destruct (sorted_keys m) as (Hs & Hn & Hk).
    exists (Huobi.sort_strings ((map_to_list m).*1)). auto.
  - reflexivity.
  - intros S net method address host path params w Hparse query.
    destruct (req_sends net c method address host path params w Hparse)
      as (n & Hn & Hev).
    eexists _, n. split; [reflexivity|]. split; [exact Hn | exact Hev].
  - intros c' content Hsec. unfold Huobi.sign. rewrite Hsec. reflexivity.
  - intros method host path query method' host' path' query'.
    split; [|split; [|split]]; intros Hne Heq; apply Hne.
    + exact (sign_content_method _ _ _ _ _ Heq).
    + exact (sign_content_host _ _ _ _ _ Heq).
    + exact (sign_content_path _ _ _ _ _ Heq).
    + exact (sign_content_query _ _ _ _ _ Heq).
  - intros text text' Hne. split; [|apply sign_eq_digest].
    intros Heq. apply Hne, bytes_inj, Heq.
  - intros c' content. apply sign_zero_padded.
  - intros method host path query. split; [|split; [|split]].
    + apply (sign_collides c (fun x => Huobi.sign_content x host path query)).
    + apply (sign_collides c (fun x => Huobi.sign_content method x path query)).
    + apply (sign_collides c (fun x => Huobi.sign_content method host x query)).
    + apply (sign_collides c (fun x => Huobi.sign_content method host path x)).
Qed.

(** C9 on the small exchange: the query string of a monitoring tick, and
    two texts that differ in the method, with their signatures. *)
Lemma C9_signature_witness :
  let get := Huobi.sign_content "GET" "api.huobi.pro" "/market/trade" "symbol=btcusdt" in
  let post := Huobi.sign_content "POST" "api.huobi.pro" "/market/trade" "symbol=btcusdt" in
  Huobi.querystring
    (Huobi.signed_params Scenario.client "GET" {[ "symbol" := "btc usdt" ]}
       "2018-09-08T03:20:45")
  = "AccessKeyId=apikey&SignatureMethod=HmacSHA256&SignatureVersion=2" +:+
    "&Timestamp=2018-09-08T03%3A20%3A45&symbol=btc+usdt" /\
  get <> post /\ bytes get <> bytes post /\
  Huobi.sign Scenario.client get = Ok "p6ozIDr8i/vMq6mPvD4ZxTyAB/Vvp72D9l15hCmZHp0=" /\
  HMAC.Sum (bytes "apisecret") (bytes get) <> HMAC.Sum (bytes "apisecret") (bytes post).
Proof.
  cbn zeta.
  destruct (C9_signature Scenario.client
              (Huobi.signed_params Scenario.client "GET" {[ "symbol" := "btc usdt" ]}
                 "2018-09-08T03:20:45"))
    as (_ & Hsign & _ & _ & Hdiff & Hdigest & _).
  assert (Huobi.sign_content "GET" "api.huobi.pro" "/market/trade" "symbol=btcusdt"
          <> Huobi.sign_content "POST" "api.huobi.pro" "/market/trade" "symbol=btcusdt")
    as Hne.
  { apply (Hdiff "GET" "api.huobi.pro" "/market/trade" "symbol=btcusdt"
             "POST" EmptyString EmptyString EmptyString).
    discriminate. }
  destruct (Hdigest _ _ Hne) as [Hbytes Hiff].
  split; [vm_compute; reflexivity|]. split; [exact Hne|]. split; [exact Hbytes|].
  split; [rewrite Hsign; vm_compute; reflexivity|].
  intros Heq. apply Hiff in Heq. vm_compute in Heq. discriminate.
Defined.

(** C9, as the specification has it, fails. Two secrets that differ -- the
    second has one more byte, a zero -- give the same signature of the same
    method, host, path and query string. And under one secret there are two
    query strings that differ and have the same signature, the method, the
    host and the path being the same; so there are two methods, two hosts
    and two paths. *)
Lemma C9_equal_signatures :
  let c1 := Scenario.client in
  let c2 := {| Huobi.host := Huobi.host c1; Huobi.key := Huobi.key c1;
               Huobi.secret := "apisecret" +:+ NUL;
               Huobi.symbols := Huobi.symbols c1;
               Huobi.accounts := Huobi.accounts c1 |} in
  let content := Huobi.sign_content "GET" "api.huobi.pro" "/market/trade" in
  (Huobi.secret c1 <> Huobi.secret c2 /\
   Huobi.sign c1 (content "symbol=btcusdt") = Huobi.sign c2 (content "symbol=btcusdt")) /\
  (exists x y, x <> y /\ Huobi.sign c1 (content x) = Huobi.sign c1 (content y)) /\
  (exists x y, x <> y /\
     Huobi.sign c1 (Huobi.sign_content x "api.huobi.pro" "/market/trade" "symbol=btcusdt")
     = Huobi.sign c1 (Huobi.sign_content y "api.huobi.pro" "/market/trade" "symbol=btcusdt")) /\
  (exists x y, x <> y /\
     Huobi.sign c1 (Huobi.sign_content "GET" x "/market/trade" "symbol=btcusdt")
     = Huobi.sign c1 (Huobi.sign_content "GET" y "/market/trade" "symbol=btcusdt")) /\
  (exists x y, x <> y /\
     Huobi.sign c1 (Huobi.sign_content "GET" "api.huobi.pro" x "symbol=btcusdt")
     = Huobi.sign c1 (Huobi.sign_content "GET" "api.huobi.pro" y "symbol=btcusdt")).
Proof.
  cbn zeta. split; [split; [discriminate | vm_compute; reflexivity]|].
  split; [|split; [|split]].
  - apply (sign_collides Scenario.client
             (Huobi.sign_content "GET" "api.huobi.pro" "/market/trade")).
  - apply (sign_collides Scenario.client
             (fun x => Huobi.sign_content x "api.huobi.pro" "/market/trade"
                         "symbol=btcusdt")).
  - apply (sign_collides Scenario.client
             (fun x => Huobi.sign_content "GET" x "/market/trade" "symbol=btcusdt")).
  - apply (sign_collides Scenario.client
             (fun x => Huobi.sign_content "GET" "api.huobi.pro" x "symbol=btcusdt")).
Qed.

(** ** Formatting amounts and prices *)

Section Formatting.
Import Huobi.

(** [Trade] always sends the amount, formatted by [floor] at the
    precision of the symbol for amounts. *)
Lemma trade_params_amount (s : Symbol.t) (id : Z) (cmd : TradeType)
    (amount price : float64) :
  trade_params s id cmd amount price !! "amount"
  = Some (floor amount (Symbol.AmountPrecision s)).
Proof.
  unfold trade_params. destruct (_ || _); simplify_map_eq; reflexivity.
Qed.

(** [Trade] sends a price for the two limit kinds only, formatted by
    [floor] at the precision of the symbol for prices. *)
Lemma trade_params_price (s : Symbol.t) (id : Z) (cmd : TradeType)
    (amount price : float64) :
  trade_params s id cmd amount price !! "price"
  = if String.eqb cmd BuyLimit || String.eqb cmd SellLimit
    then Some (floor price (Symbol.PricePrecision s))
    else None.
Proof.
  unfold trade_params. destruct (_ || _); simplify_map_eq; reflexivity.
Qed.

End Formatting.

(** The amount 0.123456 with 4 digits, and amounts without digits. *)
Example floor_four_digits : Huobi.floor (decimal 123456 6) 4 = "0.1234".
Proof. vm_compute. reflexivity. Qed.

Example floor_no_digits :
  (fun f => Huobi.floor f 0)
    <$> [decimal 123456 2; decimal 999 3; of_Z 100; decimal (-15) 1]
  = ["1234"; "0"; "100"; "-2"].
Proof. vm_compute. reflexivity. Qed.

(** What is not a number is formatted as such. *)
Example floor_not_a_number :
  (fun f => Huobi.floor f 0) <$> [S754_nan; pos_inf] = ["NaN"; "+Inf"].
Proof. vm_compute. reflexivity. Qed.

(** The price -1 that [Invest] passes, at the two digits of btcusdt. *)
Example floor_invest_price : Huobi.floor (of_Z (-1)) 2 = "-1".
Proof. vm_compute. reflexivity. Qed.

(** C5, where the code leaves it. The amount 0.3 + 0.6 is the float64
    0.8999999999999999; its product with 10 is rounded to 9, so that
    [floor] formats it at one digit as "0.9", which is above the amount,
    and this is the amount that [Trade] sends for a symbol with one digit. *)
Theorem C5_floor_rounds_up :
  let f := add (decimal 3 1) (decimal 6 1) in
  let s := {| Huobi.Symbol.Symbol := "btcusdt";
              Huobi.Symbol.BaseCurrency := "btc";
              Huobi.Symbol.QuoteCurrency := "usdt";
              Huobi.Symbol.PricePrecision := 2;
              Huobi.Symbol.AmountPrecision := 1;
              Huobi.Symbol.SymbolPartition := "main" |} in
  Strconv.FormatFloat f = "0.8999999999999999" /\
  mul f (Pow10 1) = of_Z 9 /\
  Huobi.floor f 1 = "0.9" /\
  ltb f (decimal 9 1) = true /\
  Huobi.trade_params s 100 Huobi.BuyLimit f (of_Z (-1)) !! "amount" = Some "0.9".
Proof.
  cbn zeta. rewrite trade_params_amount.
  vm_compute. repeat split; reflexivity.
Qed.

(** * More of the client *)

Section RoundTrips.
Context {S : Type}.
Variable net : Huobi.Net.

Lemma world_eq (w1 w2 : World S) :
  events w1 = events w2 -> store w1 = store w2 -> w1 = w2.
Proof. destruct w1, w2; cbn; intros -> ->; reflexivity. Qed.

(** An attempt that is answered ends the loop, whatever the counter. *)
Lemma roundtrip_responded (r : Request) (retry : Z) (w : World S)
    (body : result Huobi.Document) :
  Huobi.Do net (length (events w)) r = Huobi.Responded body ->
  Huobi.roundtrip net r retry false w
    = (Ok body, {| events := events w ++ [HTTP r]; store := store w |}).
Proof.
  intros Hdo.
  destruct (roundtrip_run net r retry false w)
    as (n & Hn1 & _ & Hev & Hst & Hre & Hlast).
  destruct n as [|[|n]]; [lia| |].
  - cbn [Nat.sub] in Hlast. cbn in Hev.
    rewrite attempt_from_first, client_Do_unread, Hdo in Hlast.
    destruct (Huobi.roundtrip net r retry false w) as [out w']; cbn in *.
    subst out. f_equal. apply world_eq; assumption.
  - specialize (Hre 0%nat ltac:(lia)).
    rewrite attempt_from_first, client_Do_unread, Hdo in Hre.
    discriminate.
Qed.




End RoundTrips.

Section Requests.
Context {S : Type}.
Variables (net : Huobi.Net) (c : Huobi.Client).

(** [req] up to the loop: the result is decided by the loop that runs once
    the clock has been read. *)
Lemma req_eq (method address hostname path : string)
    (params : gmap string string) (w : World S) :
  Huobi.url_parse net (Huobi.host c +:+ address) = Ok (hostname, path) ->
  let r := Wire.request net c method address hostname path params w in
  Huobi.req net c method address params w =
    match Huobi.roundtrip net r 0 false
            {| events := events w ++ [Clock]; store := store w |} with
    | (Ok body, w1) =>
        (wrapped "huobi.(*Client).req"
           match Huobi.handle body, body with
           | Some err, _ => Err err
           | None, Ok m => Ok m
           | None, Err err => Err err
           end, w1)
    | (Err e, w1) => (wrapped "huobi.(*Client).req" (Err e), w1)
    end.
Proof.
  intros Hparse. cbn zeta. unfold Huobi.req, Huobi.sign, Wire.request.
  unfold wrapping, bind, lift, emit, ret, fail. rewrite Hparse.
  cbn [events store fst snd].
  destruct (Huobi.roundtrip net _ 0 false _) as [[body|e] w1]; [|reflexivity].
  destruct (Huobi.handle body) as [err|]; [reflexivity|].
  destruct body; reflexivity.
Qed.

(** When the first attempt is answered, [req] has read the clock and sent
    the request once, and [handle] decides. *)
Lemma req_responded (method address hostname path : string)
    (params : gmap string string) (w : World S) (body : result Huobi.Document) :
  Huobi.url_parse net (Huobi.host c +:+ address) = Ok (hostname, path) ->
  let r := Wire.request net c method address hostname path params w in
  Huobi.Do net (Datatypes.S (length (events w))) r = Huobi.Responded body ->
  Huobi.req net c method address params w =
    (wrapped "huobi.(*Client).req"
       match Huobi.handle body, body with
       | Some err, _ => Err err
       | None, Ok m => Ok m
       | None, Err err => Err err
       end, Wire.after r 1 w).
Proof.
  intros Hparse r Hdo. rewrite (req_eq _ _ _ _ _ _ Hparse). cbn zeta. fold r.
  rewrite (roundtrip_responded net r 0 _ body).
  - cbn [events store]. unfold Wire.after. rewrite <- app_assoc. reflexivity.
  - cbn [events]. rewrite length_app, Nat.add_1_r. exact Hdo.
Qed.

End Requests.

Create HintDb growth.

Section Growth.
Context {S : Type}.
Import Wire.

Lemma grows_ret {A} (a : A) : grows (S := S) (ret a).
Proof. intros w. exists []. cbn. rewrite app_nil_r. reflexivity. Qed.

Lemma grows_fail {A} (e : error) : grows (@fail S A e).
Proof. intros w. exists []. cbn. rewrite app_nil_r. reflexivity. Qed.

Lemma grows_lift {A} (r : result A) : grows (S := S) (lift r).
Proof. intros w. exists []. cbn. rewrite app_nil_r. reflexivity. Qed.

Lemma grows_emit (e : Event) : grows (S := S) (emit e).
Proof. intros w. exists [e]. reflexivity. Qed.

Lemma grows_get : grows (S := S) get.
Proof. intros w. exists []. cbn. rewrite app_nil_r. reflexivity. Qed.

Lemma grows_put (s : S) : grows (put s).
Proof. intros w. exists []. cbn. rewrite app_nil_r. reflexivity. Qed.

Lemma grows_bind {A B} (m : M S A) (k : A -> M S B) :
  grows m -> (forall a, grows (k a)) -> grows (bind m k).
Proof.
  intros Hm Hk w. unfold bind. destruct (Hm w) as [rest Hrest].
  destruct (m w) as [[a|e] w1]; cbn in *; [|eauto].
  destruct (Hk a w1) as [rest' Hrest']. exists (rest ++ rest').
  rewrite Hrest', Hrest, app_assoc. reflexivity.
Qed.

Lemma grows_wrapping {A} (name : string) (m : M S A) :
  grows m -> grows (wrapping name m).
Proof.
  intros Hm w. unfold wrapping. destruct (Hm w) as [rest Hrest].
  destruct (m w) as [r w1]. eauto.
Qed.

Lemma grows_zoom {T A} (proj : S -> T) (inj : T -> S -> S) (m : M T A) :
  grows m -> grows (zoom proj inj m).
Proof.
  intros Hm w. unfold zoom.
  destruct (Hm {| events := events w; store := proj (store w) |}) as [rest Hrest].
  destruct (m _) as [r w1]. cbn in *. eauto.
Qed.

Lemma grows_roundtrip (net : Huobi.Net) (r : Request) (retry : Z) (spent : bool) :
  grows (S := S) (Huobi.roundtrip net r retry spent).
Proof.
  intros w.
  destruct (roundtrip_run net r retry spent w) as (n & _ & _ & Hev & _). eauto.
Qed.

End Growth.

#[global] Hint Resolve grows_ret grows_fail grows_lift grows_emit grows_get
  grows_put grows_wrapping grows_roundtrip : growth.

(** [growth] goes through a body bind by bind. *)
Ltac growth :=
  repeat match goal with
    | |- Wire.grows (wrapping _ _) => apply grows_wrapping
    | |- Wire.grows (bind _ _) => apply grows_bind; [| intros ?]
    | |- Wire.grows (zoom _ _ _) => apply grows_zoom
    | |- Wire.grows (match ?x with _ => _ end) => destruct x
    | |- Wire.grows (if ?b then _ else _) => destruct b
    | |- Wire.grows _ => solve [auto with growth]
    end.

Section ClientGrowth.
Context {S : Type}.
Variables (net : Huobi.Net) (c : Huobi.Client).

Lemma grows_req (method address : string) (params : gmap string string) :
  Wire.grows (S := S) (Huobi.req net c method address params).
Proof. unfold Huobi.req. growth. Qed.

Lemma grows_SymbolPrice (name : string) :
  Wire.grows (S := S) (Huobi.SymbolPrice net c name).
Proof. unfold Huobi.SymbolPrice. pose proof grows_req. growth. Qed.

Lemma grows_OpenOrder (ID : Z) :
  Wire.grows (S := S) (Huobi.OpenOrder_ net c ID).
Proof. unfold Huobi.OpenOrder_. pose proof grows_req. growth. Qed.

End ClientGrowth.

Section PlanGrowth.
Variable env : Plan.Env.

Lemma grows_stateFlush : Wire.grows (Plan.stateFlush env).
Proof.
  unfold Plan.stateFlush, Plan.the_plan, Plan.now, Plan.set_state.
  pose proof (@grows_SymbolPrice Plan.Store). growth.
Qed.

Lemma grows_addOrder (o : Huobi.OpenOrder.t) : Wire.grows (Plan.addOrder env o).
Proof. unfold Plan.addOrder, Plan.db, DB.AddOrder. growth. Qed.

Lemma grows_stateUpdate (o : Huobi.OpenOrder.t) :
  Wire.grows (Plan.stateUpdate env o).
Proof.
  unfold Plan.stateUpdate, Plan.the_plan, Plan.now, Plan.set_state.
  pose proof grows_stateFlush. growth.
Qed.

End PlanGrowth.

(** ** Looking up a symbol *)

(** X1. [Symbol] returns a symbol exactly when it is the first symbol of
    that name in the cached list, and fails with "symbol not found" exactly
    when no cached symbol has that name. *)
Theorem Symbol_lookup (c : Huobi.Client) (name : string) :
  (forall s, Huobi.Symbol_ c name = Ok s <->
     exists l1 l2, Huobi.symbols c = l1 ++ s :: l2 /\
       Huobi.Symbol.Symbol s = name /\
       Forall (fun x => Huobi.Symbol.Symbol x <> name) l1) /\
  (Huobi.Symbol_ c name
     = Err (Wrap Huobi.errSymbolNotFound "huobi.(*Client).Symbol") <->
   Forall (fun x => Huobi.Symbol.Symbol x <> name) (Huobi.symbols c)).
Proof.
  unfold Huobi.Symbol_. generalize (Huobi.symbols c) as l.
  induction l as [|x l [IHok IHerr]].
  - cbn. split.
    + intros s. split; [discriminate|].
      intros (l1 & l2 & H & _). destruct l1; discriminate.
    + split; [constructor | reflexivity].
  - cbn [Huobi.find_symbol].
    destruct (String.eqb_spec (Huobi.Symbol.Symbol x) name) as [Heq|Hne].
    + split.
      * intros s. split.
        -- intros [= <-]. exists [], l. auto.
        -- intros (l1 & l2 & H & Hs & Hl1). destruct l1 as [|y l1].
           ++ injection H as ->. reflexivity.
           ++ injection H as -> _. inversion Hl1; contradiction.
      * split; [discriminate|]. intros H. inversion H; contradiction.
    + split.
      * intros s. rewrite IHok. split.
        -- intros (l1 & l2 & -> & Hs & Hl1). exists (x :: l1), l2. auto.
        -- intros (l1 & l2 & H & Hs & Hl1). destruct l1 as [|y l1].
           ++ injection H as -> _. contradiction.
           ++ injection H as -> ->. inversion Hl1. eauto.
      * rewrite IHerr. split.
        -- intros H. constructor; assumption.
        -- intros H. inversion H; assumption.
Qed.

(** ** Answers of the exchange *)

(** X2. An answer whose status is not ["ok"] makes [req] fail with the
    code and the message of the exchange, after the clock was read and the
    request was sent once: such an answer is never tried again. *)
Theorem req_rejected {S : Type} (net : Huobi.Net) (c : Huobi.Client)
    (method address hostname path : string) (params : gmap string string)
    (w : World S) (m : Huobi.Document) :
  Huobi.url_parse net (Huobi.host c +:+ address) = Ok (hostname, path) ->
  let r := Wire.request net c method address hostname path params w in
  Huobi.Do net (Datatypes.S (length (events w))) r = Huobi.Responded (Ok m) ->
  Huobi.Status m <> "ok" ->
  Huobi.req net c method address params w =
    (Err (Wrap (Wrap (New ("Code: " +:+ Huobi.Code m +:+ ", " +:+ Huobi.Message m))
                  "huobi.handle") "huobi.(*Client).req"),
     Wire.after r 1 w).
Proof.
  intros Hparse r Hdo Hst.
  rewrite (req_responded net c _ _ _ _ _ _ _ Hparse Hdo). unfold Huobi.handle.
  destruct (String.eqb_spec (Huobi.Status m) "ok") as [H|H]; [contradiction|].
  reflexivity.
Qed.

(** X2 on an exchange that refuses the call. *)
Lemma req_rejected_witness :
  exists r,
    Huobi.req Cases.refusing Scenario.client "GET" "/market/trade"
      {[ "symbol" := "btcusdt" ]} {| events := []; store := tt |}
    = (Err (Wrap (Wrap (New "Code: order-accountbalance-error, insufficient balance")
                    "huobi.handle") "huobi.(*Client).req"),
       {| events := [Clock; HTTP r]; store := tt |}).
Proof.
  eexists.
  apply (req_rejected Cases.refusing Scenario.client "GET" "/market/trade"
           "api.huobi.pro" "/market/trade" {[ "symbol" := "btcusdt" ]}
           {| events := []; store := tt |}
           {| Huobi.Status := "error"; Huobi.Code := "order-accountbalance-error";
              Huobi.Message := "insufficient balance"; Huobi.Data := Huobi.NoData |}).
  - vm_compute. reflexivity.
  - reflexivity.
  - discriminate.
Defined.

(** A response whose body breaks off, or is not a document, is an error of
    [req] as well: the first is wrapped by [req] alone, the second by
    [handle] first; neither is tried again. *)
Example req_unreadable_answers :
  let net (answer : Huobi.RoundTrip) :=
    {| Huobi.unix := Huobi.unix Cases.refusing; Huobi.utc := Huobi.utc Cases.refusing;
       Huobi.url_parse := Huobi.url_parse Cases.refusing;
       Huobi.Do := fun _ _ => answer;
       Huobi.Stale := Scenario.short_body |} in
  let run (answer : Huobi.RoundTrip) :=
    Huobi.req (net answer) Scenario.client "GET" "/market/trade"
      {[ "symbol" := "btcusdt" ]} {| events := []; store := tt |} in
  (run (Huobi.Cut "unexpected EOF")).1
    = Err (Wrap (New "unexpected EOF") "huobi.(*Client).req") /\
  (run (Huobi.Responded (Err (New "invalid character '<' looking for beginning of value")))).1
    = Err (Wrap (Wrap (New "invalid character '<' looking for beginning of value")
                   "huobi.handle") "huobi.(*Client).req") /\
  length (events (run (Huobi.Cut "unexpected EOF")).2) = 2%nat.
Proof. vm_compute. repeat split; reflexivity. Qed.

(** X3. What [req] returns is what the exchange answered: when [req]
    succeeds, the address was parsed, the clock was read, the same request
    was sent between one and three times, and the document returned is the
    answer to the last of them, with the status ["ok"]. *)
Theorem req_ok {S : Type} (net : Huobi.Net) (c : Huobi.Client)
    (method address : string) (params : gmap string string)
    (w w' : World S) (m : Huobi.Document) :
  Huobi.req net c method address params w = (Ok m, w') ->
  Wire.accepted m /\
  exists hostname path n,
    Huobi.url_parse net (Huobi.host c +:+ address) = Ok (hostname, path) /\
    (1 <= n <= 3)%nat /\
    let r := Wire.request net c method address hostname path params w in
    w' = Wire.after r n w /\
    Huobi.Do net (length (events w) + n) r = Huobi.Responded (Ok m).
Proof.
  intros Hreq.
  destruct (Huobi.url_parse net (Huobi.host c +:+ address))
    as [[hostname path]|e] eqn:Hparse.
  2: { unfold Huobi.req, wrapping, bind, lift in Hreq. rewrite Hparse in Hreq.
       destruct e; discriminate. }
  rewrite (req_eq net c _ _ _ _ _ _ Hparse) in Hreq. cbn zeta in Hreq.
  set (r := Wire.request net c method address hostname path params w) in *.
  set (w0 := {| events := events w ++ [Clock]; store := store w |}) in *.
  destruct (roundtrip_run net r 0 false w0)
    as (n & Hn1 & Hn3 & Hev & Hst & _ & Hlast).
  destruct (Huobi.roundtrip net r 0 false w0) as [[body|e] w1]; cbn [fst snd] in *.
  2: { destruct e; discriminate. }
  assert (body = Ok m /\ Wire.accepted m /\ w1 = w') as (-> & Hacc & <-).
  { unfold Huobi.handle in Hreq. destruct body as [m'|e]; [|destruct e; discriminate].
    destruct (String.eqb_spec (Huobi.Status m') "ok") as [H|H]; cbn in Hreq;
      [|discriminate]. inversion Hreq; subst. auto. }
  split; [exact Hacc|]. exists hostname, path, n.
  split; [reflexivity|]. split; [lia|]. cbn zeta. fold r.
  split.
  - apply world_eq; cbn.
    + rewrite Hev. subst w0. cbn. rewrite <- app_assoc. reflexivity.
    + exact Hst.
  - unfold Huobi.attempt_from in Hlast. subst w0. cbn [events] in Hlast.
    rewrite length_app in Hlast. cbn [length] in Hlast.
    replace (length (events w) + n)%nat
      with (length (events w) + 1 + (n - 1))%nat by lia.
    destruct (Huobi.client_Do net _ r _) as [tm msg rd|body'|msg] eqn:Hdo.
    + destruct Hlast as [H _]. discriminate.
    + injection Hlast as ->. exact (client_Do_responded net _ _ _ _ Hdo).
    + discriminate.
Qed.

(** X3 on the small exchange: the price lookup of a monitoring tick. *)
Lemma req_ok_witness :
  let out :=
    Huobi.req (Scenario.exchange Scenario.bought (of_Z 6400)) Scenario.client
      "GET" "/market/trade" {[ "symbol" := "btcusdt" ]}
      {| events := []; store := tt |} in
  exists m, out.1 = Ok m /\ Wire.accepted m /\ Huobi.Data m = Huobi.Ticks [of_Z 6400].
Proof.
  cbn zeta.
  pose (net := Scenario.exchange Scenario.bought (of_Z 6400)).
  pose (out := Huobi.req net Scenario.client "GET" "/market/trade"
                 {[ "symbol" := "btcusdt" ]} {| events := []; store := tt |}).
  pose (m := {| Huobi.Status := "ok"; Huobi.Code := EmptyString;
                Huobi.Message := EmptyString;
                Huobi.Data := Huobi.Ticks [of_Z 6400] |}).
  destruct (req_ok net Scenario.client "GET" "/market/trade"
              {[ "symbol" := "btcusdt" ]} {| events := []; store := tt |} out.2 m)
    as [Hacc _].
  - vm_compute. reflexivity.
  - exists m. split; [vm_compute; reflexivity|]. split; [exact Hacc | reflexivity].
Defined.

(** X4. For a method other than GET the parameters of the call travel in
    the body and are not signed: whatever the parameters, [req] sends a
    request with the same address, query string and signature included,
    and with the parameters as body; for a GET the request has no body. *)
Theorem req_body_unsigned {S : Type} (net : Huobi.Net) (c : Huobi.Client)
    (method address hostname path : string) (w : World S) :
  Huobi.url_parse net (Huobi.host c +:+ address) = Ok (hostname, path) ->
  forall params, exists r n,
    (1 <= n <= 3)%nat /\
    events (Huobi.req net c method address params w).2
      = events w ++ Clock :: replicate n (HTTP r) /\
    Method r = method /\
    (Huobi.is_get method = true -> Body r = None) /\
    (Huobi.is_get method = false ->
     Body r = Some params /\
     URL r = URL (Wire.request net c method address hostname path ∅ w)).
Proof.
  intros Hparse params.
  destruct (req_sends net c method address hostname path params w Hparse)
    as (n & Hn & Hev).
  eexists _, n. split; [exact Hn|]. split; [exact Hev|].
  split; [reflexivity|]. unfold Huobi.signed_request, Wire.request,
    Huobi.signed_params, Huobi.sign_content. cbn [Body URL].
  split; intros ->; [reflexivity|]. split; reflexivity.
Qed.

(** X4 on the small exchange: an order of 100 and an order of 1000000 are
    sent to the same signed address. *)
Lemma req_body_unsigned_witness :
  let net := Scenario.exchange Scenario.bought (of_Z 6400) in
  let w := {| events := []; store := tt |} in
  exists r1 r2 n1 n2,
    events (Huobi.req net Scenario.client "POST" "/v1/order/orders/place"
              {[ "amount" := "100" ]} w).2 = Clock :: replicate n1 (HTTP r1) /\
    events (Huobi.req net Scenario.client "POST" "/v1/order/orders/place"
              {[ "amount" := "1000000" ]} w).2 = Clock :: replicate n2 (HTTP r2) /\
    URL r1 = URL r2 /\ Body r1 <> Body r2.
Proof.
  cbn zeta.
  pose (net := Scenario.exchange Scenario.bought (of_Z 6400)).
  pose (w := {| events := []; store := tt |} : World unit).
  assert (Huobi.url_parse net (Huobi.host Scenario.client +:+ "/v1/order/orders/place")
          = Ok ("api.huobi.pro", "/v1/order/orders/place")) as Hparse
    by (vm_compute; reflexivity).
  destruct (req_body_unsigned net Scenario.client "POST" "/v1/order/orders/place"
              _ _ w Hparse {[ "amount" := "100" ]})
    as (r1 & n1 & _ & Hev1 & _ & _ & Hpost1).
  destruct (req_body_unsigned net Scenario.client "POST" "/v1/order/orders/place"
              _ _ w Hparse {[ "amount" := "1000000" ]})
    as (r2 & n2 & _ & Hev2 & _ & _ & Hpost2).
  destruct (Hpost1 eq_refl) as [Hb1 Hu1]. destruct (Hpost2 eq_refl) as [Hb2 Hu2].
  exists r1, r2, n1, n2.
  split; [exact Hev1|]. split; [exact Hev2|].
  split; [rewrite Hu1, Hu2; reflexivity|].
  rewrite Hb1, Hb2. discriminate.
Defined.

Section Answers.
Context {S : Type}.
Variables (net : Huobi.Net) (c : Huobi.Client).

(** An accepted answer to the first attempt is what [req] returns. *)
Lemma req_accepted (method address hostname path : string)
    (params : gmap string string) (w : World S) (m : Huobi.Document) :
  Huobi.url_parse net (Huobi.host c +:+ address) = Ok (hostname, path) ->
  let r := Wire.request net c method address hostname path params w in
  Huobi.Do net (Datatypes.S (length (events w))) r = Huobi.Responded (Ok m) ->
  Wire.accepted m ->
  Huobi.req net c method address params w = (Ok m, Wire.after r 1 w).
Proof.
  intros Hparse r Hdo Hacc.
  rewrite (req_responded net c _ _ _ _ _ _ _ Hparse Hdo). unfold Huobi.handle.
  unfold Wire.accepted in Hacc. rewrite Hacc. reflexivity.
Qed.




(** What follows a computation in a [bind] only adds to its trace. *)
Lemma bind_extends {A B} (m : M S A) (k : A -> M S B) (w : World S) :
  (forall a, Wire.grows (k a)) ->
  exists rest, events (bind m k w).2 = events (m w).2 ++ rest.
Proof.
  intros Hk. unfold bind. destruct (m w) as [[a|e] w1]; cbn.
  - apply Hk.
  - exists []. rewrite app_nil_r. reflexivity.
Qed.

End Answers.

(** ** Prices *)

(** X5. When the exchange accepts the price lookup and reports trades,
    [SymbolPrice] returns the price of the first one; when it reports no
    trade, [SymbolPrice] fails with "get symbol price failed". In both
    cases the request was sent once. *)
Theorem SymbolPrice_ticks {S : Type} (net : Huobi.Net) (c : Huobi.Client)
    (name hostname path : string) (w : World S) (m : Huobi.Document)
    (prices : list float64) :
  Huobi.url_parse net (Huobi.host c +:+ "/market/trade") = Ok (hostname, path) ->
  let r := Wire.request net c "GET" "/market/trade" hostname path
             {[ "symbol" := name ]} w in
  Huobi.Do net (Datatypes.S (length (events w))) r = Huobi.Responded (Ok m) ->
  Wire.accepted m ->
  Huobi.Data m = Huobi.Ticks prices ->
  Huobi.SymbolPrice net c name w =
    (match prices with
     | [] => Err (Wrap Huobi.errSymbolPriceFailed "huobi.(*Client).SymbolPrice")
     | quote :: _ => Ok quote
     end, Wire.after r 1 w).
Proof.
  intros Hparse r Hdo Hacc Hdata.
  unfold Huobi.SymbolPrice, wrapping, bind.
  rewrite (req_accepted net c _ _ _ _ _ _ _ Hparse Hdo Hacc).
  unfold lift, Huobi.decode_ticks. rewrite Hdata.
  destruct prices; reflexivity.
Qed.

(** X5 on a market without trades. *)
Lemma SymbolPrice_ticks_witness :
  (Huobi.SymbolPrice Cases.no_tick Scenario.client "btcusdt"
     {| events := []; store := tt |}).1
  = Err (Wrap Huobi.errSymbolPriceFailed "huobi.(*Client).SymbolPrice").
Proof.
  rewrite (SymbolPrice_ticks Cases.no_tick Scenario.client "btcusdt"
             "api.huobi.pro" "/market/trade" {| events := []; store := tt |}
             {| Huobi.Status := "ok"; Huobi.Code := EmptyString;
                Huobi.Message := EmptyString; Huobi.Data := Huobi.Ticks [] |} []).
  - reflexivity.
  - vm_compute. reflexivity.
  - reflexivity.
  - reflexivity.
  - reflexivity.
Defined.

(** ** Orders *)

(** X6. [Trade] sends nothing when the symbol is not in the cached list or
    when there is no spot account: it fails and leaves the world as it
    was, with no request on the wire. *)
Theorem Trade_nothing_sent {S : Type} (net : Huobi.Net) (c : Huobi.Client)
    (symbol : string) (cmd : Huobi.TradeType) (amount price : float64)
    (w : World S) :
  is_ok (Huobi.Symbol_ c symbol) = false \/ is_ok (Huobi.SpotAccountID c) = false ->
  let out := Huobi.Trade net c symbol cmd amount price w in
  is_ok out.1 = false /\ out.2 = w.
Proof.
  intros H. cbn zeta. unfold Huobi.Trade, wrapping, bind, lift.
  destruct (Huobi.Symbol_ c symbol) as [s|e]; cbn.
  - destruct H as [H|H]; [discriminate|].
    destruct (Huobi.SpotAccountID c) as [id|e]; [discriminate|].
    cbn. destruct e; auto.
  - destruct e; auto.
Qed.

(** X6 for a symbol that the exchange does not list. *)
Lemma Trade_nothing_sent_witness :
  let out := Huobi.Trade (Scenario.exchange Scenario.bought (of_Z 6400))
               Scenario.client "ethusdt" Huobi.BuyLimit (of_Z 100) (of_Z (-1))
               {| events := []; store := tt |} in
  is_ok out.1 = false /\ out.2 = {| events := []; store := tt |}.
Proof.
  apply (Trade_nothing_sent (Scenario.exchange Scenario.bought (of_Z 6400))
           Scenario.client "ethusdt" Huobi.BuyLimit (of_Z 100) (of_Z (-1))
           {| events := []; store := tt |}).
  left. reflexivity.
Defined.

(** X7. An order that goes through: [Trade] sends one POST to
    [/v1/order/orders/place] whose body holds the account, the source
    ["api"], the symbol, the formatted amount, the kind and, for the limit
    kinds, the formatted price; the exchange answers with the number of the
    order; [Trade] sleeps 5 seconds, fetches this order once with a GET,
    and returns what the exchange reports for it. *)
Theorem Trade_wire {S : Type} (net : Huobi.Net) (c : Huobi.Client)
    (symbol : string) (cmd : Huobi.TradeType) (amount price : float64)
    (w : World S) (s : Huobi.Symbol.t) (id oid : Z) (o : Huobi.OpenOrder.t)
    (host1 path1 host2 path2 : string) (m1 m2 : Huobi.Document) :
  Huobi.Symbol_ c symbol = Ok s ->
  Huobi.SpotAccountID c = Ok id ->
  Huobi.url_parse net (Huobi.host c +:+ "/v1/order/orders/place")
    = Ok (host1, path1) ->
  let params := Huobi.trade_params s id cmd amount price in
  let post := Wire.request net c "POST" "/v1/order/orders/place" host1 path1
                params w in
  Huobi.Do net (Datatypes.S (length (events w))) post = Huobi.Responded (Ok m1) ->
  Wire.accepted m1 -> Huobi.Data m1 = Huobi.OrderID oid ->
  let address := "/v1/order/orders/" +:+ Strconv.FormatUint oid in
  let w2 := {| events := events w ++ [Clock; HTTP post; Sleep 5];
               store := store w |} in
  Huobi.url_parse net (Huobi.host c +:+ address) = Ok (host2, path2) ->
  let get := Wire.request net c "GET" address host2 path2 ∅ w2 in
  Huobi.Do net (Datatypes.S (length (events w2))) get = Huobi.Responded (Ok m2) ->
  Wire.accepted m2 -> Huobi.Data m2 = Huobi.OrderData o ->
  Body post = Some params /\
  Huobi.Trade net c symbol cmd amount price w =
    (Ok (Some o),
     {| events := events w ++ [Clock; HTTP post; Sleep 5; Clock; HTTP get];
        store := store w |}).
Proof.
  intros Hsym Hspot Hparse1 params post Hdo1 Hacc1 Hdata1 address w2 Hparse2 get
    Hdo2 Hacc2 Hdata2.
  split; [reflexivity|].
  unfold Huobi.Trade, wrapping, bind, lift. rewrite Hsym, Hspot.
  fold params.
  rewrite (req_accepted net c _ _ _ _ _ _ _ Hparse1 Hdo1 Hacc1).
  unfold Huobi.decode_id. rewrite Hdata1. unfold emit. cbn [events store Wire.after].
  unfold Huobi.OpenOrder_, wrapping, bind, lift.
  match goal with |- context [Huobi.req net c "GET" _ ∅ ?w0] =>
    replace w0 with w2
      by (subst w2; f_equal; rewrite <- app_assoc; reflexivity)
  end.
  fold address.
  rewrite (req_accepted net c _ _ _ _ _ _ _ Hparse2 Hdo2 Hacc2).
  unfold Huobi.decode_order. rewrite Hdata2. cbn [wrapped]. f_equal.
  unfold Wire.after. subst w2. cbn [events store]. f_equal.
  rewrite <- app_assoc. reflexivity.
Qed.

(** X7 on the small exchange: a limit buy of 100 at the price -1. *)
Lemma Trade_wire_witness :
  exists post get,
    Huobi.Trade (Scenario.exchange Scenario.bought (of_Z 6400)) Scenario.client
      "btcusdt" Huobi.BuyLimit (of_Z 100) (of_Z (-1)) {| events := []; store := tt |}
    = (Ok (Some Scenario.bought),
       {| events := [Clock; HTTP post; Sleep 5; Clock; HTTP get]; store := tt |}) /\
    Body post
      = Some {[ "account-id" := "100"; "source" := "api"; "symbol" := "btcusdt";
                "amount" := "100"; "type" := "buy-limit"; "price" := "-1" ]}.
Proof.
  pose (net := Scenario.exchange Scenario.bought (of_Z 6400)).
  pose (answer := fun data =>
          {| Huobi.Status := "ok"; Huobi.Code := EmptyString;
             Huobi.Message := EmptyString; Huobi.Data := data |}).
  destruct (Trade_wire net Scenario.client "btcusdt" Huobi.BuyLimit (of_Z 100)
              (of_Z (-1)) {| events := []; store := tt |} Scenario.btcusdt 100 42
              Scenario.bought "api.huobi.pro" "/v1/order/orders/place"
              "api.huobi.pro" "/v1/order/orders/42"
              (answer (Huobi.OrderID 42)) (answer (Huobi.OrderData Scenario.bought)))
    as [Hbody Htrade];
    try reflexivity; try (vm_compute; reflexivity).
  eexists. eexists. split.
  - exact Htrade.
  - rewrite Hbody. vm_compute. reflexivity.
Defined.



(** When no connection was made in time, the second attempt is the first
    submission, and the order goes through. *)
Example trade_after_dial_timeout :
  let out := Huobi.Trade (Cases.hiccup 1 false) Scenario.client "btcusdt"
               Huobi.BuyLimit (of_Z 100) (of_Z (-1)) {| events := []; store := tt |} in
  out.1 = Ok (Some Scenario.bought) /\
  exists post get, events out.2 = [Clock; HTTP post; HTTP post; Sleep 5; Clock; HTTP get].
Proof. vm_compute. split; [reflexivity|]. eexists. eexists. reflexivity. Qed.

(** ** Times of day and period names *)

(** X9. [validateTime] reports the first field that is out of range, hour
    before minute before second, with the value it got; [NewDaily] wraps
    this error. *)
Theorem validateTime_reports (h m s : Z) :
  let got (field : string) (hi v : Z) (e : error) :=
    Period.validateTime h m s = Some (Wrap e field) /\
    Period.NewDaily h m s = Err (Wrap (Wrap e field) "plan.NewDaily") /\
    Error e = "a valid value must between 0 and " +:+ pretty hi
              +:+ " (inclusive) but got " +:+ pretty v in
  (~ 0 <= h <= 23 -> exists e, got "invalid hour" 23 h e) /\
  (0 <= h <= 23 -> ~ 0 <= m <= 59 -> exists e, got "invalid minute" 59 m e) /\
  (0 <= h <= 23 -> 0 <= m <= 59 -> ~ 0 <= s <= 59 ->
   exists e, got "invalid second" 59 s e).
Proof.
  cbn zeta. unfold Period.NewDaily, Period.validateTime.
  pose proof (mustBetween_ok h 0 23) as Hh.
  pose proof (mustBetween_ok m 0 59) as Hm.
  pose proof (mustBetween_ok s 0 59) as Hs.
  unfold Period.mustBetween in *.
  split; [|split].
  - intros Hbad. destruct (_ || _); [|exfalso; apply Hbad, Hh; reflexivity].
    eexists. repeat split.
  - intros Hok Hbad. apply Hh in Hok.
    destruct ((h <? 0) || (h >? 23)); [discriminate|].
    destruct (_ || _); [|exfalso; apply Hbad, Hm; reflexivity].
    eexists. repeat split.
  - intros Hok1 Hok2 Hbad. apply Hh in Hok1. apply Hm in Hok2.
    destruct ((h <? 0) || (h >? 23)); [discriminate|].
    destruct ((m <? 0) || (m >? 59)); [discriminate|].
    destruct (_ || _); [|exfalso; apply Hbad, Hs; reflexivity].
    eexists. repeat split.
Qed.

(** X9 at 7:60:34. *)
Lemma validateTime_reports_witness :
  exists e,
    Period.NewDaily 7 60 34 = Err (Wrap (Wrap e "invalid minute") "plan.NewDaily") /\
    Error e = "a valid value must between 0 and 59 (inclusive) but got 60".
Proof.
  destruct (validateTime_reports 7 60 34) as (_ & Hminute & _).
  destruct Hminute as (e & _ & Hnew & Hmsg); [lia | lia |].
  exists e. split; [exact Hnew | exact Hmsg].
Defined.

(** X10. The choice of the period in [execute] never fails: the names
    ["daily"], ["weekly"] and ["monthly"] give a period at midnight, on
    Monday for the week and on the first day for the month; any other name
    is not refused and leaves the period nil. *)
Theorem choose_period_cases (name : string) :
  (Main.choose_period name = Ok None <->
   name <> "daily" /\ name <> "weekly" /\ name <> "monthly") /\
  (forall p, Main.choose_period name = Ok (Some p) <->
     (name = "daily" /\ Period.NewDaily 0 0 0 = Ok p /\
      Period.Schedule p = "0 0 0 * * *") \/
     (name = "weekly" /\ Period.NewWeekly 1 0 0 0 = Ok p /\
      Period.Schedule p = "0 0 0 * * 1") \/
     (name = "monthly" /\ Period.NewMonthly 1 0 0 0 = Ok p /\
      Period.Schedule p = "0 0 0 1 * *")) /\
  is_ok (Main.choose_period name) = true.
Proof.
  unfold Main.choose_period.
  destruct (String.eqb_spec name "daily") as [->|Hd];
    [|destruct (String.eqb_spec name "weekly") as [->|Hw];
      [|destruct (String.eqb_spec name "monthly") as [->|Hm]]]; cbn.
  - split; [|split; [|reflexivity]].
    + split; [discriminate | intros (H & _); contradiction].
    + intros p. split.
      * intros [= <-]. left. repeat split.
      * intros [(_ & [= <-] & _) | [(H & _) | (H & _)]];
          [reflexivity | discriminate | discriminate].
  - split; [|split; [|reflexivity]].
    + split; [discriminate | intros (_ & H & _); contradiction].
    + intros p. split.
      * intros [= <-]. right; left. repeat split.
      * intros [(H & _) | [(_ & [= <-] & _) | (H & _)]];
          [discriminate | reflexivity | discriminate].
  - split; [|split; [|reflexivity]].
    + split; [discriminate | intros (_ & _ & H); contradiction].
    + intros p. split.
      * intros [= <-]. right; right. repeat split.
      * intros [(H & _) | [(H & _) | (_ & [= <-] & _)]];
          [discriminate | discriminate | reflexivity].
  - split; [|split; [|reflexivity]].
    + split; auto.
    + intros p. split; [discriminate|].
      intros [(H & _) | [(H & _) | (H & _)]]; contradiction.
Qed.

(** ** Precisions out of range *)

(** X11. [floor] has no guard on the precision: above 308 the power of
    ten is infinite and below -323 it is zero, and in both cases every
    amount, whatever it is, is formatted as "NaN". *)
Theorem floor_out_of_range (f : float64) (prec : Z) :
  prec < -323 \/ 308 < prec -> Huobi.floor f prec = "NaN".
Proof.
  intros H. unfold Huobi.floor, Pow10.
  destruct (Z.leb_spec 0 prec), (Z.leb_spec prec 308), (Z.leb_spec (-323) prec),
    (Z.leb_spec prec 0), (Z.ltb_spec 0 prec); cbn [andb]; try lia;
    destruct f as [sf|sf| |sf mf ef]; try reflexivity;
    destruct sf; reflexivity.
Qed.

(** X11 for the amount 100 and the precisions 309 and -324. *)
Lemma floor_out_of_range_witness :
  Huobi.floor (of_Z 100) 309 = "NaN" /\ Huobi.floor (of_Z 100) (-324) = "NaN".
Proof.
  split; apply floor_out_of_range; [right | left]; lia.
Defined.

(** Within the range the product can still overflow: the amount 100 at
    the precision 308 is formatted as an infinity. *)
Example floor_overflow :
  Huobi.floor (of_Z 100) 308 = "+Inf" /\ Huobi.floor (of_Z 100) 306 = "100" /\
  Huobi.floor (of_Z 100) (-323) = "0".
Proof. vm_compute. repeat split; reflexivity. Qed.

(** ** The state of the plan, call by call *)

(** X12. A flush that fails leaves the plan as it was; a flush that
    succeeds changes the price, the equity and the time of the update and
    nothing else, the equity being the new price times the position. In
    both cases the database is not touched. *)
Theorem stateFlush_effect (env : Plan.Env) (w : World Plan.Store) :
  let out := Plan.stateFlush env w in
  let p := Plan.self (store w) in
  let p' := Plan.self (store out.2) in
  Plan.database (store out.2) = Plan.database (store w) /\
  match out.1 with
  | Err _ => p' = p
  | Ok _ =>
      Plan.client p' = Plan.client p /\ Plan.period p' = Plan.period p /\
      Plan.symbol p' = Plan.symbol p /\ Plan.amount p' = Plan.amount p /\
      Plan.position (Plan.st p') = Plan.position (Plan.st p) /\
      Plan.investment (Plan.st p') = Plan.investment (Plan.st p) /\
      Plan.equity (Plan.st p')
        = mul (Plan.price (Plan.st p')) (Plan.position (Plan.st p))
  end.
Proof.
  cbn zeta. rewrite stateFlush_eq. cbn zeta.
  pose proof (preserves_SymbolPrice (Plan.net env) (Plan.client (Plan.self (store w)))
                (Plan.symbol (Plan.self (store w))) w) as Hst.
  destruct (Huobi.SymbolPrice _ _ _ w) as [[quote|e] w1]; cbn in *.
  - auto 10.
  - rewrite Hst. destruct e; auto.
Qed.

Section PlanCalls.
Import Plan.
Variable env : Env.

(** [addStatistics] writes the state of the plan as one row, or nothing. *)
Lemma addStatistics_spec (w : World Store) :
  let out := addStatistics env w in
  let p := self (store w) in
  self (store out.2) = p /\
  DB.orders (database (store out.2)) = DB.orders (database (store w)) /\
  match out.1 with
  | Ok _ =>
      DB.statistics (database (store out.2))
        = DB.statistics (database (store w))
          ++ [{| DB.Statistics.ID := 0;
                 DB.Statistics.Symbol := symbol p;
                 DB.Statistics.Position := position (st p);
                 DB.Statistics.Investment := investment (st p);
                 DB.Statistics.Price := price (st p);
                 DB.Statistics.Equity := equity (st p);
                 DB.Statistics.Created := updated (st p) |}]
  | Err _ =>
      DB.statistics (database (store out.2)) = DB.statistics (database (store w))
  end.
Proof.
  cbn zeta. unfold addStatistics, the_plan, db, DB.AddStatistics. run.
  destruct (DB.fault (driver env) (length (events w))) as [e|]; cbn;
    [destruct e; auto|].
  destruct (DB.first_null _); cbn; auto.
Qed.

(** When the flush of [stateUpdate] fails, the amounts have been added and
    the price and the equity are the old ones. *)
Lemma stateUpdate_failure (o : Huobi.OpenOrder.t) (w : World Store) :
  let out := stateUpdate env o w in
  is_ok out.1 = false ->
  price (st (self (store out.2))) = price (st (self (store w))) /\
  equity (st (self (store out.2))) = equity (st (self (store w))).
Proof.
  cbn zeta. unfold stateUpdate, the_plan, now, set_state. run.
  match goal with |- context [stateFlush env ?w0] => set (w1 := w0) end.
  pose proof (stateFlush_effect env w1) as (_ & Heff). cbn zeta in Heff.
  destruct (stateFlush env w1) as [[[]|e] w2]; cbn in *; [discriminate|].
  intros _. rewrite Heff. split; reflexivity.
Qed.

End PlanCalls.

(** X13. [Monitor] never touches the orders, the position or the
    investment. When it succeeds, the table of statistics has one more
    row, which holds the symbol and the state that the flush has left:
    position, investment, price and equity, the equity of the row being
    its price times its position. When it fails, no row is written. *)
Theorem Monitor_effect (env : Plan.Env) (w : World Plan.Store) :
  let out := Plan.Monitor env w in
  let p := Plan.self (store w) in
  let s' := Plan.st (Plan.self (store out.2)) in
  DB.orders (Plan.database (store out.2)) = DB.orders (Plan.database (store w)) /\
  Plan.position s' = Plan.position (Plan.st p) /\
  Plan.investment s' = Plan.investment (Plan.st p) /\
  match out.1 with
  | Ok _ =>
      exists row,
        DB.statistics (Plan.database (store out.2))
          = DB.statistics (Plan.database (store w)) ++ [row] /\
        DB.Statistics.Symbol row = Plan.symbol p /\
        DB.Statistics.Position row = Plan.position s' /\
        DB.Statistics.Investment row = Plan.investment s' /\
        DB.Statistics.Price row = Plan.price s' /\
        DB.Statistics.Equity row = Plan.equity s' /\
        DB.Statistics.Equity row
          = mul (DB.Statistics.Price row) (DB.Statistics.Position row)
  | Err _ =>
      DB.statistics (Plan.database (store out.2))
        = DB.statistics (Plan.database (store w))
  end.
Proof.
  cbn zeta. rewrite Monitor_eq.
  pose proof (stateFlush_effect env w) as (Hdb & Heff). cbn zeta in Heff.
  destruct (Plan.stateFlush env w) as [[[]|e] w1]; cbn [fst snd] in *.
  - destruct Heff as (_ & _ & Hsym & _ & Hpos & Hinv & Heq).
    pose proof (addStatistics_spec env w1) as (Hself & Hord & Hrow).
    cbn zeta in Hself, Hord, Hrow.
    destruct (Plan.addStatistics env w1) as [[[]|e] w2];
      cbn [fst snd wrapped] in *.
    + rewrite Hself. split; [congruence|]. split; [exact Hpos|].
      split; [exact Hinv|].
      eexists. split; [rewrite Hrow, Hdb; reflexivity|].
      cbn. split; [exact Hsym|]. split; [reflexivity|]. split; [reflexivity|].
      split; [reflexivity|]. split; [reflexivity|].
      rewrite Heq, Hpos. reflexivity.
    + rewrite Hself. split; [congruence|]. split; [exact Hpos|].
      split; [exact Hinv|]. destruct e; cbn; congruence.
  - rewrite Heff. split; [congruence|]. split; [reflexivity|].
    split; [reflexivity|]. destruct e; cbn; congruence.
Qed.

(** A monitoring tick on the small exchange writes the row of the state. *)
Example monitor_row :
  let out := Plan.Monitor
               (Scenario.desk Scenario.bought (of_Z 6400) Scenario.healthy)
               Scenario.start in
  (fun row => (DB.Statistics.Position row, DB.Statistics.Price row,
               DB.Statistics.Equity row))
    <$> DB.statistics (Plan.database (store out.2))
  = [(of_Z 2, of_Z 6400, of_Z 12800)].
Proof. vm_compute. reflexivity. Qed.

(** ** Investments that go wrong half way *)

(** X14. When [Invest] has stored the order and then fails, which is when
    the flush cannot get a price, the state is half updated: the order is
    in the table, its amounts have been added to the position and to the
    investment, and the price and the equity are the ones from before the
    call. *)
Theorem Invest_flush_failure (env : Plan.Env) (w w1 : World Plan.Store)
    (o : Huobi.OpenOrder.t) :
  let p := Plan.self (store w) in
  let out := Plan.Invest env w in
  let s' := Plan.st (Plan.self (store out.2)) in
  Huobi.Trade (Plan.net env) (Plan.client p) (Plan.symbol p) Huobi.BuyLimit
    (Plan.amount p) (of_Z (-1)) w = (Ok (Some o), w1) ->
  (Plan.addOrder env (Plan.normalized o) w1).1 = Ok tt ->
  is_ok out.1 = false ->
  DB.orders (Plan.database (store out.2))
    = DB.orders (Plan.database (store w)) ++ [Plan.order_row (Plan.normalized o)] /\
  Plan.position s'
    = add (Plan.position (Plan.st p))
          (Huobi.OpenOrder.FieldAmount (Plan.normalized o)) /\
  Plan.investment s'
    = add (Plan.investment (Plan.st p))
          (Huobi.OpenOrder.FieldCashAmount (Plan.normalized o)) /\
  Plan.price s' = Plan.price (Plan.st p) /\
  Plan.equity s' = Plan.equity (Plan.st p).
Proof.
  cbn zeta. intros Htrade Hadd Hfail.
  destruct (Invest_stored env w w1 o Htrade Hadd) as (Hrow & Hpos & Hinv).
  split; [exact Hrow|]. split; [exact Hpos|]. split; [exact Hinv|].
  rewrite Invest_eq in *. cbn zeta in *. rewrite Htrade in *.
  pose proof (preserves_Trade (Plan.net env) (Plan.client (Plan.self (store w)))
                (Plan.symbol (Plan.self (store w))) Huobi.BuyLimit
                (Plan.amount (Plan.self (store w))) (of_Z (-1)) w) as Hst.
  rewrite Htrade in Hst; cbn in Hst.
  pose proof (addOrder_spec env (Plan.normalized o) w1) as (Hself & _).
  destruct (Plan.addOrder env (Plan.normalized o) w1) as [[[]|e] w2];
    cbn in Hself, Hadd; [|discriminate].
  cbn [fst snd] in *.
  pose proof (stateUpdate_failure env (Plan.normalized o) w2) as Hkeep.
  cbn zeta in Hkeep.
  destruct (Plan.stateUpdate env (Plan.normalized o) w2) as [[[]|e] w3];
    cbn [fst snd wrapped is_ok] in *; [discriminate|].
  destruct (Hkeep eq_refl) as [Hprice Hequity].
  rewrite Hprice, Hequity, Hself, Hst. split; reflexivity.
Qed.

(** X14 on the small exchange with the market data unreachable: the plan
    holds 2.5 btc, and the equity is still that of 2 btc at 150. *)
Lemma Invest_flush_failure_witness :
  let env := {| Plan.net := Cases.no_quote Scenario.bought;
                Plan.driver := Scenario.healthy |} in
  let out := Plan.Invest env Scenario.start in
  let s' := Plan.st (Plan.self (store out.2)) in
  is_ok out.1 = false /\
  length (DB.orders (Plan.database (store out.2))) = 1%nat /\
  Plan.position s' = decimal 25 1 /\ Plan.investment s' = of_Z 400 /\
  Plan.price s' = of_Z 150 /\ Plan.equity s' = of_Z 300.
Proof.
  pose (env := {| Plan.net := Cases.no_quote Scenario.bought;
                  Plan.driver := Scenario.healthy |}).
  pose (p := Plan.self (store Scenario.start)).
  pose (t := Huobi.Trade (Plan.net env) (Plan.client p) (Plan.symbol p)
               Huobi.BuyLimit (Plan.amount p) (of_Z (-1)) Scenario.start).
  destruct (Invest_flush_failure env Scenario.start t.2 Scenario.bought)
    as (Hrow & Hpos & Hinv & Hprice & Hequity).
  - vm_compute. reflexivity.
  - vm_compute. reflexivity.
  - vm_compute. reflexivity.
  - cbn zeta. fold env. split; [vm_compute; reflexivity|].
    split; [rewrite Hrow; reflexivity|].
    split; [rewrite Hpos; vm_compute; reflexivity|].
    split; [rewrite Hinv; vm_compute; reflexivity|].
    split; [exact Hprice | exact Hequity].
Defined.

(** X15. An order whose number is already in the table is not counted
    twice: when the exchange reports such an order and the driver does not
    fail, [Invest] fails after one insert, and the plan and the database
    are as before the call. It fails on the primary key of the table; only
    when the price or an amount of the row is NaN is the insert refused
    before, on the first such column. *)
Theorem Invest_duplicate (env : Plan.Env) (w w1 : World Plan.Store)
    (o : Huobi.OpenOrder.t) :
  let p := Plan.self (store w) in
  Huobi.Trade (Plan.net env) (Plan.client p) (Plan.symbol p) Huobi.BuyLimit
    (Plan.amount p) (of_Z (-1)) w = (Ok (Some o), w1) ->
  DB.fault (Plan.driver env) (length (events w1)) = None ->
  (exists row, In row (DB.orders (Plan.database (store w))) /\
               DB.Order.ID row = Huobi.OpenOrder.ID o) ->
  Plan.Invest env w =
    (Err (Wrap (Wrap (New
            match DB.first_null (DB.order_reals (Plan.order_row (Plan.normalized o)))
            with
            | None => "UNIQUE constraint failed: orders.id"
            | Some column => "NOT NULL constraint failed: orders." +:+ column
            end) "db.AddOrder") "plan.(*plan).Invest"),
     {| events := events w1 ++ [SQL "INSERT INTO orders"]; store := store w |}).
Proof.
  cbn zeta. intros Htrade Hfault (row & Hin & Hid).
  pose proof (preserves_Trade (Plan.net env) (Plan.client (Plan.self (store w)))
                (Plan.symbol (Plan.self (store w))) Huobi.BuyLimit
                (Plan.amount (Plan.self (store w))) (of_Z (-1)) w) as Hst.
  rewrite Htrade in Hst; cbn in Hst.
  rewrite Invest_eq. cbn zeta. rewrite Htrade.
  destruct (DB.first_null (DB.order_reals (Plan.order_row (Plan.normalized o))))
    as [column|] eqn:Hnull.
  { rewrite (addOrder_null env (Plan.normalized o) w1 column Hfault Hnull).
    cbn [wrapped]. rewrite Hst. reflexivity. }
  unfold Plan.addOrder, Plan.db, DB.AddOrder. run. rewrite Hfault, Hnull. cbn.
  assert (existsb
            (fun o0 => DB.Order.ID o0 =? Huobi.OpenOrder.ID (Plan.normalized o))
            (DB.orders (Plan.database (store w1))) = true) as ->.
  { apply existsb_exists. exists row. rewrite Hst. split; [exact Hin|].
    apply Z.eqb_eq. rewrite Hid. unfold Plan.normalized.
    destruct (_ || _); reflexivity. }
  cbn. f_equal. f_equal. rewrite <- Hst. destruct (store w1) as [sf db].
  reflexivity.
Qed.

(** X15 on a database that already has the order 42. *)
Lemma Invest_duplicate_witness :
  let env := Scenario.desk Scenario.bought (of_Z 6400) Scenario.healthy in
  let out := Plan.Invest env Cases.recorded in
  out.1 = Err (Wrap (Wrap (New "UNIQUE constraint failed: orders.id") "db.AddOrder")
                 "plan.(*plan).Invest") /\
  store out.2 = store Cases.recorded.
Proof.
  pose (env := Scenario.desk Scenario.bought (of_Z 6400) Scenario.healthy).
  pose (p := Plan.self (store Cases.recorded)).
  pose (t := Huobi.Trade (Plan.net env) (Plan.client p) (Plan.symbol p)
               Huobi.BuyLimit (Plan.amount p) (of_Z (-1)) Cases.recorded).
  cbn zeta. fold env.
  rewrite (Invest_duplicate env Cases.recorded t.2 Scenario.bought).
  - split; reflexivity.
  - vm_compute. reflexivity.
  - reflexivity.
  - exists (Plan.order_row Scenario.bought). split; [left|]; reflexivity.
Defined.

(** ** The order that an investment places *)

Section Sent.
Context {S : Type}.
Variables (net : Huobi.Net) (c : Huobi.Client).

(** Once the address is parsed, [req] reads the clock and gives the
    request to [client.Do], between one and three times, whatever comes
    back. *)
Lemma req_sent (method address hostname path : string)
    (params : gmap string string) (w : World S) :
  Huobi.url_parse net (Huobi.host c +:+ address) = Ok (hostname, path) ->
  let r := Wire.request net c method address hostname path params w in
  exists n, (1 <= n <= 3)%nat /\
    events (Huobi.req net c method address params w).2
      = events w ++ Clock :: replicate n (HTTP r).
Proof.
  intros Hparse r. rewrite (req_eq net c _ _ _ _ _ _ Hparse). cbn zeta. fold r.
  set (w0 := {| events := events w ++ [Clock]; store := store w |}).
  destruct (roundtrip_run net r 0 false w0) as (n & Hn1 & Hn3 & Hev & _).
  exists n. split; [lia|].
  destruct (Huobi.roundtrip net r 0 false w0) as [[body|e] w1]; cbn [snd] in *;
    rewrite Hev; subst w0; cbn [events]; rewrite <- app_assoc; reflexivity.
Qed.

(** With the symbol and the spot account at hand, [Trade] starts by
    submitting the order. *)
Lemma Trade_sent (symbol : string) (cmd : Huobi.TradeType)
    (amount price : float64) (w : World S) (s : Huobi.Symbol.t) (id : Z)
    (hostname path : string) :
  Huobi.Symbol_ c symbol = Ok s ->
  Huobi.SpotAccountID c = Ok id ->
  Huobi.url_parse net (Huobi.host c +:+ "/v1/order/orders/place")
    = Ok (hostname, path) ->
  let params := Huobi.trade_params s id cmd amount price in
  let post := Wire.request net c "POST" "/v1/order/orders/place" hostname path
                params w in
  exists rest,
    events (Huobi.Trade net c symbol cmd amount price w).2
      = events w ++ Clock :: HTTP post :: rest.
Proof.
  intros Hsym Hspot Hparse params post.
  destruct (req_sent "POST" "/v1/order/orders/place" hostname path params w Hparse)
    as (n & Hn & Hev).
  fold post in Hev. unfold Huobi.Trade, wrapping.
  match goal with |- context [bind ?m0 ?k0 w] => set (body := bind m0 k0) end.
  assert (exists rest, events (body w).2
            = events w ++ Clock :: HTTP post :: rest) as [rest Hrest].
  { subst body. unfold bind at 1 2. unfold lift at 1 2.
    rewrite Hsym, Hspot. fold params.
    match goal with |- context [bind ?m0 ?k0 w] =>
      destruct (bind_extends m0 k0 w) as [rest Hrest] end.
    - intros a. cbv beta. pose proof (@grows_OpenOrder S net c). growth.
    - destruct n as [|n]; [lia|]. exists (replicate n (HTTP post) ++ rest).
      rewrite Hrest, Hev, <- app_assoc. reflexivity. }
  exists rest. destruct (body w) as [r0 w1]. exact Hrest.
Qed.

End Sent.

(** The price -1 that [Invest] passes on is formatted as "-1" at every
    precision from 0 to 308. *)
Lemma floor_minus_one (precision : Z) :
  0 <= precision <= 308 -> Huobi.floor (of_Z (-1)) precision = "-1".
Proof.
  intros Hp.
  assert (forallb (fun n => String.eqb (Huobi.floor (of_Z (-1)) n) "-1")
            (map Z.of_nat (seq 0 309)) = true) as Hall
    by (vm_compute; reflexivity).
  rewrite forallb_forall in Hall. apply String.eqb_eq, Hall.
  apply in_map_iff. exists (Z.to_nat precision). split; [lia|].
  apply in_seq. lia.
Qed.

(** X16. The order of an investment. With the symbol among those of the
    client, a spot account, and a price precision from 0 to 308, the first
    thing [Invest] does is to read the clock and POST an order to
    [/v1/order/orders/place], whatever happens afterwards; the order is of
    the kind ["buy-limit"], its amount is the amount of the plan cut to the
    amount precision of the symbol, and its price is ["-1"]. *)
Theorem Invest_order (env : Plan.Env) (w : World Plan.Store)
    (s : Huobi.Symbol.t) (id : Z) (hostname path : string) :
  let p := Plan.self (store w) in
  let c := Plan.client p in
  Huobi.Symbol_ c (Plan.symbol p) = Ok s ->
  Huobi.SpotAccountID c = Ok id ->
  0 <= Huobi.Symbol.PricePrecision s <= 308 ->
  Huobi.url_parse (Plan.net env) (Huobi.host c +:+ "/v1/order/orders/place")
    = Ok (hostname, path) ->
  exists (params : gmap string string) post rest,
    events (Plan.Invest env w).2 = events w ++ Clock :: HTTP post :: rest /\
    Method post = "POST" /\
    (exists query,
       URL post = (Huobi.host c +:+ "/v1/order/orders/place") +:+ "?" +:+ query) /\
    Body post = Some params /\
    params !! "type" = Some "buy-limit" /\
    params !! "symbol" = Some (Huobi.Symbol.Symbol s) /\
    params !! "account-id" = Some (Strconv.FormatUint id) /\
    params !! "amount"
      = Some (Huobi.floor (Plan.amount p) (Huobi.Symbol.AmountPrecision s)) /\
    params !! "price" = Some "-1".
Proof.
  cbn zeta. intros Hsym Hspot Hprec Hparse.
  set (p := Plan.self (store w)) in *.
  set (params := Huobi.trade_params s id Huobi.BuyLimit (Plan.amount p) (of_Z (-1))).
  set (post := Wire.request (Plan.net env) (Plan.client p) "POST"
                 "/v1/order/orders/place" hostname path params w).
  destruct (Trade_sent (Plan.net env) (Plan.client p) (Plan.symbol p)
              Huobi.BuyLimit (Plan.amount p) (of_Z (-1)) w s id hostname path
              Hsym Hspot Hparse) as [rest Hrest].
  fold params post in Hrest.
  assert (exists rest', events (Plan.Invest env w).2
            = events w ++ Clock :: HTTP post :: rest') as [rest' Hev].
  { rewrite Invest_eq. cbn zeta. fold p.
    destruct (Huobi.Trade _ _ _ _ _ _ w) as [[[o|]|e] w1]; cbn [snd] in Hrest.
    - destruct (grows_addOrder env (Plan.normalized o) w1) as [r1 Hr1].
      destruct (Plan.addOrder env (Plan.normalized o) w1) as [[[]|e] w2];
        cbn [snd] in *.
      + destruct (grows_stateUpdate env (Plan.normalized o) w2) as [r2 Hr2].
        exists (rest ++ r1 ++ r2).
        rewrite Hr2, Hr1, Hrest, <- !app_assoc. reflexivity.
      + exists (rest ++ r1). rewrite Hr1, Hrest, <- !app_assoc. reflexivity.
    - exists rest. exact Hrest.
    - exists rest. exact Hrest. }
  exists params, post, rest'.
  split; [exact Hev|]. split; [reflexivity|].
  split; [eexists; reflexivity|]. split; [reflexivity|].
  subst params. unfold Huobi.trade_params. cbn [String.eqb orb].
  change (String.eqb Huobi.BuyLimit Huobi.BuyLimit) with true. cbn [orb].
  rewrite (floor_minus_one _ Hprec).
  repeat split; simplify_map_eq; reflexivity.
Qed.

(** X16 on the small exchange: the order of the plan of 100 usdt a day. *)
Lemma Invest_order_witness :
  let env := Scenario.desk Scenario.bought (of_Z 6400) Scenario.healthy in
  exists (params : gmap string string) post rest,
    events (Plan.Invest env Scenario.start).2 = Clock :: HTTP post :: rest /\
    Body post = Some params /\
    params !! "type" = Some "buy-limit" /\
    params !! "amount" = Some "100" /\
    params !! "price" = Some "-1".
Proof.
  cbn zeta.
  destruct (Invest_order
              (Scenario.desk Scenario.bought (of_Z 6400) Scenario.healthy)
              Scenario.start Scenario.btcusdt 100 "api.huobi.pro"
              "/v1/order/orders/place")
    as (params & post & rest & Hev & _ & _ & Hbody & Htype & _ & _ & Hamount & Hprice);
    try reflexivity; try (vm_compute; split; discriminate).
  exists params, post, rest.
  split; [exact Hev|]. split; [exact Hbody|]. split; [exact Htype|].
  split; [rewrite Hamount; vm_compute; reflexivity | exact Hprice].
Defined.

(** ** A price that is not a number *)

(** X17. A monitoring tick at the price NaN: the flush writes the NaN into
    the state, as price and as equity, and the row is refused by the table
    of statistics on its column [price], the first one that holds a NaN:
    [Monitor] fails with this error, nothing is stored, and the state
    keeps the NaN. *)
Theorem Monitor_nan_quote (env : Plan.Env) (w w1 : World Plan.Store) :
  let p := Plan.self (store w) in
  Huobi.SymbolPrice (Plan.net env) (Plan.client p) (Plan.symbol p) w
    = (Ok S754_nan, w1) ->
  IsNaN (Plan.position (Plan.st p)) = false ->
  IsNaN (Plan.investment (Plan.st p)) = false ->
  DB.fault (Plan.driver env) (Datatypes.S (length (events w1))) = None ->
  let out := Plan.Monitor env w in
  let s' := Plan.st (Plan.self (store out.2)) in
  out.1 = Err (Wrap (Wrap (New "NOT NULL constraint failed: statistics.price")
                       "db.AddStatistics") "plan.(*plan).Monitor") /\
  events out.2 = events w1 ++ [Clock; SQL "INSERT INTO statistics"] /\
  Plan.database (store out.2) = Plan.database (store w) /\
  IsNaN (Plan.price s') = true /\ IsNaN (Plan.equity s') = true.
Proof.
  cbn zeta. intros Hquote Hpos Hinv Hfault.
  rewrite Monitor_eq, stateFlush_eq. cbn zeta. rewrite Hquote.
  unfold Plan.addStatistics, Plan.the_plan, Plan.db, DB.AddStatistics. run.
  rewrite length_app, Nat.add_1_r, Hfault. cbn.
  unfold DB.first_null, DB.statistics_reals. cbn.
  rewrite Hpos, Hinv. cbn. rewrite <- app_assoc.
  destruct (Plan.position (Plan.st (Plan.self (store w)))); auto.
Qed.

(** X17 on the small exchange. *)
Lemma Monitor_nan_quote_witness :
  let env := Scenario.desk Scenario.bought S754_nan Scenario.healthy in
  let out := Plan.Monitor env Scenario.start in
  out.1 = Err (Wrap (Wrap (New "NOT NULL constraint failed: statistics.price")
                       "db.AddStatistics") "plan.(*plan).Monitor") /\
  DB.statistics (Plan.database (store out.2)) = [] /\
  IsNaN (Plan.equity (Plan.st (Plan.self (store out.2)))) = true.
Proof.
  pose (env := Scenario.desk Scenario.bought S754_nan Scenario.healthy).
  pose (p := Plan.self (store Scenario.start)).
  pose (t := Huobi.SymbolPrice (Plan.net env) (Plan.client p) (Plan.symbol p)
               Scenario.start).
  destruct (Monitor_nan_quote env Scenario.start t.2)
    as (Hout & _ & Hdb & _ & Hequity);
    try reflexivity; try (vm_compute; reflexivity).
  cbn zeta. fold env. split; [exact Hout|]. split; [rewrite Hdb; reflexivity|].
  exact Hequity.
Defined.
